(** * Bl4ckChat: the mesh protocol core, embedded and verified

    The development follows the TypeScript sources:
    - [BinaryProtocol] (protocol/BinaryProtocol.ts): the packet envelope codec;
    - [BitchatMessageCodec] (models/BitchatMessage.ts): the chat message codec;
    - [WebBluetoothMeshService] (services/WebBluetoothMeshService.ts): dispatch,
      deduplication, relay, fragment reassembly, announce validation, shutdown.

    Bytes are integers in [0, 256) held in [Z]; a [Uint8Array] is a list of
    them.  A JavaScript string is the list of its UTF-16 code units.  The
    service is a record of its tables; every handler maps a state to a new
    state and the list of effects (delegate calls, timers, writes) it raised. *)

From Stdlib Require Import String Ascii DecimalString QArith.
From Stdlib Require Import ZArith List Bool Lia.
Import ListNotations.
Open Scope Z_scope.

(* ================================================================== *)
(** * JavaScript values used by the sources *)
(* ================================================================== *)

Module JS.

(** A [Uint8Array]. *)
Definition bytes := list Z.

Definition is_byte (b : Z) : Prop := 0 <= b < 256.

Definition len {A} (l : list A) : Z := Z.of_nat (length l).

(** Storing a number into a [Uint8Array] keeps its low eight bits. *)
Definition toUint8 (x : Z) : Z := Z.land x 255.

(** [new Uint8Array(data)] for a [number[]]. *)
Definition Uint8Array_from (data : list Z) : bytes := map toUint8 data.

(** [new Uint8Array(n)] followed by [.set(src)] for [src] no longer than [n]. *)
Definition padded (n : nat) (src : bytes) : bytes :=
  src ++ repeat 0 (n - length src).

(** The relative index of [Array.prototype.slice]: negative counts from the end. *)
Definition rel_index (n k : Z) : Z :=
  if k <? 0 then Z.max (n + k) 0 else Z.min k n.

(** [data.slice(start, end)]. *)
Definition slice {A} (data : list A) (start end_ : Z) : list A :=
  let from := rel_index (len data) start in
  let to := rel_index (len data) end_ in
  firstn (Z.to_nat (to - from)) (skipn (Z.to_nat from) data).

(** [data.slice(start)]. *)
Definition slice_from {A} (data : list A) (start : Z) : list A :=
  slice data start (len data).

(** [data[i]]: [None] is [undefined]. *)
Definition at_ {A} (data : list A) (i : Z) : option A :=
  if i <? 0 then None else nth_error data (Z.to_nat i).

(** [data[i]] under a bitwise operator: [undefined] converts to 0. *)
Definition at0 (data : bytes) (i : Z) : Z :=
  match at_ data i with Some b => b | None => 0 end.

(** ToInt32, and the 32-bit operators the sources apply to numbers. *)
Definition toInt32 (x : Z) : Z :=
  let m := x mod 4294967296 in
  if m <? 2147483648 then m else m - 4294967296.

Definition sar32 (x n : Z) : Z := Z.shiftr (toInt32 x) (n mod 32).
Definition shl32 (x n : Z) : Z := toInt32 (Z.shiftl (toInt32 x) (n mod 32)).
Definition and32 (x y : Z) : Z := toInt32 (Z.land (toInt32 x) (toInt32 y)).
Definition or32 (x y : Z) : Z := toInt32 (Z.lor (toInt32 x) (toInt32 y)).

(** A string: its UTF-16 code units. *)
Definition JSString := list Z.

(** An ASCII literal of the sources as a [JSString]. *)
Definition lit (s : string) : JSString :=
  map (fun c => Z.of_N (N_of_ascii c)) (list_ascii_of_string s).

Fixpoint str_eqb (a b : JSString) : bool :=
  match a, b with
  | [], [] => true
  | x :: a', y :: b' => (x =? y) && str_eqb a' b'
  | _, _ => false
  end.

(** Truthiness of a string: the empty string is falsy. *)
Definition truthy (s : JSString) : bool :=
  match s with [] => false | _ => true end.

(** [b.toString(16).padStart(2, '0')] for a byte. *)
Definition hexDigit (d : Z) : Z := if d <? 10 then 48 + d else 87 + d.
Definition byteToHex (b : Z) : JSString := [hexDigit (b / 16); hexDigit (b mod 16)].

End JS.

Import JS.

(* ================================================================== *)
(** * protocol/BinaryProtocol.ts *)
(* ================================================================== *)

Record BitchatPacket := mkPacket {
  version : Z;
  type : Z;
  ttl : Z;
  timestamp : Z;                 (* bigint *)
  senderID : bytes;
  recipientID : option bytes;
  payload : bytes;
  signature : option bytes
}.

Module MessageType.
Definition ANNOUNCE := 0x01.
Definition LEAVE := 0x03.
Definition MESSAGE := 0x04.
Definition FRAGMENT_START := 0x05.
Definition FRAGMENT_CONTINUE := 0x06.
Definition FRAGMENT_END := 0x07.
Definition CHANNEL_ANNOUNCE := 0x08.
Definition CHANNEL_RETENTION := 0x09.
Definition DELIVERY_ACK := 0x0A.
Definition DELIVERY_STATUS_REQUEST := 0x0B.
Definition READ_RECEIPT := 0x0C.
Definition NOISE_HANDSHAKE_INIT := 0x10.
Definition NOISE_HANDSHAKE_RESP := 0x11.
Definition NOISE_ENCRYPTED := 0x12.
Definition NOISE_IDENTITY_ANNOUNCE := 0x13.
Definition CHANNEL_KEY_VERIFY_REQUEST := 0x14.
Definition CHANNEL_KEY_VERIFY_RESPONSE := 0x15.
Definition CHANNEL_PASSWORD_UPDATE := 0x16.
Definition CHANNEL_METADATA := 0x17.
End MessageType.

Module SpecialRecipients.
Definition BROADCAST : bytes := repeat 0xFF 8.
End SpecialRecipients.

(** [bytesToHex] *)
Definition bytesToHex (b : bytes) : JSString := flat_map byteToHex b.

Module BinaryProtocol.

Definition HEADER_SIZE := 13.
Definition SENDER_ID_SIZE := 8.
Definition RECIPIENT_ID_SIZE := 8.
Definition SIGNATURE_SIZE := 64.
Definition VERSION := 1.

Definition HAS_RECIPIENT := 0x01.
Definition HAS_SIGNATURE := 0x02.
Definition IS_COMPRESSED := 0x04.

(** [trimNullBytes]: cut at the first zero byte. *)
Fixpoint trimNullBytes (data : bytes) : bytes :=
  match data with
  | [] => []
  | b :: rest => if b =? 0 then [] else b :: trimNullBytes rest
  end.

(** [new Set(data).size] *)
Definition uniqueBytes (data : bytes) : Z := len (nodup Z.eq_dec data).

(** [isLikelyCompressed]: [uniqueBytes / data.length > 0.7], on the rationals. *)
Definition isLikelyCompressed (data : bytes) : bool :=
  7 * len data <? 10 * uniqueBytes data.

Definition shouldCompress (data : bytes) : bool :=
  (100 <? len data) && negb (isLikelyCompressed data).

(** [compress] and [decompress] return [null] on every input. *)
Definition compress (_ : bytes) : option bytes := None.
Definition decompress (_ : bytes) (_ : Z) : option bytes := None.

(** The big-endian byte at position [i] (7 is the most significant) of a bigint:
    [Number((timestamp >> BigInt(i * 8)) & BigInt(0xFF))]. *)
Definition bigintByte (t : Z) (i : Z) : Z := Z.land (Z.shiftr t (i * 8)) 0xFF.

Definition flagIf (c : bool) (f : Z) (flags : Z) : Z :=
  if c then Z.lor flags f else flags.

Definition isSome {A} (o : option A) : bool :=
  match o with Some _ => true | None => false end.

Definition encode (packet : BitchatPacket) : option bytes :=
  (* compression, when beneficial *)
  let '(payload_, originalPayloadSize, isCompressed) :=
    if shouldCompress packet.(payload) then
      match compress packet.(payload) with
      | Some compressed => (compressed, Some (len packet.(payload)), true)
      | None => (packet.(payload), None, false)
      end
    else (packet.(payload), None, false) in
  (* header *)
  let header :=
    [ (if packet.(version) =? 0 then VERSION else packet.(version));
      packet.(type);
      packet.(ttl) ] in
  let ts := map (bigintByte packet.(timestamp)) [7; 6; 5; 4; 3; 2; 1; 0] in
  let flags :=
    flagIf isCompressed IS_COMPRESSED
      (flagIf (isSome packet.(signature)) HAS_SIGNATURE
        (flagIf (isSome packet.(recipientID)) HAS_RECIPIENT 0)) in
  let payloadDataSize := len payload_ + (if isCompressed then 2 else 0) in
  let size :=
    [ Z.land (Z.shiftr payloadDataSize 8) 0xFF; Z.land payloadDataSize 0xFF ] in
  let senderPadded := padded 8 (slice packet.(senderID) 0 8) in
  let recipient :=
    match packet.(recipientID) with
    | Some r => padded 8 (slice r 0 8)
    | None => []
    end in
  let original :=
    match isCompressed, originalPayloadSize with
    | true, Some n => [ Z.land (Z.shiftr n 8) 0xFF; Z.land n 0xFF ]
    | _, _ => []
    end in
  let sig :=
    match packet.(signature) with
    | Some s => padded 64 (slice s 0 64)
    | None => []
    end in
  Some (Uint8Array_from
          (header ++ ts ++ [flags] ++ size ++ senderPadded ++ recipient
             ++ original ++ payload_ ++ sig)).

Definition decode (data : bytes) : option BitchatPacket :=
  if len data <? HEADER_SIZE + SENDER_ID_SIZE then None
  else
    match data with
    | version :: type :: ttl
        :: t0 :: t1 :: t2 :: t3 :: t4 :: t5 :: t6 :: t7
        :: flags :: sizeHi :: sizeLo :: _ =>
      let timestamp :=
        fold_left (fun acc b => Z.lor (Z.shiftl acc 8) b)
                  [t0; t1; t2; t3; t4; t5; t6; t7] 0 in
      let hasRecipient := negb (Z.land flags HAS_RECIPIENT =? 0) in
      let hasSignature := negb (Z.land flags HAS_SIGNATURE =? 0) in
      let isCompressed := negb (Z.land flags IS_COMPRESSED =? 0) in
      let payloadLength := Z.lor (Z.shiftl sizeHi 8) sizeLo in
      (* fourteen bytes read so far: the running offset *)
      let offset := 14 in
      let senderID := slice data offset (offset + SENDER_ID_SIZE) in
      let offset := offset + SENDER_ID_SIZE in
      let '(recipientID, offset) :=
        if hasRecipient
        then (Some (slice data offset (offset + RECIPIENT_ID_SIZE)),
              offset + RECIPIENT_ID_SIZE)
        else (None, offset) in
      let '(originalPayloadSize, actualPayloadLength, offset) :=
        if isCompressed
        then (Some (Z.lor (Z.shiftl (at0 data offset) 8) (at0 data (offset + 1))),
              payloadLength - 2, offset + 2)
        else (None, payloadLength, offset) in
      let payload := slice data offset (offset + actualPayloadLength) in
      let offset := offset + actualPayloadLength in
      let payload :=
        match isCompressed, originalPayloadSize with
        | true, Some n =>
            if n =? 0 then payload
            else match decompress payload n with
                 | Some decompressed => decompressed
                 | None => payload
                 end
        | _, _ => payload
        end in
      let signature :=
        if hasSignature then Some (slice data offset (offset + SIGNATURE_SIZE))
        else None in
      Some {| version := version; type := type; ttl := ttl;
              timestamp := timestamp;
              senderID := trimNullBytes senderID;
              recipientID := option_map trimNullBytes recipientID;
              payload := payload;
              signature := signature |}
    | _ => None
    end.

(** A packet whose fields fit the wire layout: one-byte version (not the
    unset value 0), type and ttl, a 64-bit timestamp, identifiers of at most
    eight bytes, a payload the two-byte length field can count, and a
    signature of exactly 64 bytes. *)
Definition valid_id (i : bytes) : Prop := Forall is_byte i /\ (length i <= 8)%nat.

Definition valid_packet (p : BitchatPacket) : Prop :=
  1 <= p.(version) < 256 /\ is_byte p.(type) /\ is_byte p.(ttl)
  /\ 0 <= p.(timestamp) < 2 ^ 64
  /\ valid_id p.(senderID)
  /\ match p.(recipientID) with Some r => valid_id r | None => True end
  /\ Forall is_byte p.(payload) /\ len p.(payload) <= 65535
  /\ match p.(signature) with
     | Some s => Forall is_byte s /\ length s = 64%nat
     | None => True
     end.

(** The packet with both identifiers cut at their first zero byte. *)
Definition trimIDs (p : BitchatPacket) : BitchatPacket :=
  {| version := p.(version); type := p.(type); ttl := p.(ttl);
     timestamp := p.(timestamp);
     senderID := trimNullBytes p.(senderID);
     recipientID := option_map trimNullBytes p.(recipientID);
     payload := p.(payload);
     signature := p.(signature) |}.

End BinaryProtocol.

(* ================================================================== *)
(** * The platform's text codecs *)
(* ================================================================== *)

(** [TextEncoder] and [TextDecoder] for UTF-8, as the Encoding standard
    defines them: unpaired surrogates are encoded as U+FFFD, ill-formed byte
    sequences decode to U+FFFD per maximal subpart, and the decoder drops a
    leading byte-order mark. *)
Module Utf8.

Definition REPLACEMENT := 0xFFFD.
Definition BOM := 0xFEFF.

Definition between (lo hi x : Z) : bool := (lo <=? x) && (x <=? hi).

Definition isHighSurrogate (u : Z) : bool := between 0xD800 0xDBFF u.
Definition isLowSurrogate (u : Z) : bool := between 0xDC00 0xDFFF u.

(** The code points of a string. *)
Fixpoint scalars (s : JSString) : list Z :=
  match s with
  | [] => []
  | u :: rest =>
      if isHighSurrogate u then
        match rest with
        | l :: rest' =>
            if isLowSurrogate l
            then (0x10000 + (u - 0xD800) * 1024 + (l - 0xDC00)) :: scalars rest'
            else REPLACEMENT :: scalars rest
        | [] => [REPLACEMENT]
        end
      else if isLowSurrogate u then REPLACEMENT :: scalars rest
      else u :: scalars rest
  end.

Definition encodeCodePoint (cp : Z) : bytes :=
  if cp <? 0x80 then [cp]
  else if cp <? 0x800 then [0xC0 + cp / 64; 0x80 + cp mod 64]
  else if cp <? 0x10000 then
    [0xE0 + cp / 4096; 0x80 + (cp / 64) mod 64; 0x80 + cp mod 64]
  else
    [0xF0 + cp / 262144; 0x80 + (cp / 4096) mod 64;
     0x80 + (cp / 64) mod 64; 0x80 + cp mod 64].

(** [new TextEncoder().encode(s)] *)
Definition encode (s : JSString) : bytes := flat_map encodeCodePoint (scalars s).

(** The code points of a byte sequence. *)
Fixpoint codePoints (data : bytes) : list Z :=
  match data with
  | [] => []
  | b0 :: r0 =>
      if between 0x00 0x7F b0 then b0 :: codePoints r0
      else if between 0xC2 0xDF b0 then
        match r0 with
        | b1 :: r1 =>
            if between 0x80 0xBF b1
            then ((b0 - 0xC0) * 64 + (b1 - 0x80)) :: codePoints r1
            else REPLACEMENT :: codePoints r0
        | [] => [REPLACEMENT]
        end
      else if between 0xE0 0xEF b0 then
        match r0 with
        | b1 :: r1 =>
            if between (if b0 =? 0xE0 then 0xA0 else 0x80)
                       (if b0 =? 0xED then 0x9F else 0xBF) b1
            then
              match r1 with
              | b2 :: r2 =>
                  if between 0x80 0xBF b2
                  then ((b0 - 0xE0) * 4096 + (b1 - 0x80) * 64 + (b2 - 0x80))
                         :: codePoints r2
                  else REPLACEMENT :: codePoints r1
              | [] => [REPLACEMENT]
              end
            else REPLACEMENT :: codePoints r0
        | [] => [REPLACEMENT]
        end
      else if between 0xF0 0xF4 b0 then
        match r0 with
        | b1 :: r1 =>
            if between (if b0 =? 0xF0 then 0x90 else 0x80)
                       (if b0 =? 0xF4 then 0x8F else 0xBF) b1
            then
              match r1 with
              | b2 :: r2 =>
                  if between 0x80 0xBF b2
                  then
                    match r2 with
                    | b3 :: r3 =>
                        if between 0x80 0xBF b3
                        then ((b0 - 0xF0) * 262144 + (b1 - 0x80) * 4096
                              + (b2 - 0x80) * 64 + (b3 - 0x80)) :: codePoints r3
                        else REPLACEMENT :: codePoints r2
                    | [] => [REPLACEMENT]
                    end
                  else REPLACEMENT :: codePoints r1
              | [] => [REPLACEMENT]
              end
            else REPLACEMENT :: codePoints r0
        | [] => [REPLACEMENT]
        end
      else REPLACEMENT :: codePoints r0
  end.

Definition codeUnits (cp : Z) : list Z :=
  if cp <? 0x10000 then [cp]
  else [0xD800 + (cp - 0x10000) / 1024; 0xDC00 + (cp - 0x10000) mod 1024].

Definition dropBOM (cps : list Z) : list Z :=
  match cps with
  | c :: rest => if c =? BOM then rest else cps
  | [] => []
  end.

(** [new TextDecoder().decode(data)] *)
Definition decode (data : bytes) : JSString :=
  flat_map codeUnits (dropBOM (codePoints data)).

End Utf8.

(** [String.prototype.trim]: the white space and line terminators of the language. *)
Definition isWhiteSpace (u : Z) : bool :=
  Utf8.between 0x09 0x0D u || (u =? 0x20) || (u =? 0xA0) || (u =? 0x1680)
  || Utf8.between 0x2000 0x200A u || (u =? 0x2028) || (u =? 0x2029)
  || (u =? 0x202F) || (u =? 0x205F) || (u =? 0x3000) || (u =? 0xFEFF).

Fixpoint trimStart (s : JSString) : JSString :=
  match s with
  | u :: rest => if isWhiteSpace u then trimStart rest else s
  | [] => []
  end.

Definition trim (s : JSString) : JSString := rev (trimStart (rev (trimStart s))).

(* ================================================================== *)
(** * models/BitchatMessage.ts *)
(* ================================================================== *)

Inductive DeliveryStatus := PENDING | DELIVERED | READ | FAILED.

Module Msg.
Record BitchatMessage := mk {
  id : JSString;
  sender : JSString;
  content : JSString;
  timestamp : Z;                              (* Date: milliseconds since the epoch *)
  isRelay : bool;
  originalSender : option JSString;
  isPrivate : bool;
  recipientNickname : option JSString;
  senderPeerID : JSString;
  mentions : option (list JSString);
  channel : option JSString;
  encryptedContent : option bytes;
  isEncrypted : bool;
  deliveryStatus : option DeliveryStatus
}.

(** [message.senderPeerID = peer] *)
Definition setSenderPeerID (m : BitchatMessage) (peer : JSString) : BitchatMessage :=
  {| id := m.(id); sender := m.(sender); content := m.(content);
     timestamp := m.(timestamp); isRelay := m.(isRelay);
     originalSender := m.(originalSender); isPrivate := m.(isPrivate);
     recipientNickname := m.(recipientNickname); senderPeerID := peer;
     mentions := m.(mentions); channel := m.(channel);
     encryptedContent := m.(encryptedContent); isEncrypted := m.(isEncrypted);
     deliveryStatus := m.(deliveryStatus) |}.
End Msg.
Definition BitchatMessage : Type := Msg.BitchatMessage.

(** The JSON text codec of the platform, restricted to chat messages:
    [parseMessage] is [JSON.parse] followed by the field-by-field construction
    of [fromBinaryPayload] ([None] when either throws), [stringifyMessage] is
    the construction of the object followed by [JSON.stringify] and
    [TextEncoder]. *)
Record JSONCodec := {
  parseMessage : JSString -> option BitchatMessage;
  stringifyMessage : BitchatMessage -> option bytes
}.

Module BitchatMessageCodec.

Definition optTruthy (o : option JSString) : bool :=
  match o with Some s => truthy s | None => false end.

Definition hasMentions (m : BitchatMessage) : bool :=
  match m.(Msg.mentions) with
  | Some l => 0 <? len l
  | None => false
  end.

(** [addString(str, 255)]: one length byte, then at most 255 bytes of UTF-8. *)
Definition addString (str : JSString) : list Z :=
  let bytes := Utf8.encode str in
  let length := Z.min (len bytes) 255 in
  length :: slice bytes 0 length.

(** [addContent(str)]: two length bytes, then at most 65535 bytes of UTF-8. *)
Definition addBytes16 (bytes : bytes) : list Z :=
  let length := Z.min (len bytes) 65535 in
  and32 (sar32 length 8) 0xFF :: and32 length 0xFF :: slice bytes 0 length.

Definition addContent (str : JSString) : list Z := addBytes16 (Utf8.encode str).

Definition addOptional (o : option JSString) : list Z :=
  match o with
  | Some s => if truthy s then addString s else []
  | None => []
  end.

Definition toIOSBinaryPayload (message : BitchatMessage) : option bytes :=
  let flags :=
    BinaryProtocol.flagIf message.(Msg.isEncrypted) 0x80
     (BinaryProtocol.flagIf (optTruthy message.(Msg.channel)) 0x40
      (BinaryProtocol.flagIf (hasMentions message) 0x20
       (BinaryProtocol.flagIf (truthy message.(Msg.senderPeerID)) 0x10
        (BinaryProtocol.flagIf (optTruthy message.(Msg.recipientNickname)) 0x08
         (BinaryProtocol.flagIf (optTruthy message.(Msg.originalSender)) 0x04
          (BinaryProtocol.flagIf message.(Msg.isPrivate) 0x02
           (BinaryProtocol.flagIf message.(Msg.isRelay) 0x01 0))))))) in
  (* (timestampMillis >> (i * 8)) & 0xFF on 32-bit operands *)
  let timestampMillis := message.(Msg.timestamp) in
  let ts := map (fun i => and32 (sar32 timestampMillis (i * 8)) 0xFF)
                [7; 6; 5; 4; 3; 2; 1; 0] in
  let body :=
    match message.(Msg.isEncrypted), message.(Msg.encryptedContent) with
    | true, Some encrypted => addBytes16 encrypted
    | _, _ => addContent message.(Msg.content)
    end in
  let mentions :=
    match message.(Msg.mentions) with
    | Some l =>
        if 0 <? len l
        then Z.min (len l) 255 :: flat_map addString (slice l 0 255)
        else []
    | None => []
    end in
  Some (Uint8Array_from
          ([flags] ++ ts
           ++ addString message.(Msg.id)
           ++ addString message.(Msg.sender)
           ++ body
           ++ addOptional message.(Msg.originalSender)
           ++ addOptional message.(Msg.recipientNickname)
           ++ (if truthy message.(Msg.senderPeerID)
               then addString message.(Msg.senderPeerID) else [])
           ++ mentions
           ++ addOptional message.(Msg.channel))).

(** A length-prefixed string that must be present. *)
Definition readString (data : bytes) (offset : Z) : option (JSString * Z) :=
  if len data <=? offset then None
  else
    let length := at0 data offset in
    let offset := offset + 1 in
    if len data <? offset + length then None
    else Some (Utf8.decode (slice data offset (offset + length)), offset + length).

(** A length-prefixed string read only when flagged and when bytes remain; a
    length that runs past the end leaves the field unset, the length byte
    consumed. *)
Definition readOptional (has : bool) (data : bytes) (offset : Z)
  : option JSString * Z :=
  if has && (offset <? len data) then
    let length := at0 data offset in
    let offset := offset + 1 in
    if offset + length <=? len data
    then (Some (Utf8.decode (slice data offset (offset + length))), offset + length)
    else (None, offset)
  else (None, offset).

Fixpoint readMentions (count : nat) (data : bytes) (offset : Z)
    (mentions : list JSString) : list JSString * Z :=
  match count with
  | O => (mentions, offset)
  | S count' =>
      if offset <? len data then
        let length := at0 data offset in
        let offset := offset + 1 in
        if offset + length <=? len data
        then readMentions count' data (offset + length)
               (mentions ++ [Utf8.decode (slice data offset (offset + length))])
        else readMentions count' data offset mentions
      else (mentions, offset)
  end.

Definition fromIOSBinaryPayload (data : bytes) : option BitchatMessage :=
  if len data <? 13 then None
  else
    let offset := 0 in
    let flags := at0 data offset in
    let offset := offset + 1 in
    let isRelay := negb (Z.land flags 0x01 =? 0) in
    let isPrivate := negb (Z.land flags 0x02 =? 0) in
    let hasOriginalSender := negb (Z.land flags 0x04 =? 0) in
    let hasRecipientNickname := negb (Z.land flags 0x08 =? 0) in
    let hasSenderPeerID := negb (Z.land flags 0x10 =? 0) in
    let hasMentions := negb (Z.land flags 0x20 =? 0) in
    let hasChannel := negb (Z.land flags 0x40 =? 0) in
    let isEncrypted := negb (Z.land flags 0x80 =? 0) in
    if len data <? offset + 8 then None
    else
      (* timestampMillis = (timestampMillis << 8) | data[offset++], on 32 bits *)
      let timestampMillis :=
        fold_left (fun acc b => or32 (shl32 acc 8) b) (slice data offset (offset + 8)) 0 in
      let offset := offset + 8 in
      match readString data offset with
      | None => None
      | Some (id, offset) =>
      match readString data offset with
      | None => None
      | Some (sender, offset) =>
        if len data <? offset + 2 then None
        else
          let contentLength := Z.lor (Z.shiftl (at0 data offset) 8) (at0 data (offset + 1)) in
          let offset := offset + 2 in
          if len data <? offset + contentLength then None
          else
            let '(content, encryptedContent) :=
              if isEncrypted
              then ([], Some (slice data offset (offset + contentLength)))
              else (Utf8.decode (slice data offset (offset + contentLength)), None) in
            let offset := offset + contentLength in
            let '(originalSender, offset) := readOptional hasOriginalSender data offset in
            let '(recipientNickname, offset) :=
              readOptional hasRecipientNickname data offset in
            let '(senderPeerID, offset) := readOptional hasSenderPeerID data offset in
            let '(mentions, offset) :=
              if hasMentions && (offset <? len data)
              then
                let mentionCount := at0 data offset in
                let '(l, offset) :=
                  readMentions (Z.to_nat mentionCount) data (offset + 1) [] in
                (Some l, offset)
              else (None, offset) in
            let '(channel, _) := readOptional hasChannel data offset in
            Some {| Msg.id := id;
                    Msg.sender := sender;
                    Msg.content := content;
                    Msg.timestamp := timestampMillis;
                    Msg.isRelay := isRelay;
                    Msg.isPrivate := isPrivate;
                    Msg.senderPeerID :=
                      match senderPeerID with
                      | Some s => if truthy s then s else []
                      | None => []
                      end;
                    Msg.isEncrypted := isEncrypted;
                    Msg.originalSender := originalSender;
                    Msg.recipientNickname := recipientNickname;
                    Msg.mentions := mentions;
                    Msg.channel := channel;
                    Msg.encryptedContent := encryptedContent;
                    Msg.deliveryStatus := None |}
      end end.

(** [toBinaryPayload]: the compact format first, JSON when it yields nothing. *)
Definition toBinaryPayload (json : JSONCodec) (message : BitchatMessage)
  : option bytes :=
  match toIOSBinaryPayload message with
  | Some iosPayload => Some iosPayload
  | None => json.(stringifyMessage) message
  end.

(** [fromBinaryPayload]: the compact format first; otherwise the payload as
    text, which must be non-blank and delimited by braces before it is parsed. *)
Definition fromBinaryPayload (json : JSONCodec) (payload : bytes)
  : option BitchatMessage :=
  match fromIOSBinaryPayload payload with
  | Some iosMessage => Some iosMessage
  | None =>
      let jsonString := Utf8.decode payload in
      let trimmed := trim jsonString in
      if negb (truthy trimmed) then None
      else if negb (match trimmed with c :: _ => c =? 123 | [] => false end)
              || negb (match rev trimmed with c :: _ => c =? 125 | [] => false end)
      then None
      else json.(parseMessage) jsonString
  end.

End BitchatMessageCodec.

(* ================================================================== *)
(** * Insertion-ordered maps and sets *)
(* ================================================================== *)

(** A JavaScript [Map] iterates in insertion order and [set] on a present key
    keeps its place: an association list without repeated keys. *)
Module OMap.
Section WithKey.
Context {K V : Type} (eqb : K -> K -> bool).

Fixpoint get (m : list (K * V)) (k : K) : option V :=
    match m with
    | [] => None
    | (k', v) :: rest => if eqb k' k then Some v else get rest k
    end.

Definition has (m : list (K * V)) (k : K) : bool :=
    match get m k with Some _ => true | None => false end.

Fixpoint set (m : list (K * V)) (k : K) (v : V) : list (K * V) :=
    match m with
    | [] => [(k, v)]
    | (k', v') :: rest =>
        if eqb k' k then (k', v) :: rest else (k', v') :: set rest k v
    end.

Fixpoint delete (m : list (K * V)) (k : K) : list (K * V) :=
    match m with
    | [] => []
    | (k', v') :: rest =>
        if eqb k' k then rest else (k', v') :: delete rest k
    end.

Definition size (m : list (K * V)) : Z := len m.
End WithKey.
End OMap.

(** A JavaScript [Set]. *)
Module OSet.
Section WithKey.
Context {K : Type} (eqb : K -> K -> bool).

Definition has (s : list K) (k : K) : bool := existsb (fun k' => eqb k' k) s.

Definition add (s : list K) (k : K) : list K :=
    if has s k then s else s ++ [k].

Fixpoint delete (s : list K) (k : K) : list K :=
    match s with
    | [] => []
    | k' :: rest => if eqb k' k then rest else k' :: delete rest k
    end.

Definition size (s : list K) : Z := len s.
End WithKey.
End OSet.

(* ================================================================== *)
(** * services/WebBluetoothMeshService.ts: the state *)
(* ================================================================== *)

(** A [BluetoothDevice] object: its identity and its name. *)
Record Device := { deviceId : Z; deviceName : option JSString }.

Definition device_eqb (a b : Device) : bool := a.(deviceId) =? b.(deviceId).

Module Meta.
Record FragmentMeta := mk {
  originalType : Z;
  totalFragments : Z;
  timestamp : Z                  (* Date *)
}.
End Meta.
Definition FragmentMeta : Type := Meta.FragmentMeta.

Record Service := {
  myPeerID : JSString;
  nickname : JSString;
  isScanning : bool;
  connectedDevices : list (JSString * Device);   (* Map<string, BluetoothDevice> *)
  deviceCharacteristics : list (Device * Z);   (* Map<BluetoothDevice, characteristic> *)
  activePeers : list JSString;   (* Set<string> *)
  peerNicknames : list (JSString * JSString);   (* Map<string, string> *)
  processedMessages : list JSString;   (* Set<string> *)
  incomingFragments : list (JSString * list (Z * bytes));   (* Map<string, Map<number, Uint8Array>> *)
  fragmentMetadata : list (JSString * FragmentMeta);   (* Map<string, {originalType, totalFragments, timestamp}> *)
  delegate : bool;   (* whether a delegate is installed *)
  randomCalls : nat   (* how many times Math.random() has been called *)
}.

(** Field updates. *)
Definition set_nickname (v : JSString) (s : Service) : Service :=
  {| myPeerID := s.(myPeerID); nickname := v; isScanning := s.(isScanning);
     connectedDevices := s.(connectedDevices);
     deviceCharacteristics := s.(deviceCharacteristics);
     activePeers := s.(activePeers); peerNicknames := s.(peerNicknames);
     processedMessages := s.(processedMessages);
     incomingFragments := s.(incomingFragments);
     fragmentMetadata := s.(fragmentMetadata); delegate := s.(delegate);
     randomCalls := s.(randomCalls) |}.
Definition set_isScanning (v : bool) (s : Service) : Service :=
  {| myPeerID := s.(myPeerID); nickname := s.(nickname); isScanning := v;
     connectedDevices := s.(connectedDevices);
     deviceCharacteristics := s.(deviceCharacteristics);
     activePeers := s.(activePeers); peerNicknames := s.(peerNicknames);
     processedMessages := s.(processedMessages);
     incomingFragments := s.(incomingFragments);
     fragmentMetadata := s.(fragmentMetadata); delegate := s.(delegate);
     randomCalls := s.(randomCalls) |}.
Definition set_connectedDevices (v : list (JSString * Device)) (s : Service) : Service :=
  {| myPeerID := s.(myPeerID); nickname := s.(nickname); isScanning := s.(isScanning);
     connectedDevices := v; deviceCharacteristics := s.(deviceCharacteristics);
     activePeers := s.(activePeers); peerNicknames := s.(peerNicknames);
     processedMessages := s.(processedMessages);
     incomingFragments := s.(incomingFragments);
     fragmentMetadata := s.(fragmentMetadata); delegate := s.(delegate);
     randomCalls := s.(randomCalls) |}.
Definition set_deviceCharacteristics (v : list (Device * Z)) (s : Service) : Service :=
  {| myPeerID := s.(myPeerID); nickname := s.(nickname); isScanning := s.(isScanning);
     connectedDevices := s.(connectedDevices); deviceCharacteristics := v;
     activePeers := s.(activePeers); peerNicknames := s.(peerNicknames);
     processedMessages := s.(processedMessages);
     incomingFragments := s.(incomingFragments);
     fragmentMetadata := s.(fragmentMetadata); delegate := s.(delegate);
     randomCalls := s.(randomCalls) |}.
Definition set_activePeers (v : list JSString) (s : Service) : Service :=
  {| myPeerID := s.(myPeerID); nickname := s.(nickname); isScanning := s.(isScanning);
     connectedDevices := s.(connectedDevices);
     deviceCharacteristics := s.(deviceCharacteristics); activePeers := v;
     peerNicknames := s.(peerNicknames); processedMessages := s.(processedMessages);
     incomingFragments := s.(incomingFragments);
     fragmentMetadata := s.(fragmentMetadata); delegate := s.(delegate);
     randomCalls := s.(randomCalls) |}.
Definition set_peerNicknames (v : list (JSString * JSString)) (s : Service) : Service :=
  {| myPeerID := s.(myPeerID); nickname := s.(nickname); isScanning := s.(isScanning);
     connectedDevices := s.(connectedDevices);
     deviceCharacteristics := s.(deviceCharacteristics);
     activePeers := s.(activePeers); peerNicknames := v;
     processedMessages := s.(processedMessages);
     incomingFragments := s.(incomingFragments);
     fragmentMetadata := s.(fragmentMetadata); delegate := s.(delegate);
     randomCalls := s.(randomCalls) |}.
Definition set_processedMessages (v : list JSString) (s : Service) : Service :=
  {| myPeerID := s.(myPeerID); nickname := s.(nickname); isScanning := s.(isScanning);
     connectedDevices := s.(connectedDevices);
     deviceCharacteristics := s.(deviceCharacteristics);
     activePeers := s.(activePeers); peerNicknames := s.(peerNicknames);
     processedMessages := v; incomingFragments := s.(incomingFragments);
     fragmentMetadata := s.(fragmentMetadata); delegate := s.(delegate);
     randomCalls := s.(randomCalls) |}.
Definition set_incomingFragments (v : list (JSString * list (Z * bytes))) (s : Service) : Service :=
  {| myPeerID := s.(myPeerID); nickname := s.(nickname); isScanning := s.(isScanning);
     connectedDevices := s.(connectedDevices);
     deviceCharacteristics := s.(deviceCharacteristics);
     activePeers := s.(activePeers); peerNicknames := s.(peerNicknames);
     processedMessages := s.(processedMessages); incomingFragments := v;
     fragmentMetadata := s.(fragmentMetadata); delegate := s.(delegate);
     randomCalls := s.(randomCalls) |}.
Definition set_fragmentMetadata (v : list (JSString * FragmentMeta)) (s : Service) : Service :=
  {| myPeerID := s.(myPeerID); nickname := s.(nickname); isScanning := s.(isScanning);
     connectedDevices := s.(connectedDevices);
     deviceCharacteristics := s.(deviceCharacteristics);
     activePeers := s.(activePeers); peerNicknames := s.(peerNicknames);
     processedMessages := s.(processedMessages);
     incomingFragments := s.(incomingFragments); fragmentMetadata := v;
     delegate := s.(delegate); randomCalls := s.(randomCalls) |}.
Definition set_delegate (v : bool) (s : Service) : Service :=
  {| myPeerID := s.(myPeerID); nickname := s.(nickname); isScanning := s.(isScanning);
     connectedDevices := s.(connectedDevices);
     deviceCharacteristics := s.(deviceCharacteristics);
     activePeers := s.(activePeers); peerNicknames := s.(peerNicknames);
     processedMessages := s.(processedMessages);
     incomingFragments := s.(incomingFragments);
     fragmentMetadata := s.(fragmentMetadata); delegate := v;
     randomCalls := s.(randomCalls) |}.
Definition set_randomCalls (v : nat) (s : Service) : Service :=
  {| myPeerID := s.(myPeerID); nickname := s.(nickname); isScanning := s.(isScanning);
     connectedDevices := s.(connectedDevices);
     deviceCharacteristics := s.(deviceCharacteristics);
     activePeers := s.(activePeers); peerNicknames := s.(peerNicknames);
     processedMessages := s.(processedMessages);
     incomingFragments := s.(incomingFragments);
     fragmentMetadata := s.(fragmentMetadata); delegate := s.(delegate);
     randomCalls := v |}.


(* ================================================================== *)
(** * services/WebBluetoothMeshService.ts: the handlers *)
(* ================================================================== *)

(** What one run of a handler reads from outside the service: the clock, the
    random source (indexed by the number of earlier draws), which devices
    report a live GATT link, and the platform's JSON codec. *)
Record Env := {
  now : Z;                        (* Date.now() *)
  random : nat -> Q;              (* Math.random() *)
  gattConnected : Device -> bool; (* device.gatt?.connected *)
  json : JSONCodec
}.

(** Work handed to [setTimeout]. *)
Inductive Callback :=
| relayBroadcast (relayPacket : BitchatPacket)
| fragmentTimeout (fragmentID senderID : JSString).

(** What a handler does to the outside. *)
Inductive Effect :=
| didReceiveMessage (message : BitchatMessage)
| didConnectToPeer (peerID : JSString)
| didDisconnectFromPeer (peerID : JSString)
| didUpdatePeerList
| setTimeout (callback : Callback) (delay : Q)
| writeValue (device : Device) (characteristic : Z) (data : bytes)
| gattDisconnect (device : Device).

Definition Action := Service -> Service * list Effect.

Definition skip : Action := fun s => (s, []).

Definition andThen (a b : Action) : Action :=
  fun s => let '(s1, e1) := a s in let '(s2, e2) := b s1 in (s2, e1 ++ e2).

Declare Scope action_scope.
Delimit Scope action_scope with action.
Bind Scope action_scope with Action.
Notation "a ;; b" := (andThen a b) (at level 61, right associativity) : action_scope.

Definition modify (f : Service -> Service) : Action := fun s => (f s, []).

(** [this.delegate?.call(...)] *)
Definition notify (e : Effect) : Action :=
  fun s => (s, if s.(delegate) then [e] else []).

Module WebBluetoothMeshService.

Definition fragmentTimeout_ms := 30000.
Definition maxFragmentBytes := 10 * 1024 * 1024.
Definition maxConcurrentFragmentSessions := 50.
Definition maxTTL := 7.
Definition relayProbability : Q := 1.

(** [hexToBytes]: [parseInt(hex.substr(i, 2), 16)] per pair of code units,
    stored into a [Uint8Array] ([NaN] is stored as 0). *)
Definition hexValue (c : Z) : option Z :=
  if Utf8.between 48 57 c then Some (c - 48)
  else if Utf8.between 97 102 c then Some (c - 87)
  else if Utf8.between 65 70 c then Some (c - 55)
  else None.

Fixpoint hexPrefix (s : JSString) (acc : option Z) : option Z :=
  match s with
  | c :: rest =>
      match hexValue c with
      | Some d => hexPrefix rest (Some (match acc with Some a => a * 16 + d | None => d end))
      | None => acc
      end
  | [] => acc
  end.

Definition parseInt16 (s : JSString) : option Z :=
  let s := trimStart s in
  let '(sign, s) :=
    match s with
    | 45 :: rest => (-1, rest)
    | 43 :: rest => (1, rest)
    | _ => (1, s)
    end in
  let s :=
    match s with
    | 48 :: 120 :: rest => rest
    | 48 :: 88 :: rest => rest
    | _ => s
    end in
  option_map (Z.mul sign) (hexPrefix s None).

Fixpoint hexPairs (hex : JSString) : list Z :=
  match hex with
  | a :: b :: rest =>
      toUint8 (match parseInt16 [a; b] with Some n => n | None => 0 end) :: hexPairs rest
  | _ => []
  end.

Definition hexToBytes (hex : JSString) : bytes := hexPairs hex.

(** [`${n}`] for a bigint. *)
Definition decimal (n : Z) : JSString := lit (NilZero.string_of_int (Z.to_int n)).

(** The deduplication key of [handleReceivedPacket]. *)
Definition packetKey (senderID : JSString) (packet : BitchatPacket) : JSString :=
  senderID ++ lit "-" ++ decimal packet.(timestamp) ++ lit "-"
    ++ bytesToHex (slice packet.(payload) 0 8).

(** ** Sending *)

Definition broadcastPacket (E : Env) (packet : BitchatPacket) : Action :=
  fun s =>
    match BinaryProtocol.encode packet with
    | None => (s, [])
    | Some data =>
        (s, flat_map (fun '(device, characteristic) =>
                        if E.(gattConnected) device
                        then [writeValue device characteristic data] else [])
                     s.(deviceCharacteristics))
    end.

Definition bumpRandom (s : Service) : Service := set_randomCalls (S s.(randomCalls)) s.

Definition withTTL (packet : BitchatPacket) (t : Z) : BitchatPacket :=
  {| version := packet.(version); type := packet.(type); ttl := t;
     timestamp := packet.(timestamp); senderID := packet.(senderID);
     recipientID := packet.(recipientID); payload := packet.(payload);
     signature := packet.(signature) |}.

Definition relayPacket (E : Env) (originalPacket : BitchatPacket) : Action :=
  fun s =>
    let r := E.(random) s.(randomCalls) in
    let s := bumpRandom s in
    (* Math.random() > this.relayProbability *)
    if negb (Qle_bool r relayProbability) then (s, [])
    else
      let relayPacket := withTTL originalPacket (originalPacket.(ttl) - 1) in
      let d := E.(random) s.(randomCalls) in
      let s := bumpRandom s in
      (s, [setTimeout (relayBroadcast relayPacket) (d * 100 + 50)]).

Definition announcePacket (E : Env) (ty : Z) (s : Service) : BitchatPacket :=
  {| version := 1; type := ty; ttl := 3; timestamp := E.(now);
     senderID := hexToBytes s.(myPeerID); recipientID := None;
     payload := Utf8.encode s.(nickname); signature := None |}.

Definition sendAnnouncement (E : Env) : Action :=
  fun s => broadcastPacket E (announcePacket E MessageType.ANNOUNCE s) s.

Definition sendLeaveNotification (E : Env) : Action :=
  fun s => broadcastPacket E (announcePacket E MessageType.LEAVE s) s.

Definition sendMessage (E : Env) (messageID content : JSString)
    (mentions : list JSString) (channel : option JSString) : Action :=
  fun s =>
    let message :=
      {| Msg.id := messageID; Msg.sender := s.(nickname); Msg.content := content;
         Msg.timestamp := E.(now); Msg.isRelay := false; Msg.isPrivate := false;
         Msg.senderPeerID := s.(myPeerID);
         Msg.mentions := if 0 <? len mentions then Some mentions else None;
         Msg.channel := channel; Msg.isEncrypted := false;
         Msg.originalSender := None; Msg.recipientNickname := None;
         Msg.encryptedContent := None; Msg.deliveryStatus := None |} in
    match BitchatMessageCodec.toBinaryPayload E.(json) message with
    | None => (s, [])
    | Some messageData =>
        broadcastPacket E
          {| version := 1; type := MessageType.MESSAGE; ttl := maxTTL;
             timestamp := E.(now); senderID := hexToBytes s.(myPeerID);
             recipientID := Some SpecialRecipients.BROADCAST;
             payload := messageData; signature := None |} s
    end.

Definition sendPrivateMessage (E : Env)
    (messageID content recipientPeerID recipientNickname : JSString) : Action :=
  fun s =>
    let message :=
      {| Msg.id := messageID; Msg.sender := s.(nickname); Msg.content := content;
         Msg.timestamp := E.(now); Msg.isRelay := false; Msg.isPrivate := true;
         Msg.recipientNickname := Some recipientNickname;
         Msg.senderPeerID := s.(myPeerID); Msg.isEncrypted := false;
         Msg.originalSender := None; Msg.mentions := None; Msg.channel := None;
         Msg.encryptedContent := None; Msg.deliveryStatus := None |} in
    match BitchatMessageCodec.toBinaryPayload E.(json) message with
    | None => (s, [])
    | Some messageData =>
        broadcastPacket E
          {| version := 1; type := MessageType.MESSAGE; ttl := maxTTL;
             timestamp := E.(now); senderID := hexToBytes s.(myPeerID);
             recipientID := Some (hexToBytes recipientPeerID);
             payload := messageData; signature := None |} s
    end.

(** ** Connection life cycle *)

(** [connectToDevice] once the GATT server, service, characteristic and
    notifications are obtained; [peerID] is the identifier [generatePeerID] drew. *)
Definition connectToDevice (E : Env) (device : Device) (characteristic : Z)
    (peerID : JSString) : Action :=
  (modify (fun s =>
     set_deviceCharacteristics
       (OMap.set device_eqb s.(deviceCharacteristics) device characteristic) s) ;;
   modify (fun s =>
     set_connectedDevices (OMap.set str_eqb s.(connectedDevices) peerID device) s) ;;
   modify (fun s => set_activePeers (OSet.add str_eqb s.(activePeers) peerID) s) ;;
   modify (fun s =>
     match device.(deviceName) with
     | Some name =>
         if truthy name
         then set_peerNicknames (OMap.set str_eqb s.(peerNicknames) peerID name) s
         else s
     | None => s
     end) ;;
   sendAnnouncement E ;;
   notify (didConnectToPeer peerID) ;;
   notify didUpdatePeerList)%action.

Fixpoint findPeerOf (devices : list (JSString * Device)) (device : Device)
  : option JSString :=
  match devices with
  | [] => None
  | (peerID, dev) :: rest =>
      if device_eqb dev device then Some peerID else findPeerOf rest device
  end.

Definition handleDeviceDisconnected (device : Device) : Action :=
  ((fun s =>
      match findPeerOf s.(connectedDevices) device with
      | Some disconnectedPeerID =>
          if truthy disconnectedPeerID then
            (modify (fun s =>
               set_connectedDevices
                 (OMap.delete str_eqb s.(connectedDevices) disconnectedPeerID) s) ;;
             modify (fun s =>
               set_activePeers (OSet.delete str_eqb s.(activePeers) disconnectedPeerID) s) ;;
             modify (fun s =>
               set_peerNicknames
                 (OMap.delete str_eqb s.(peerNicknames) disconnectedPeerID) s) ;;
             notify (didDisconnectFromPeer disconnectedPeerID) ;;
             notify didUpdatePeerList)%action s
          else (s, [])
      | None => (s, [])
      end) ;;
   modify (fun s =>
     set_deviceCharacteristics
       (OMap.delete device_eqb s.(deviceCharacteristics) device) s))%action.

Definition stopService (E : Env) : Action :=
  (modify (set_isScanning false) ;;
   (fun s =>
      if 0 <? OMap.size s.(connectedDevices)
      then sendLeaveNotification E s else (s, [])) ;;
   (fun s =>
      (s, flat_map (fun '(_, device) =>
                      if E.(gattConnected) device then [gattDisconnect device] else [])
                   s.(connectedDevices))) ;;
   modify (set_connectedDevices []) ;;
   modify (set_deviceCharacteristics []) ;;
   modify (set_activePeers []))%action.

(** ** Fragment bookkeeping *)

Definition deleteSession (fragmentID : JSString) (s : Service) : Service :=
  set_fragmentMetadata (OMap.delete str_eqb s.(fragmentMetadata) fragmentID)
    (set_incomingFragments (OMap.delete str_eqb s.(incomingFragments) fragmentID) s).

Definition sessionBytes (fragments : list (Z * bytes)) : Z :=
  fold_left (fun total '(_, data) => total + len data) fragments 0.

Definition totalFragmentBytes (s : Service) : Z :=
  fold_left (fun total '(_, fragments) => total + sessionBytes fragments)
            s.(incomingFragments) 0.

(** [Array.prototype.sort] by creation time: stable. *)
Fixpoint insertByTimestamp (x : JSString * FragmentMeta)
    (sorted : list (JSString * FragmentMeta)) : list (JSString * FragmentMeta) :=
  match sorted with
  | [] => [x]
  | y :: rest =>
      if Meta.timestamp (snd x) <? Meta.timestamp (snd y)
      then x :: sorted else y :: insertByTimestamp x rest
  end.

Definition sortByTimestamp (entries : list (JSString * FragmentMeta))
  : list (JSString * FragmentMeta) :=
  fold_left (fun sorted x => insertByTimestamp x sorted) entries [].

(** The loop that removes oldest sessions while the byte budget is exceeded. *)
Fixpoint evictOldest (sortedFragments : list (JSString * FragmentMeta))
    (totalFragmentBytes : Z) (s : Service) : Service :=
  match sortedFragments with
  | [] => s
  | (fragID, _) :: rest =>
      if maxFragmentBytes <? totalFragmentBytes then
        let freed :=
          match OMap.get str_eqb s.(incomingFragments) fragID with
          | Some fragments => sessionBytes fragments
          | None => 0
          end in
        evictOldest rest (totalFragmentBytes - freed) (deleteSession fragID s)
      else s
  end.

Definition cleanupOldFragments (E : Env) (s : Service) : Service :=
  let cutoffTime := E.(now) - fragmentTimeout_ms in
  let fragmentsToRemove :=
    map fst (filter (fun '(_, metadata) => Meta.timestamp metadata <? cutoffTime)
                    s.(fragmentMetadata)) in
  let s := fold_left (fun s fragID => deleteSession fragID s) fragmentsToRemove s in
  let total := totalFragmentBytes s in
  if maxFragmentBytes <? total
  then evictOldest (sortByTimestamp s.(fragmentMetadata)) total s
  else s.

(** The reassembly loop: chunks 0 .. total-1 in order, [None] when one is missing. *)
Fixpoint reassembleFrom (fragments : list (Z * bytes)) (i : Z) (count : nat)
    (reassembledData : bytes) : option bytes :=
  match count with
  | O => Some reassembledData
  | S count' =>
      match OMap.get Z.eqb fragments i with
      | None => None
      | Some fragment =>
          reassembleFrom fragments (i + 1) count' (reassembledData ++ fragment)
      end
  end.

Definition reassemble (fragments : list (Z * bytes)) (total : Z) : option bytes :=
  reassembleFrom fragments 0 (Z.to_nat total) [].

(** ** Receiving *)

Definition nicknameRejected (nickname : JSString) : bool :=
  (100 <? len nickname)
  || existsb (fun c => c =? 0) nickname
  || existsb (fun c => negb (Utf8.between 0x20 0x7E c)) nickname.

Definition handleAnnounce (packet : BitchatPacket) (senderID : JSString) : Action :=
  fun s =>
    let nickname := Utf8.decode packet.(payload) in
    if nicknameRejected nickname then (s, [])
    else
      (modify (fun s =>
         set_peerNicknames (OMap.set str_eqb s.(peerNicknames) senderID nickname) s) ;;
       modify (fun s => set_activePeers (OSet.add str_eqb s.(activePeers) senderID) s) ;;
       notify didUpdatePeerList)%action s.

(** [recipientID.every((byte, index) => byte === BROADCAST[index])] *)
Fixpoint everyBroadcast (recipientID : bytes) (index : Z) : bool :=
  match recipientID with
  | [] => true
  | byte :: rest =>
      match at_ SpecialRecipients.BROADCAST index with
      | Some b => (byte =? b) && everyBroadcast rest (index + 1)
      | None => false
      end
  end.

Definition deliver (message : BitchatMessage) (senderID : JSString) : Action :=
  notify (didReceiveMessage (Msg.setSenderPeerID message senderID)).

Definition handleMessage (E : Env) (packet : BitchatPacket) (senderID : JSString)
  : Action :=
  fun s =>
    match BitchatMessageCodec.fromBinaryPayload E.(json) packet.(payload) with
    | None => (s, [])
    | Some message =>
        let isForUs :=
          match packet.(recipientID) with
          | Some r => str_eqb (bytesToHex r) s.(myPeerID)
          | None => false
          end in
        let isBroadcast :=
          match packet.(recipientID) with
          | Some r => everyBroadcast r 0
          | None => true
          end in
        if isForUs || isBroadcast then deliver message senderID s else (s, [])
    end.

Definition handleLeave (senderID : JSString) : Action :=
  (modify (fun s => set_activePeers (OSet.delete str_eqb s.(activePeers) senderID) s) ;;
   modify (fun s => set_peerNicknames (OMap.delete str_eqb s.(peerNicknames) senderID) s) ;;
   notify (didDisconnectFromPeer senderID) ;;
   notify didUpdatePeerList)%action.

(** Try a buffer as a complete MESSAGE packet, then as a message payload; on
    success process it and destroy the session ([Some]); otherwise [None]. *)
Definition asPacketThenMessage (dispatch : BitchatPacket -> JSString -> Action)
    (E : Env) (fragmentID senderID : JSString) (data : bytes) (s : Service)
  : option (Service * list Effect) :=
  match
    match BinaryProtocol.decode data with
    | Some potentialPacket =>
        if potentialPacket.(type) =? MessageType.MESSAGE
        then Some potentialPacket else None
    | None => None
    end
  with
  | Some potentialPacket =>
      Some ((dispatch potentialPacket senderID ;;
             modify (deleteSession fragmentID))%action s)
  | None =>
      match BitchatMessageCodec.fromBinaryPayload E.(json) data with
      | Some message =>
          Some ((deliver message senderID ;; modify (deleteSession fragmentID))%action s)
      | None => None
      end
  end.

(** The same two attempts in the other order (fragment 0 of 2 on arrival). *)
Definition asMessageThenPacket (dispatch : BitchatPacket -> JSString -> Action)
    (E : Env) (fragmentID senderID : JSString) (data : bytes) (s : Service)
  : option (Service * list Effect) :=
  match BitchatMessageCodec.fromBinaryPayload E.(json) data with
  | Some immediateMessage =>
      Some ((deliver immediateMessage senderID ;;
             modify (deleteSession fragmentID))%action s)
  | None =>
      match BinaryProtocol.decode data with
      | Some immediatePacket =>
          if immediatePacket.(type) =? MessageType.MESSAGE
          then Some ((dispatch immediatePacket senderID ;;
                      modify (deleteSession fragmentID))%action s)
          else None
      | None => None
      end
  end.

Definition handleFragment (dispatch : BitchatPacket -> JSString -> Action)
    (E : Env) (packet : BitchatPacket) (senderID : JSString) : Action :=
  fun s =>
    if len packet.(payload) <? 13 then (s, [])
    else
      let payloadArray := packet.(payload) in
      let fragmentID := bytesToHex (slice payloadArray 0 8) in
      let index := Z.lor (Z.shiftl (at0 payloadArray 8) 8) (at0 payloadArray 9) in
      let total := Z.lor (Z.shiftl (at0 payloadArray 10) 8) (at0 payloadArray 11) in
      let originalType := at0 payloadArray 12 in
      let fragmentData :=
        if 13 <? len payloadArray then slice_from payloadArray 13 else [] in
      (* a new session when the identifier is unseen, unless the cap is reached *)
      let create (s : Service) : Service :=
        set_fragmentMetadata
          (OMap.set str_eqb s.(fragmentMetadata) fragmentID
             {| Meta.originalType := originalType; Meta.totalFragments := total;
                Meta.timestamp := E.(now) |})
          (set_incomingFragments
             (OMap.set str_eqb s.(incomingFragments) fragmentID []) s) in
      let '(s, accepted) :=
        if OMap.has str_eqb s.(incomingFragments) fragmentID then (s, true)
        else if maxConcurrentFragmentSessions <=? OMap.size s.(incomingFragments) then
          let s := cleanupOldFragments E s in
          if maxConcurrentFragmentSessions <=? OMap.size s.(incomingFragments)
          then (s, false) else (create s, true)
        else (create s, true) in
      if negb accepted then (s, [])
      else
        let fragments :=
          OMap.set Z.eqb
            (match OMap.get str_eqb s.(incomingFragments) fragmentID with
             | Some fragments => fragments
             | None => []
             end) index fragmentData in
        let s :=
          set_incomingFragments
            (OMap.set str_eqb s.(incomingFragments) fragmentID fragments) s in
        if OMap.size fragments =? total then
          match reassemble fragments total with
          | None => (s, [])
          | Some reassembledData =>
              let '(s, effects) :=
                match BinaryProtocol.decode reassembledData with
                | Some reassembledPacket =>
                    dispatch reassembledPacket senderID (deleteSession fragmentID s)
                | None => (s, [])
                end in
              (cleanupOldFragments E s, effects)
          end
        else
          match
            if (index =? 0) && (total =? 2)
            then asMessageThenPacket dispatch E fragmentID senderID fragmentData s
            else None
          with
          | Some done => done
          | None =>
              match
                if (OMap.size fragments =? 1) && (total =? 2) && (index =? 0) then
                  match OMap.get Z.eqb fragments 0 with
                  | Some singleFragment =>
                      asPacketThenMessage dispatch E fragmentID senderID singleFragment s
                  | None => None
                  end
                else None
              with
              | Some done => done
              | None =>
                  (cleanupOldFragments E s,
                   [setTimeout (fragmentTimeout fragmentID senderID) 2000])
              end
          end.

Definition isType (packet : BitchatPacket) (t : Z) : bool := packet.(type) =? t.

Definition isFragmentType (packet : BitchatPacket) : bool :=
  isType packet MessageType.FRAGMENT_START
  || isType packet MessageType.FRAGMENT_CONTINUE
  || isType packet MessageType.FRAGMENT_END.

(** The [switch] of [handleReceivedPacket]; [dispatch] is [handleReceivedPacket]
    itself, for the packets a reassembly hands back. *)
Definition dispatchByType (dispatch : BitchatPacket -> JSString -> Action)
    (E : Env) (packet : BitchatPacket) (senderID : JSString) : Action :=
  if isType packet MessageType.ANNOUNCE then handleAnnounce packet senderID
  else if isType packet 0x02 then handleAnnounce packet senderID
  else if isType packet MessageType.MESSAGE then handleMessage E packet senderID
  else if isType packet MessageType.LEAVE then handleLeave senderID
  else if isType packet MessageType.DELIVERY_ACK then skip
  else if isType packet MessageType.READ_RECEIPT then skip
  else if isType packet MessageType.CHANNEL_ANNOUNCE then skip
  else if isType packet MessageType.NOISE_ENCRYPTED then skip
  else if isFragmentType packet then handleFragment dispatch E packet senderID
  else if isType packet MessageType.NOISE_HANDSHAKE_INIT then skip
  else if isType packet MessageType.NOISE_HANDSHAKE_RESP then skip
  else if isType packet MessageType.NOISE_IDENTITY_ANNOUNCE then skip
  else skip.

Definition recordPacket (packetKey senderID : JSString) : Action :=
  (modify (fun s =>
     set_processedMessages (OSet.add str_eqb s.(processedMessages) packetKey) s) ;;
   modify (fun s =>
     set_activePeers (OSet.add str_eqb s.(activePeers) senderID) s))%action.

(** [handleReceivedPacket]; [fuel] bounds how deeply reassembled packets may
    themselves be fragments that complete a reassembly. *)
Fixpoint handleReceivedPacketFuel (fuel : nat) (E : Env) (packet : BitchatPacket)
    (senderID : JSString) : Action :=
  match fuel with
  | O => skip
  | S fuel' =>
    fun s =>
      if packet.(ttl) <=? 0 then (s, [])
      else
        let packetKey := packetKey senderID packet in
        if OSet.has str_eqb s.(processedMessages) packetKey then (s, [])
        else
          (recordPacket packetKey senderID ;;
           dispatchByType (handleReceivedPacketFuel fuel' E) E packet senderID ;;
           (if 1 <? packet.(ttl) then relayPacket E packet else skip))%action s
  end.

(** Every nested reassembly consumes at least 34 buffered or incoming bytes,
    so this much fuel is never exhausted. *)
Definition fuelFor (s : Service) (packet : BitchatPacket) : nat :=
  S (Z.to_nat (totalFragmentBytes s + len packet.(payload))).

Definition handleReceivedPacket (E : Env) (packet : BitchatPacket)
    (senderID : JSString) : Action :=
  fun s => handleReceivedPacketFuel (fuelFor s packet) E packet senderID s.

(** [handleCharacteristicValueChanged]: [value] is the characteristic's value,
    [None] when the event carries none. *)
Definition handleCharacteristicValueChanged (E : Env) (value : option bytes)
  : Action :=
  fun s =>
    match value with
    | None => (s, [])
    | Some data =>
        match BinaryProtocol.decode data with
        | None => (s, [])
        | Some packet =>
            let senderID := bytesToHex packet.(senderID) in
            if str_eqb senderID s.(myPeerID) then (s, [])
            else handleReceivedPacket E packet senderID s
        end
    end.

(** ** Timers *)

(** The buffers the recovery tries for one stored chunk: the chunk, then the
    chunk from offsets 1 .. min(20, length - 10). *)
Definition recoveryCandidates (fragmentData : bytes) : list bytes :=
  fragmentData
    :: map (fun offset => slice_from fragmentData (Z.of_nat offset))
           (seq 1 (Z.to_nat (Z.min 20 (len fragmentData - 10)))).

Fixpoint firstRecovered (E : Env) (fragmentID senderID : JSString)
    (candidates : list bytes) (s : Service) : option (Service * list Effect) :=
  match candidates with
  | [] => None
  | data :: rest =>
      match asPacketThenMessage (handleReceivedPacket E) E fragmentID senderID data s with
      | Some done => Some done
      | None => firstRecovered E fragmentID senderID rest s
      end
  end.

(** The callback [handleFragment] schedules two seconds after an incomplete fragment. *)
Definition fragmentTimeoutFired (E : Env) (fragmentID senderID : JSString) : Action :=
  fun s =>
    match OMap.get str_eqb s.(incomingFragments) fragmentID with
    | None => (s, [])
    | Some fragments =>
        match firstRecovered E fragmentID senderID
                (flat_map (fun '(_, fragmentData) => recoveryCandidates fragmentData)
                          fragments) s with
        | Some done => done
        | None => (deleteSession fragmentID s, [])
        end
    end.

Definition timerFired (E : Env) (callback : Callback) : Action :=
  match callback with
  | relayBroadcast relayPacket => broadcastPacket E relayPacket
  | fragmentTimeout fragmentID senderID => fragmentTimeoutFired E fragmentID senderID
  end.

(** ** The service as a transition system *)

Inductive Event :=
| CharacteristicValueChanged (value : option bytes)
| TimerFired (callback : Callback)
| CleanupInterval
| DeviceConnected (device : Device) (characteristic : Z) (peerID : JSString)
| DeviceDisconnected (device : Device)
| StopService
| SendMessage (messageID content : JSString) (mentions : list JSString)
              (channel : option JSString)
| SendPrivateMessage (messageID content recipientPeerID recipientNickname : JSString)
| SetNickname (nickname : JSString)
| SetDelegate (installed : bool).

Definition step (E : Env) (event : Event) : Action :=
  match event with
  | CharacteristicValueChanged value => handleCharacteristicValueChanged E value
  | TimerFired callback => timerFired E callback
  | CleanupInterval => modify (cleanupOldFragments E)
  | DeviceConnected device characteristic peerID =>
      connectToDevice E device characteristic peerID
  | DeviceDisconnected device => handleDeviceDisconnected device
  | StopService => stopService E
  | SendMessage messageID content mentions channel =>
      sendMessage E messageID content mentions channel
  | SendPrivateMessage messageID content recipientPeerID recipientNickname =>
      sendPrivateMessage E messageID content recipientPeerID recipientNickname
  | SetNickname nickname => modify (set_nickname nickname)
  | SetDelegate installed => modify (set_delegate installed)
  end.

(** A run: events with the environment each one saw. *)
Fixpoint run (events : list (Env * Event)) (s : Service) : Service * list Effect :=
  match events with
  | [] => (s, [])
  | (E, event) :: rest =>
      let '(s1, e1) := step E event s in
      let '(s2, e2) := run rest s1 in
      (s2, e1 ++ e2)
  end.

(** The service as the constructor leaves it. *)
Definition initial (myPeerID : JSString) : Service :=
  {| myPeerID := myPeerID;
     nickname := lit "user_" ++ slice myPeerID 0 6;
     isScanning := false;
     connectedDevices := []; deviceCharacteristics := [];
     activePeers := []; peerNicknames := [];
     processedMessages := [];
     incomingFragments := []; fragmentMetadata := [];
     delegate := false; randomCalls := 0 |}.

End WebBluetoothMeshService.

(* ================================================================== *)
(** * Vocabulary of the statements *)
(* ================================================================== *)

(** The indices [n-1, ..., 0] of a big-endian loop. *)
Fixpoint descending (n : nat) : list Z :=
  match n with
  | O => []
  | S k => Z.of_nat k :: descending k
  end.

(** What a buffer's header declares: its flags byte and payload length. *)
Module Declared.
Definition flags (data : bytes) : Z := at0 data 11.
Definition hasRecipient (data : bytes) : bool :=
    negb (Z.land (flags data) BinaryProtocol.HAS_RECIPIENT =? 0).
Definition hasSignature (data : bytes) : bool :=
    negb (Z.land (flags data) BinaryProtocol.HAS_SIGNATURE =? 0).
Definition isCompressed (data : bytes) : bool :=
    negb (Z.land (flags data) BinaryProtocol.IS_COMPRESSED =? 0).
  (** The two length bytes, less the original-size field of a compressed payload. *)
Definition payloadLength (data : bytes) : Z :=
    Z.lor (Z.shiftl (at0 data 12) 8) (at0 data 13)
    - (if isCompressed data then 2 else 0).
  (** Where the payload starts: after the 14 header bytes, the sender, the
      recipient when flagged, and the original size when flagged. *)
Definition payloadOffset (data : bytes) : Z :=
    14 + 8 + (if hasRecipient data then 8 else 0)
       + (if isCompressed data then 2 else 0).
End Declared.

(** The packets an effect list schedules for rebroadcast. *)
Definition relayedPackets (effects : list Effect) : list BitchatPacket :=
  flat_map (fun e => match e with
                     | setTimeout (relayBroadcast q) _ => [q]
                     | _ => []
                     end) effects.

(** The messages an effect list hands to the delegate. *)
Definition deliveredMessages (effects : list Effect) : list BitchatMessage :=
  flat_map (fun e => match e with
                     | didReceiveMessage m => [m]
                     | _ => []
                     end) effects.

(** The delegate calls of an effect list. *)
Definition delegateCalls (effects : list Effect) : list Effect :=
  filter (fun e => match e with
                   | didReceiveMessage _ | didConnectToPeer _
                   | didDisconnectFromPeer _ | didUpdatePeerList => true
                   | _ => false
                   end) effects.



(* ================================================================== *)
(** * Sample values *)
(* ================================================================== *)

Module Sample.
Import WebBluetoothMeshService.

(** An environment: a fixed clock, a random source stuck at one half, every
    device connected, and a JSON codec that accepts nothing. *)
Definition env (t : Z) : Env :=
  {| now := t;
     random := fun _ => (1 # 2)%Q;
     gattConnected := fun _ => true;
     json := {| parseMessage := fun _ => None; stringifyMessage := fun _ => None |} |}.

Definition me : JSString := lit "0a0b0c0d0e0f1011".
Definition alice : JSString := lit "a1b2c3d4e5f60718".
Definition aliceID : bytes := [0xA1; 0xB2; 0xC3; 0xD4; 0xE5; 0xF6; 0x07; 0x18].

Definition phone : Device := {| deviceId := 1; deviceName := Some (lit "phone") |}.

(** A running service with a delegate and one connected device. *)
Definition service : Service :=
  {| myPeerID := me; nickname := lit "user_0a0b0c"; isScanning := false;
     connectedDevices := [(lit "1111111111111111", phone)];
     deviceCharacteristics := [(phone, 7)];
     activePeers := [lit "1111111111111111"];
     peerNicknames := [(lit "1111111111111111", lit "phone")];
     processedMessages := [];
     incomingFragments := []; fragmentMetadata := [];
     delegate := true; randomCalls := 0 |}.

Definition message (ts : Z) : BitchatMessage :=
  {| Msg.id := lit "m-1"; Msg.sender := lit "alice"; Msg.content := lit "hello";
     Msg.timestamp := ts; Msg.isRelay := false; Msg.originalSender := None;
     Msg.isPrivate := false; Msg.recipientNickname := None;
     Msg.senderPeerID := alice;
     Msg.mentions := Some [lit "bob"]; Msg.channel := Some (lit "#general");
     Msg.encryptedContent := None; Msg.isEncrypted := false;
     Msg.deliveryStatus := None |}.

Definition messageBytes (ts : Z) : bytes :=
  match BitchatMessageCodec.toIOSBinaryPayload (message ts) with
  | Some b => b
  | None => []
  end.

(** A broadcast MESSAGE packet from alice. *)
Definition chat (hops : Z) : BitchatPacket :=
  {| version := 1; type := MessageType.MESSAGE; ttl := hops;
     timestamp := 1700000000000; senderID := aliceID;
     recipientID := Some SpecialRecipients.BROADCAST;
     payload := messageBytes 1000; signature := None |}.

(** An ANNOUNCE packet from alice carrying [name]. *)
Definition announce (name : bytes) : BitchatPacket :=
  {| version := 1; type := MessageType.ANNOUNCE; ttl := 3;
     timestamp := 1700000000000; senderID := aliceID;
     recipientID := None; payload := name; signature := None |}.
End Sample.

(* ================================================================== *)
(** * The blocks of [handleFragment] *)
(* ================================================================== *)

(** The source's [handleFragment] is one long function; these are its blocks
    under the names its comments give them.  [handleFragment_blocks] below
    shows that chaining them is [handleFragment]. *)
Module Fragment.
Import WebBluetoothMeshService.

(** The five fields of a fragment payload: identifier (as the hexadecimal key
    of the session tables), index, total, original type, chunk. *)
Definition fragmentID (payload : bytes) : JSString := bytesToHex (slice payload 0 8).
Definition index (payload : bytes) : Z :=
  Z.lor (Z.shiftl (at0 payload 8) 8) (at0 payload 9).
Definition total (payload : bytes) : Z :=
  Z.lor (Z.shiftl (at0 payload 10) 8) (at0 payload 11).
Definition originalType (payload : bytes) : Z := at0 payload 12.
Definition fragmentData (payload : bytes) : bytes :=
  if 13 <? len payload then slice_from payload 13 else [].

(** "Initialize fragment collection if needed": a session for an unseen
    identifier, unless the cap is reached and a sweep does not help. *)
Definition createSession (E : Env) (fragmentID : JSString) (originalType total : Z)
    (s : Service) : Service :=
  set_fragmentMetadata
    (OMap.set str_eqb s.(fragmentMetadata) fragmentID
       {| Meta.originalType := originalType; Meta.totalFragments := total;
          Meta.timestamp := E.(now) |})
    (set_incomingFragments (OMap.set str_eqb s.(incomingFragments) fragmentID []) s).

Definition openSession (E : Env) (fragmentID : JSString) (originalType total : Z)
    (s : Service) : Service * bool :=
  if OMap.has str_eqb s.(incomingFragments) fragmentID then (s, true)
  else if maxConcurrentFragmentSessions <=? OMap.size s.(incomingFragments) then
    let s := cleanupOldFragments E s in
    if maxConcurrentFragmentSessions <=? OMap.size s.(incomingFragments)
    then (s, false)
    else (createSession E fragmentID originalType total s, true)
  else (createSession E fragmentID originalType total s, true).

(** [this.incomingFragments.get(fragmentID)!] *)
Definition sessionOf (fragmentID : JSString) (s : Service) : list (Z * bytes) :=
  match OMap.get str_eqb s.(incomingFragments) fragmentID with
  | Some fragments => fragments
  | None => []
  end.

(** [fragments.set(index, fragmentData)] on the session's own map. *)
Definition storeFragment (fragmentID : JSString) (index : Z) (fragmentData : bytes)
    (s : Service) : Service :=
  set_incomingFragments
    (OMap.set str_eqb s.(incomingFragments) fragmentID
       (OMap.set Z.eqb (sessionOf fragmentID s) index fragmentData)) s.

(** "All fragments received": reassemble, decode, and on success destroy the
    session and hand the packet back to [handleReceivedPacket]; then sweep. *)
Definition completeReassembly (dispatch : BitchatPacket -> JSString -> Action)
    (E : Env) (fragmentID senderID : JSString) (fragments : list (Z * bytes))
    (total : Z) : Action :=
  fun s =>
    match reassemble fragments total with
    | None => (s, [])
    | Some reassembledData =>
        let '(s, effects) :=
          match BinaryProtocol.decode reassembledData with
          | Some reassembledPacket =>
              dispatch reassembledPacket senderID (deleteSession fragmentID s)
          | None => (s, [])
          end in
        (cleanupOldFragments E s, effects)
    end.

(** Fragments are still missing: the two single-fragment workarounds, then
    the two-second timer and the sweep. *)
Definition awaitFragments (dispatch : BitchatPacket -> JSString -> Action)
    (E : Env) (fragmentID senderID : JSString) (fragments : list (Z * bytes))
    (index total : Z) (fragmentData : bytes) : Action :=
  fun s =>
    match
      if (index =? 0) && (total =? 2)
      then asMessageThenPacket dispatch E fragmentID senderID fragmentData s
      else None
    with
    | Some done => done
    | None =>
        match
          if (OMap.size fragments =? 1) && (total =? 2) && (index =? 0) then
            match OMap.get Z.eqb fragments 0 with
            | Some singleFragment =>
                asPacketThenMessage dispatch E fragmentID senderID singleFragment s
            | None => None
            end
          else None
        with
        | Some done => done
        | None =>
            (cleanupOldFragments E s,
             [setTimeout (fragmentTimeout fragmentID senderID) 2000])
        end
    end.

(** The blocks in the order [handleFragment] runs them. *)
Definition inBlocks (dispatch : BitchatPacket -> JSString -> Action)
    (E : Env) (packet : BitchatPacket) (senderID : JSString) : Action :=
  fun s =>
    let payload := packet.(payload) in
    if len payload <? 13 then (s, [])
    else
      let '(s, accepted) :=
        openSession E (fragmentID payload) (originalType payload) (total payload) s in
      if negb accepted then (s, [])
      else
        let fragments :=
          OMap.set Z.eqb (sessionOf (fragmentID payload) s) (index payload)
            (fragmentData payload) in
        let s := storeFragment (fragmentID payload) (index payload)
                   (fragmentData payload) s in
        if OMap.size fragments =? total payload
        then completeReassembly dispatch E (fragmentID payload) senderID fragments
               (total payload) s
        else awaitFragments dispatch E (fragmentID payload) senderID fragments
               (index payload) (total payload) (fragmentData payload) s.

End Fragment.

(* ================================================================== *)
(** * Vocabulary of the announce validation *)
(* ================================================================== *)

Definition printable (c : Z) : Prop := 0x20 <= c <= 0x7E.

(** The payload without the UTF-8 byte-order mark the decoder drops. *)
Definition withoutBOM (payload : bytes) : bytes :=
  match payload with
  | b0 :: b1 :: b2 :: rest =>
      if (b0 =? 0xEF) && (b1 =? 0xBB) && (b2 =? 0xBF) then rest else payload
  | _ => payload
  end.

(** Longer than 100 bytes, or holding a null byte, or a byte outside printable ASCII. *)
Definition malformedNickname (payload : bytes) : Prop :=
  100 < len payload \/ In 0 payload \/ Exists (fun b => ~ printable b) payload.


(* ================================================================== *)
(** * utils/crypto.ts *)
(* ================================================================== *)

Module CryptoUtil.

(** [a ^ b] on 32-bit operands. *)
Definition xor32 (x y : Z) : Z := toInt32 (Z.lxor (toInt32 x) (toInt32 y)).

(** [constantTimeEqual]: the lengths are compared first, then the differences
    of all positions are or-ed together. *)
Definition constantTimeEqual (a b : bytes) : bool :=
  if negb (len a =? len b) then false
  else
    let result :=
      fold_left (fun result i => or32 result (xor32 (at0 a i) (at0 b i)))
                (map Z.of_nat (seq 0 (length a))) 0 in
    result =? 0.

(** [secureRandom]: [word] is the 32-bit value [crypto.getRandomValues] drew;
    [None] is [NaN], the remainder by zero. *)
Definition secureRandom (word max : Z) : option Z :=
  if max =? 0 then None else Some (Z.rem word max).

End CryptoUtil.

(* ================================================================== *)
(** * Vocabulary of the message round trip *)
(* ================================================================== *)

Module Text.

(** A UTF-16 code unit. *)
Definition codeUnit (u : Z) : Prop := 0 <= u <= 0xFFFF.






(** An optional string after a round trip: the empty string is not sent. *)
Definition sent (o : option JSString) : option JSString :=
  match o with
  | Some s => if truthy s then Some s else None
  | None => None
  end.

End Text.

Module Wire.
Import Text.

(** The bytes [toIOSBinaryPayload] writes after the sender name. *)
Definition body (m : BitchatMessage) : bytes :=
  match m.(Msg.isEncrypted), m.(Msg.encryptedContent) with
  | true, Some encrypted => encrypted
  | _, _ => Utf8.encode m.(Msg.content)
  end.


(** What the receiver reconstructs: the timestamp reduced to 32 bits, empty
    optional fields absent, the content of an encrypted message as bytes only,
    no delivery status. *)
Definition asReceived (m : BitchatMessage) : BitchatMessage :=
  {| Msg.id := m.(Msg.id);
     Msg.sender := m.(Msg.sender);
     Msg.content := if m.(Msg.isEncrypted) then [] else m.(Msg.content);
     Msg.timestamp := toInt32 m.(Msg.timestamp);
     Msg.isRelay := m.(Msg.isRelay);
     Msg.originalSender := sent m.(Msg.originalSender);
     Msg.isPrivate := m.(Msg.isPrivate);
     Msg.recipientNickname := sent m.(Msg.recipientNickname);
     Msg.senderPeerID := m.(Msg.senderPeerID);
     Msg.mentions :=
       match m.(Msg.mentions) with
       | Some l => if 0 <? len l then Some l else None
       | None => None
       end;
     Msg.channel := sent m.(Msg.channel);
     Msg.encryptedContent := if m.(Msg.isEncrypted) then Some (body m) else None;
     Msg.isEncrypted := m.(Msg.isEncrypted);
     Msg.deliveryStatus := None |}.

End Wire.

(* ================================================================== *)
(** * Vocabulary of the table invariants *)
(* ================================================================== *)

(** What the JavaScript [Map] and [Set] objects guarantee of the service's
    tables and what [handleFragment] maintains: no key twice, the two
    fragment tables over the same sessions, and no more sessions than the cap. *)
Definition wellKept (s : Service) : Prop :=
  NoDup (map fst s.(incomingFragments))
  /\ map fst s.(fragmentMetadata) = map fst s.(incomingFragments)
  /\ OMap.size s.(incomingFragments)
     <= WebBluetoothMeshService.maxConcurrentFragmentSessions
  /\ NoDup s.(activePeers)
  /\ NoDup (map fst s.(peerNicknames)).

(** An action that maintains a property of the state. *)
Definition preserves (P : Service -> Prop) (a : Action) : Prop :=
  forall s, P s -> P (fst (a s)).

(* ================================================================== *)
(** * Vocabulary of delivery and reassembly *)
(* ================================================================== *)

(** The packet names this node, or a recipient made of at most eight 0xFF
    bytes only (the broadcast address or a prefix of it), or no recipient. *)
Definition addressedTo (myPeerID : JSString) (p : BitchatPacket) : Prop :=
  match p.(recipientID) with
  | Some r => bytesToHex r = myPeerID \/ (Forall (fun b => b = 0xFF) r /\ len r <= 8)
  | None => True
  end.

(** The session map after [fragments.set(index, fragmentData)] for each
    arrival in turn. *)
Definition collect (arrivals : list (Z * bytes)) : list (Z * bytes) :=
  fold_left (fun fragments '(index, fragmentData) =>
               OMap.set Z.eqb fragments index fragmentData) arrivals [].

(** The chunks of a payload with their indices, from [i] on. *)
Fixpoint numberedFrom (i : Z) (chunks : list bytes) : list (Z * bytes) :=
  match chunks with
  | [] => []
  | c :: rest => (i, c) :: numberedFrom (i + 1) rest
  end.

Definition numbered (chunks : list bytes) : list (Z * bytes) := numberedFrom 0 chunks.

(* ================================================================== *)
(** * Vocabulary of sending and receiving *)
(* ================================================================== *)

(** The buffers an effect list writes to characteristics. *)
Definition written (effects : list Effect) : list bytes :=
  flat_map (fun e => match e with
                     | writeValue _ _ data => [data]
                     | _ => []
                     end) effects.

(** An identifier that [decode] returns whole: eight bytes, none of them zero. *)
Definition wholeID (id : bytes) : Prop :=
  Forall is_byte id /\ length id = 8%nat /\ ~ In 0 id.

(** The node's peer identifier is the hexadecimal form of the eight bytes
    [id], none of which is zero. *)
Definition ownID (s : Service) (id : bytes) : Prop :=
  s.(myPeerID) = bytesToHex id /\ wholeID id.




(* ================================================================== *)
(** * Facts about the JavaScript helpers *)
(* ================================================================== *)

Section SliceFacts.
Context {A : Type}.
Implicit Types l a b c : list A.

Lemma len_app a b : len (a ++ b) = len a + len b.
  Proof. unfold len. rewrite length_app. lia. Qed.

Lemma len_nonneg l : 0 <= len l.
  Proof. unfold len. lia. Qed.

Lemma slice_nonneg l s e :
    0 <= s -> 0 <= e ->
    slice l s e =
    firstn (Z.to_nat (Z.min e (len l) - Z.min s (len l)))
           (skipn (Z.to_nat (Z.min s (len l))) l).
  Proof.
    intros Hs He. unfold slice, rel_index.
    destruct (Z.ltb_spec s 0); [lia|].
    destruct (Z.ltb_spec e 0); [lia|]. reflexivity.
  Qed.

Lemma slice_middle a b c s e :
    s = len a -> e = len a + len b -> slice (a ++ b ++ c) s e = b.
  Proof.
    intros -> ->. pose proof (len_nonneg a). pose proof (len_nonneg b).
    pose proof (len_nonneg c).
    rewrite slice_nonneg by lia. rewrite !len_app.
    replace (Z.min (len a) (len a + (len b + len c))) with (len a) by lia.
    replace (Z.min (len a + len b) (len a + (len b + len c)))
      with (len a + len b) by lia.
    unfold len. rewrite Nat2Z.id.
    rewrite skipn_app, skipn_all, Nat.sub_diag. simpl.
    replace (Z.to_nat (Z.of_nat (length a) + Z.of_nat (length b) - Z.of_nat (length a)))
      with (length b) by lia.
    rewrite firstn_app, firstn_all, Nat.sub_diag. simpl. apply app_nil_r.
  Qed.

Lemma slice_short l n :
    len l <= n -> slice l 0 n = l.
  Proof.
    intros H. pose proof (len_nonneg l). rewrite slice_nonneg by lia.
    replace (Z.min 0 (len l)) with 0 by lia.
    replace (Z.min n (len l)) with (len l) by lia.
    simpl. rewrite Z.sub_0_r. unfold len. rewrite Nat2Z.id. apply firstn_all.
  Qed.

Lemma slice_length_le l s e : 0 <= s -> 0 <= e -> len (slice l s e) <= len l - Z.min s (len l).
  Proof.
    intros Hs He. rewrite slice_nonneg by lia. unfold len.
    rewrite length_firstn, length_skipn. lia.
  Qed.

Lemma slice_beyond l s e :
    0 <= s -> len l <= e -> slice l s e = slice_from l s.
  Proof.
    intros Hs He. pose proof (len_nonneg l). unfold slice_from.
    rewrite !slice_nonneg by lia.
    replace (Z.min e (len l)) with (len l) by lia.
    replace (Z.min (len l) (len l)) with (len l) by lia. reflexivity.
  Qed.
End SliceFacts.

Lemma toUint8_byte b : is_byte b -> toUint8 b = b.
Proof.
  unfold is_byte, toUint8. intros H.
  change 255 with (Z.ones 8). rewrite Z.land_ones by lia.
  apply Z.mod_small. lia.
Qed.

Lemma land_255_is_byte x : is_byte (Z.land x 255).
Proof.
  unfold is_byte. change 255 with (Z.ones 8). rewrite Z.land_ones by lia.
  apply Z.mod_pos_bound. lia.
Qed.

Lemma Uint8Array_from_bytes l : Forall is_byte l -> Uint8Array_from l = l.
Proof.
  unfold Uint8Array_from. induction 1 as [|b l Hb _ IH]; simpl; [reflexivity|].
  now rewrite toUint8_byte, IH.
Qed.

Lemma Forall_is_byte_repeat0 n : Forall is_byte (repeat 0 n).
Proof. apply Forall_forall. intros x Hx. apply repeat_spec in Hx. subst. unfold is_byte. lia. Qed.

(** Appending a byte below a value shifted by eight bits is an addition. *)
Lemma lor_shiftl8 acc b : is_byte b -> Z.lor (Z.shiftl acc 8) b = acc * 256 + b.
Proof.
  unfold is_byte. intros Hb.
  pose proof (Z.add_lor_land (Z.shiftl acc 8) b) as H.
  assert (H0 : Z.land (Z.shiftl acc 8) b = 0).
  { apply Z.bits_inj'. intros n Hn.
    rewrite Z.land_spec, Z.bits_0.
    destruct (Z.ltb_spec n 8).
    - rewrite Z.shiftl_spec_low by lia. reflexivity.
    - replace (Z.testbit b n) with false; [apply andb_false_r|].
      symmetry. destruct (Z.eq_dec b 0) as [->|]; [apply Z.bits_0|].
      apply Z.bits_above_log2; [lia|].
      apply Z.log2_lt_pow2; [lia|].
      apply Z.lt_le_trans with (2 ^ 8); [simpl; lia|].
      apply Z.pow_le_mono_r; lia. }
  pose proof (Z.shiftl_mul_pow2 acc 8 ltac:(lia)) as E. change (2 ^ 8) with 256 in E. lia.
Qed.

(* ================================================================== *)
(** * BinaryProtocol: the envelope codec *)
(* ================================================================== *)

Import BinaryProtocol.


Lemma trimNullBytes_padded n data :
  trimNullBytes (padded n data) = trimNullBytes data.
Proof.
  unfold padded. induction data as [|b rest IH]; simpl.
  - destruct (n - 0)%nat; reflexivity.
  - destruct (b =? 0); [reflexivity|]. f_equal.
    destruct n as [|n]; simpl.
    + rewrite app_nil_r. reflexivity.
    + specialize (IH). 
      (* the tail is padded to the same total length *)
      clear IH. induction rest as [|c r IHr] in n |- *; simpl.
      * destruct (n - 0)%nat; reflexivity.
      * destruct (c =? 0); [reflexivity|]. f_equal.
        destruct n as [|m]; simpl; [now rewrite app_nil_r|apply IHr].
Qed.


Lemma bigintByte_div t i :
  0 <= i -> bigintByte t i = (t / 2 ^ (i * 8)) mod 256.
Proof.
  intros Hi. unfold bigintByte. change 255 with (Z.ones 8).
  rewrite Z.land_ones by lia. rewrite Z.shiftr_div_pow2 by lia. reflexivity.
Qed.

Lemma bigintByte_is_byte t i : is_byte (bigintByte t i).
Proof. apply land_255_is_byte. Qed.

Lemma big_endian_fold t n :
  0 <= t ->
  fold_left (fun acc b => Z.lor (Z.shiftl acc 8) b)
            (map (bigintByte t) (descending n)) (t / 2 ^ (Z.of_nat n * 8)) = t.
Proof.
  intros Ht. induction n as [|n IH].
  - simpl. apply Z.div_1_r.
  - cbn [descending map fold_left].
    rewrite lor_shiftl8 by apply bigintByte_is_byte.
    rewrite bigintByte_div by lia.
    replace (t / 2 ^ (Z.of_nat (S n) * 8) * 256 + (t / 2 ^ (Z.of_nat n * 8)) mod 256)
      with (t / 2 ^ (Z.of_nat n * 8)); [exact IH|].
    replace (Z.of_nat (S n) * 8) with (Z.of_nat n * 8 + 8) by lia.
    rewrite Z.pow_add_r by lia.
    rewrite <- Z.div_div by lia. change (2 ^ 8) with 256.
    pose proof (Z.div_mod (t / 2 ^ (Z.of_nat n * 8)) 256). lia.
Qed.

Lemma timestamp_roundtrip t :
  0 <= t < 2 ^ 64 ->
  fold_left (fun acc b => Z.lor (Z.shiftl acc 8) b)
            (map (bigintByte t) [7; 6; 5; 4; 3; 2; 1; 0]) 0 = t.
Proof.
  intros Ht. pose proof (big_endian_fold t 8 ltac:(lia)) as H.
  change (Z.of_nat 8 * 8) with 64 in H.
  rewrite Z.div_small in H by lia. exact H.
Qed.

Lemma padded_length n l : (length l <= n)%nat -> length (padded n l) = n.
Proof. intros H. unfold padded. rewrite length_app, repeat_length. lia. Qed.

Lemma padded_bytes n l : Forall is_byte l -> Forall is_byte (padded n l).
Proof. intros H. unfold padded. apply Forall_app. split; [exact H|apply Forall_is_byte_repeat0]. Qed.

Lemma size_bytes_value n :
  0 <= n <= 65535 ->
  Z.lor (Z.shiftl (Z.land (Z.shiftr n 8) 255) 8) (Z.land n 255) = n.
Proof.
  intros Hn. rewrite lor_shiftl8 by apply land_255_is_byte.
  change 255 with (Z.ones 8). rewrite !Z.land_ones by lia.
  rewrite Z.shiftr_div_pow2 by lia. change (2 ^ 8) with 256.
  rewrite (Z.mod_small (n / 256)).
  - pose proof (Z.div_mod n 256). lia.
  - split; [apply Z.div_pos; lia|]. apply Z.div_lt_upper_bound; lia.
Qed.

Import BinaryProtocol.

(** What [decode] returns on a well-laid-out uncompressed buffer. *)
Lemma decode_layout v ty tl t0 t1 t2 t3 t4 t5 t6 t7 fl hi lo sender ro pl so :
  length sender = 8%nat ->
  Z.land fl IS_COMPRESSED = 0 ->
  (Z.land fl HAS_RECIPIENT =? 0) = negb (isSome ro) ->
  (Z.land fl HAS_SIGNATURE =? 0) = negb (isSome so) ->
  match ro with Some r => length r = 8%nat | None => True end ->
  match so with Some s => length s = 64%nat | None => True end ->
  Z.lor (Z.shiftl hi 8) lo = len pl ->
  decode (v :: ty :: tl :: t0 :: t1 :: t2 :: t3 :: t4 :: t5 :: t6 :: t7
            :: fl :: hi :: lo
            :: sender ++ match ro with Some r => r | None => [] end
                 ++ pl ++ match so with Some s => s | None => [] end)
  = Some {| version := v; type := ty; ttl := tl;
            timestamp := fold_left (fun acc b => Z.lor (Z.shiftl acc 8) b)
                                   [t0; t1; t2; t3; t4; t5; t6; t7] 0;
            senderID := trimNullBytes sender;
            recipientID := option_map trimNullBytes ro;
            payload := pl;
            signature := so |}.
Proof.
  intros Hs Hc Hr Hg Hro Hso Hlen.
  set (hdr := [v; ty; tl; t0; t1; t2; t3; t4; t5; t6; t7; fl; hi; lo]).
  set (rb := match ro with Some r => r | None => [] end).
  set (sb := match so with Some s => s | None => [] end).
  change (v :: ty :: tl :: t0 :: t1 :: t2 :: t3 :: t4 :: t5 :: t6 :: t7
            :: fl :: hi :: lo :: sender ++ rb ++ pl ++ sb)
    with (hdr ++ sender ++ rb ++ pl ++ sb).
  assert (Hh : len hdr = 14) by reflexivity.
  assert (Hsl : len sender = 8) by (unfold len; lia).
  unfold decode.
  replace (len (hdr ++ sender ++ rb ++ pl ++ sb) <? HEADER_SIZE + SENDER_ID_SIZE)
    with false.
  2:{ symmetry. apply Z.ltb_ge. rewrite !len_app.
      pose proof (len_nonneg rb). pose proof (len_nonneg pl). pose proof (len_nonneg sb).
      unfold HEADER_SIZE, SENDER_ID_SIZE. lia. }
  cbn [hdr app].
  change (v :: ty :: tl :: t0 :: t1 :: t2 :: t3 :: t4 :: t5 :: t6 :: t7
            :: fl :: hi :: lo :: sender ++ rb ++ pl ++ sb)
    with (hdr ++ sender ++ rb ++ pl ++ sb).
  cbv zeta. rewrite Hc, Hr, Hg, Hlen. cbn [Z.eqb negb].
  unfold SENDER_ID_SIZE, RECIPIENT_ID_SIZE, SIGNATURE_SIZE.
  rewrite (slice_middle hdr sender (rb ++ pl ++ sb) 14 (14 + 8)) by lia.
  destruct ro as [r|]; cbn [isSome negb option_map] in *.
  - assert (Hrl : len r = 8) by (unfold len; lia).
    subst rb.
    replace (hdr ++ sender ++ r ++ pl ++ sb) with ((hdr ++ sender) ++ r ++ pl ++ sb)
      by (now rewrite <- app_assoc).
    rewrite (slice_middle (hdr ++ sender) r (pl ++ sb) (14 + 8) (14 + 8 + 8))
      by (rewrite ?len_app; lia).
    replace ((hdr ++ sender) ++ r ++ pl ++ sb) with ((hdr ++ sender ++ r) ++ pl ++ sb)
      by (now rewrite <- !app_assoc).
    rewrite (slice_middle (hdr ++ sender ++ r) pl sb (14 + 8 + 8) (14 + 8 + 8 + len pl))
      by (rewrite ?len_app; lia).
    destruct so as [s|]; cbn [isSome negb] in *; [|reflexivity].
    subst sb. assert (Hs64 : len s = 64) by (unfold len; lia).
    replace ((hdr ++ sender ++ r) ++ pl ++ s) with ((hdr ++ sender ++ r ++ pl) ++ s ++ [])
      by (now rewrite <- !app_assoc, app_nil_r).
    rewrite (slice_middle (hdr ++ sender ++ r ++ pl) s []
               (14 + 8 + 8 + len pl) (14 + 8 + 8 + len pl + 64))
      by (rewrite ?len_app; lia).
    reflexivity.
  - subst rb. cbn [app].
    replace (hdr ++ sender ++ pl ++ sb) with ((hdr ++ sender) ++ pl ++ sb)
      by (now rewrite <- app_assoc).
    rewrite (slice_middle (hdr ++ sender) pl sb (14 + 8) (14 + 8 + len pl))
      by (rewrite ?len_app; lia).
    destruct so as [s|]; cbn [isSome negb] in *; [|reflexivity].
    subst sb. assert (Hs64 : len s = 64) by (unfold len; lia).
    replace ((hdr ++ sender) ++ pl ++ s) with ((hdr ++ sender ++ pl) ++ s ++ [])
      by (now rewrite <- !app_assoc, app_nil_r).
    rewrite (slice_middle (hdr ++ sender ++ pl) s []
               (14 + 8 + len pl) (14 + 8 + len pl + 64))
      by (rewrite ?len_app; lia).
    reflexivity.
Qed.

Lemma encode_uncompressed p :
  encode p =
  Some (Uint8Array_from
          ([ (if p.(version) =? 0 then VERSION else p.(version)); p.(type); p.(ttl) ]
           ++ map (bigintByte p.(timestamp)) [7; 6; 5; 4; 3; 2; 1; 0]
           ++ [ flagIf (isSome p.(signature)) HAS_SIGNATURE
                  (flagIf (isSome p.(recipientID)) HAS_RECIPIENT 0) ]
           ++ [ Z.land (Z.shiftr (len p.(payload)) 8) 0xFF; Z.land (len p.(payload)) 0xFF ]
           ++ padded 8 (slice p.(senderID) 0 8)
           ++ match p.(recipientID) with Some r => padded 8 (slice r 0 8) | None => [] end
           ++ p.(payload)
           ++ match p.(signature) with Some s => padded 64 (slice s 0 64) | None => [] end)).
Proof.
  unfold encode, compress.
  destruct (shouldCompress (payload p)); cbn [flagIf]; rewrite Z.add_0_r; reflexivity.
Qed.

Lemma valid_id_padded i :
  valid_id i ->
  length (padded 8 (slice i 0 8)) = 8%nat
  /\ Forall is_byte (padded 8 (slice i 0 8))
  /\ trimNullBytes (padded 8 (slice i 0 8)) = trimNullBytes i.
Proof.
  intros [Hb Hl]. rewrite slice_short by (unfold len; lia).
  split; [apply padded_length; exact Hl|].
  split; [apply padded_bytes; exact Hb|apply trimNullBytes_padded].
Qed.

Ltac use_decode_layout ro so :=
  let H := fresh "HL" in
  epose proof (decode_layout _ _ _ _ _ _ _ _ _ _ _ _ _ _ _ ro _ so) as H;
  cbn [app] in H; rewrite H; clear H.


Definition samplePacket : BitchatPacket :=
  {| version := 1; type := MessageType.MESSAGE; ttl := 7;
     timestamp := 1700000000000;
     senderID := [0xA1; 0xB2; 0xC3; 0; 0; 0; 0; 0];
     recipientID := Some SpecialRecipients.BROADCAST;
     payload := [104; 101; 108; 108; 111];
     signature := None |}.



(** The identifiers of the sample packet lose their zero padding. *)
Example samplePacket_roundtrip :
  option_map decode (encode samplePacket)
  = Some (Some {| version := 1; type := 4; ttl := 7; timestamp := 1700000000000;
                  senderID := [0xA1; 0xB2; 0xC3];
                  recipientID := Some (repeat 0xFF 8);
                  payload := [104; 101; 108; 108; 111];
                  signature := None |}).
Proof. vm_compute. reflexivity. Qed.

(** A version left at 0 is written as the current version 1. *)
Example encode_version_zero :
  option_map (fun d => at_ d 0)
    (encode {| version := 0; type := 4; ttl := 7; timestamp := 0; senderID := [];
               recipientID := None; payload := []; signature := None |})
  = Some (Some 1).
Proof. vm_compute. reflexivity. Qed.

Import BinaryProtocol.

(** C9 (decode never fails past the length guard).  On every buffer of at
    least 21 bytes [decode] returns a packet.  Its payload is the slice the
    header declares, which is everything that remains when the declared length
    runs past the end of the buffer; a flagged recipient or signature is
    likewise the (possibly shorter, possibly empty) slice at its position. *)
Theorem decode_total_truncating (data : bytes) :
  21 <= len data ->
  exists p, decode data = Some p
    /\ p.(payload) = slice data (Declared.payloadOffset data)
                       (Declared.payloadOffset data + Declared.payloadLength data)
    /\ (len data < Declared.payloadOffset data + Declared.payloadLength data ->
        p.(payload) = slice_from data (Declared.payloadOffset data))
    /\ p.(recipientID) =
         (if Declared.hasRecipient data
          then Some (trimNullBytes (slice data 22 30)) else None)
    /\ p.(signature) =
         (if Declared.hasSignature data
          then Some (slice data
                       (Declared.payloadOffset data + Declared.payloadLength data)
                       (Declared.payloadOffset data + Declared.payloadLength data + 64))
          else None).
Proof.
  intros Hlen.
  do 14 (destruct data as [|? data]; [cbn in Hlen; lia|]).
  set (buf := _ :: _) in *.
  unfold decode.
  replace (len buf <? HEADER_SIZE + SENDER_ID_SIZE) with false
    by (symmetry; apply Z.ltb_ge; unfold HEADER_SIZE, SENDER_ID_SIZE; lia).
  unfold buf at 1. cbv zeta. fold buf.
  unfold Declared.payloadOffset, Declared.payloadLength, Declared.hasRecipient,
    Declared.hasSignature, Declared.isCompressed, Declared.flags in *.
  change (at0 buf 11) with z10 in *. change (at0 buf 12) with z11 in *.
  change (at0 buf 13) with z12 in *.
  unfold RECIPIENT_ID_SIZE, SENDER_ID_SIZE, SIGNATURE_SIZE, decompress.
  destruct (negb (Z.land z10 HAS_RECIPIENT =? 0)),
           (negb (Z.land z10 IS_COMPRESSED =? 0)),
           (negb (Z.land z10 HAS_SIGNATURE =? 0));
    cbv iota beta; eexists; (split; [reflexivity|]); cbn [payload recipientID signature];
    try match goal with
        | |- context [if ?c =? 0 then _ else _] => destruct (c =? 0)
        end;
    (split; [f_equal; lia|]);
    (split; [intros Hlt; rewrite slice_beyond by lia; unfold slice_from; f_equal; lia|]);
    (split; [reflexivity|]); first [reflexivity | f_equal; f_equal; lia].
Qed.

(** A 21-byte buffer that declares a recipient, a signature and 1000 payload bytes. *)
Definition shortBuffer : bytes :=
  [1; 4; 7;  0; 0; 0; 0; 0; 0; 0; 9;  3;  3; 232;  1; 2; 3; 4; 5; 6; 7].

Lemma decode_total_truncating_witness :
  21 <= len shortBuffer
  /\ exists p, decode shortBuffer = Some p
    /\ p.(payload) = slice shortBuffer (Declared.payloadOffset shortBuffer)
                       (Declared.payloadOffset shortBuffer
                        + Declared.payloadLength shortBuffer)
    /\ (len shortBuffer
          < Declared.payloadOffset shortBuffer + Declared.payloadLength shortBuffer ->
        p.(payload) = slice_from shortBuffer (Declared.payloadOffset shortBuffer))
    /\ p.(recipientID) =
         (if Declared.hasRecipient shortBuffer
          then Some (trimNullBytes (slice shortBuffer 22 30)) else None)
    /\ p.(signature) =
         (if Declared.hasSignature shortBuffer
          then Some (slice shortBuffer
                       (Declared.payloadOffset shortBuffer
                        + Declared.payloadLength shortBuffer)
                       (Declared.payloadOffset shortBuffer
                        + Declared.payloadLength shortBuffer + 64))
          else None).
Proof.
  split; [vm_compute; discriminate|].
  apply (decode_total_truncating shortBuffer). vm_compute. discriminate.
Defined.

(** The sender is the seven bytes that remain after the 14-byte header; the
    declared recipient, payload and signature come back empty. *)
Example decode_shortBuffer :
  decode shortBuffer
  = Some {| version := 1; type := 4; ttl := 7; timestamp := 9;
            senderID := [1; 2; 3; 4; 5; 6; 7];
            recipientID := Some [];
            payload := [];
            signature := Some [] |}.
Proof. vm_compute. reflexivity. Qed.

(** Below the guard the decoder refuses. *)
Lemma decode_short data : len data < 21 -> decode data = None.
Proof.
  intros H. unfold decode.
  replace (len data <? HEADER_SIZE + SENDER_ID_SIZE) with true; [reflexivity|].
  symmetry. apply Z.ltb_lt. unfold HEADER_SIZE, SENDER_ID_SIZE. lia.
Qed.

(* ================================================================== *)
(** * Actions, maps and sets *)
(* ================================================================== *)

Lemma str_eqb_refl a : str_eqb a a = true.
Proof. induction a as [|x a IH]; simpl; [reflexivity|]. now rewrite Z.eqb_refl, IH. Qed.

Lemma str_eqb_eq a b : str_eqb a b = true <-> a = b.
Proof.
  split; [|intros ->; apply str_eqb_refl].
  revert b. induction a as [|x a IH]; intros [|y b]; simpl; try discriminate; [reflexivity|].
  intros H. apply andb_true_iff in H as [H1 H2].
  apply Z.eqb_eq in H1. apply IH in H2. now subst.
Qed.

Lemma andThen_state (a b : Action) s :
  fst (andThen a b s) = fst (b (fst (a s))).
Proof. unfold andThen. destruct (a s) as [s1 e1]. simpl. now destruct (b s1). Qed.

Lemma andThen_effects (a b : Action) s :
  snd (andThen a b s) = snd (a s) ++ snd (b (fst (a s))).
Proof. unfold andThen. destruct (a s) as [s1 e1]. simpl. now destruct (b s1). Qed.

Lemma OSet_has_add_same (s : list JSString) k : OSet.has str_eqb (OSet.add str_eqb s k) k = true.
Proof.
  unfold OSet.add. destruct (OSet.has str_eqb s k) eqn:E; [exact E|].
  unfold OSet.has. rewrite existsb_app. simpl. rewrite str_eqb_refl.
  now rewrite orb_true_r.
Qed.

Lemma OSet_has_add_other (s : list JSString) k k' :
  OSet.has str_eqb s k = true -> OSet.has str_eqb (OSet.add str_eqb s k') k = true.
Proof.
  intros H. unfold OSet.add. destruct (OSet.has str_eqb s k'); [exact H|].
  unfold OSet.has in *. rewrite existsb_app, H. reflexivity.
Qed.


Lemma andThen_assoc (a b c : Action) s :
  andThen a (andThen b c) s = andThen (andThen a b) c s.
Proof.
  unfold andThen. destruct (a s) as [s1 e1]. destruct (b s1) as [s2 e2].
  destruct (c s2) as [s3 e3]. now rewrite app_assoc.
Qed.

(* ================================================================== *)
(** * Relay and the hop budget *)
(* ================================================================== *)

Import WebBluetoothMeshService.

























(** The three cases on the sample chat packet: dropped, delivered without
    relay, delivered and relayed with ttl 6. *)
Example ttl_zero_dropped :
  handleReceivedPacket (Sample.env 0) (Sample.chat 0) Sample.alice Sample.service
  = (Sample.service, []).
Proof. vm_compute. reflexivity. Qed.

Example ttl_one_delivered_not_relayed :
  let run := handleReceivedPacket (Sample.env 0) (Sample.chat 1) Sample.alice
               Sample.service in
  deliveredMessages (snd run) = [Msg.setSenderPeerID (Sample.message 1000) Sample.alice]
  /\ relayedPackets (snd run) = []
  /\ processedMessages (fst run) = [packetKey Sample.alice (Sample.chat 1)].
Proof. vm_compute. repeat split. Qed.

Example ttl_seven_relayed_as_six :
  let run := handleReceivedPacket (Sample.env 0) (Sample.chat 7) Sample.alice
               Sample.service in
  deliveredMessages (snd run) = [Msg.setSenderPeerID (Sample.message 1000) Sample.alice]
  /\ relayedPackets (snd run) = [Sample.chat 6].
Proof. vm_compute. repeat split. Qed.

(* ================================================================== *)
(** * [handleFragment] by its blocks *)
(* ================================================================== *)

Import WebBluetoothMeshService.
Import Fragment.

Lemma handleFragment_blocks dispatch E packet senderID s :
  handleFragment dispatch E packet senderID s = inBlocks dispatch E packet senderID s.
Proof. reflexivity. Qed.

(* ================================================================== *)
(** * Packets of the node itself *)
(* ================================================================== *)

Import WebBluetoothMeshService.
Import Fragment.

(** A buffer that decodes to a packet whose sender
    identifier, in hexadecimal, is the node's own peer identifier is dropped by
    [handleCharacteristicValueChanged] whatever its type and ttl: the state is
    unchanged (nothing is recorded for deduplication) and no effect is raised
    (no handler or delegate runs, nothing is relayed). *)
Theorem own_packet_discarded E data p s :
  BinaryProtocol.decode data = Some p ->
  bytesToHex p.(senderID) = s.(myPeerID) ->
  handleCharacteristicValueChanged E (Some data) s = (s, []).
Proof.
  intros Hd Hown. unfold handleCharacteristicValueChanged.
  rewrite Hd, Hown, str_eqb_refl. reflexivity.
Qed.

Definition ownPacketBytes : bytes :=
  match BinaryProtocol.encode
          {| version := 1; type := MessageType.MESSAGE; ttl := 7;
             timestamp := 1700000000000;
             senderID := [0x0A; 0x0B; 0x0C; 0x0D; 0x0E; 0x0F; 0x10; 0x11];
             recipientID := Some SpecialRecipients.BROADCAST;
             payload := Sample.messageBytes 1000; signature := None |} with
  | Some data => data
  | None => []
  end.

Lemma own_packet_discarded_witness :
  BinaryProtocol.decode ownPacketBytes
  = Some {| version := 1; type := MessageType.MESSAGE; ttl := 7;
            timestamp := 1700000000000;
            senderID := [0x0A; 0x0B; 0x0C; 0x0D; 0x0E; 0x0F; 0x10; 0x11];
            recipientID := Some SpecialRecipients.BROADCAST;
            payload := Sample.messageBytes 1000; signature := None |}
  /\ bytesToHex [0x0A; 0x0B; 0x0C; 0x0D; 0x0E; 0x0F; 0x10; 0x11]
     = Sample.service.(myPeerID)
  /\ handleCharacteristicValueChanged (Sample.env 0) (Some ownPacketBytes) Sample.service
     = (Sample.service, []).
Proof.
  assert (Hd : BinaryProtocol.decode ownPacketBytes
               = Some {| version := 1; type := MessageType.MESSAGE; ttl := 7;
                         timestamp := 1700000000000;
                         senderID := [0x0A; 0x0B; 0x0C; 0x0D; 0x0E; 0x0F; 0x10; 0x11];
                         recipientID := Some SpecialRecipients.BROADCAST;
                         payload := Sample.messageBytes 1000; signature := None |})
    by (vm_compute; reflexivity).
  assert (Ho : bytesToHex [0x0A; 0x0B; 0x0C; 0x0D; 0x0E; 0x0F; 0x10; 0x11]
               = Sample.service.(myPeerID)) by (vm_compute; reflexivity).
  split; [exact Hd|]. split; [exact Ho|].
  exact (own_packet_discarded (Sample.env 0) ownPacketBytes _ Sample.service Hd Ho).
Defined.

(** The same buffer from another node is delivered and relayed. *)
Example foreign_packet_processed :
  let run := handleCharacteristicValueChanged (Sample.env 0)
               (BinaryProtocol.encode (Sample.chat 7)) Sample.service in
  deliveredMessages (snd run) = [Msg.setSenderPeerID (Sample.message 1000) Sample.alice]
  /\ relayedPackets (snd run) = [Sample.chat 6].
Proof. vm_compute. repeat split. Qed.

(* ================================================================== *)
(** * The deduplication cache only grows *)
(* ================================================================== *)

(** An action that forgets no processed key. *)
Definition keepsProcessed (a : Action) : Prop :=
  forall s k, OSet.has str_eqb (processedMessages s) k = true ->
              OSet.has str_eqb (processedMessages (fst (a s))) k = true.

Lemma keeps_skip : keepsProcessed skip.
Proof. intros s k H. exact H. Qed.

Lemma keeps_modify f :
  (forall s, processedMessages (f s) = processedMessages s) -> keepsProcessed (modify f).
Proof. intros Hf s k H. simpl. now rewrite Hf. Qed.

Lemma keeps_notify e : keepsProcessed (notify e).
Proof. intros s k H. exact H. Qed.

Lemma keeps_andThen a b : keepsProcessed a -> keepsProcessed b -> keepsProcessed (andThen a b).
Proof. intros Ha Hb s k H. rewrite andThen_state. apply Hb, Ha, H. Qed.

Lemma keeps_if (c : bool) a b : keepsProcessed a -> keepsProcessed b -> keepsProcessed (if c then a else b).
Proof. destruct c; auto. Qed.

Lemma keeps_const (a : Action) :
  (forall s, processedMessages (fst (a s)) = processedMessages s) -> keepsProcessed a.
Proof. intros Ha s k H. now rewrite Ha. Qed.

Lemma processed_deleteSession fid s :
  processedMessages (deleteSession fid s) = processedMessages s.
Proof. reflexivity. Qed.

Lemma processed_fold_deleteSession l s :
  processedMessages (fold_left (fun s fragID => deleteSession fragID s) l s)
  = processedMessages s.
Proof. revert s. induction l as [|x l IH]; intros s; simpl; [reflexivity|]. now rewrite IH. Qed.

Lemma processed_evictOldest l t s :
  processedMessages (evictOldest l t s) = processedMessages s.
Proof.
  revert t s. induction l as [|[fid m] l IH]; intros t s; simpl; [reflexivity|].
  destruct (maxFragmentBytes <? t); [|reflexivity]. now rewrite IH.
Qed.

Lemma processed_cleanupOldFragments E s :
  processedMessages (cleanupOldFragments E s) = processedMessages s.
Proof.
  unfold cleanupOldFragments. cbv zeta.
  match goal with |- context [if ?c then _ else _] => destruct c end.
  - now rewrite processed_evictOldest, processed_fold_deleteSession.
  - apply processed_fold_deleteSession.
Qed.

Ltac keeps_modify_tac :=
  apply keeps_modify; intros; reflexivity.

Lemma keeps_deliver m sid : keepsProcessed (deliver m sid).
Proof. apply keeps_notify. Qed.

Lemma keeps_handleAnnounce p sid : keepsProcessed (handleAnnounce p sid).
Proof.
  intros s k. unfold handleAnnounce. destruct (nicknameRejected _); [auto|].
  apply keeps_andThen; [keeps_modify_tac|].
  apply keeps_andThen; [keeps_modify_tac|apply keeps_notify].
Qed.

Lemma keeps_handleMessage E p sid : keepsProcessed (handleMessage E p sid).
Proof.
  intros s k. unfold handleMessage.
  destruct (BitchatMessageCodec.fromBinaryPayload _ _); [|auto].
  destruct (_ || _); [apply keeps_deliver|auto].
Qed.

Lemma keeps_handleLeave sid : keepsProcessed (handleLeave sid).
Proof.
  unfold handleLeave.
  repeat (apply keeps_andThen; [first [keeps_modify_tac | apply keeps_notify]|]).
  apply keeps_notify.
Qed.

Lemma keeps_broadcastPacket E p : keepsProcessed (broadcastPacket E p).
Proof. apply keeps_const. intros s. unfold broadcastPacket. now destruct (BinaryProtocol.encode p). Qed.

Lemma keeps_relayPacket E p : keepsProcessed (relayPacket E p).
Proof. apply keeps_const. intros s. unfold relayPacket. now destruct (negb _). Qed.

Lemma keeps_asPacketThenMessage dispatch E fid sid data s done :
  (forall r sid, keepsProcessed (dispatch r sid)) ->
  asPacketThenMessage dispatch E fid sid data s = Some done ->
  forall k, OSet.has str_eqb (processedMessages s) k = true ->
            OSet.has str_eqb (processedMessages (fst done)) k = true.
Proof.
  intros Hd. unfold asPacketThenMessage.
  destruct (match BinaryProtocol.decode data with
            | Some pp => if type pp =? MessageType.MESSAGE then Some pp else None
            | None => None end) as [pp|].
  - intros [= <-]. apply keeps_andThen; [apply Hd|keeps_modify_tac].
  - destruct (BitchatMessageCodec.fromBinaryPayload _ _); [|discriminate].
    intros [= <-]. apply keeps_andThen; [apply keeps_deliver|keeps_modify_tac].
Qed.

Lemma keeps_asMessageThenPacket dispatch E fid sid data s done :
  (forall r sid, keepsProcessed (dispatch r sid)) ->
  asMessageThenPacket dispatch E fid sid data s = Some done ->
  forall k, OSet.has str_eqb (processedMessages s) k = true ->
            OSet.has str_eqb (processedMessages (fst done)) k = true.
Proof.
  intros Hd. unfold asMessageThenPacket.
  destruct (BitchatMessageCodec.fromBinaryPayload _ _).
  - intros [= <-]. apply keeps_andThen; [apply keeps_deliver|keeps_modify_tac].
  - destruct (BinaryProtocol.decode data) as [pp|]; [|discriminate].
    destruct (type pp =? MessageType.MESSAGE); [|discriminate].
    intros [= <-]. apply keeps_andThen; [apply Hd|keeps_modify_tac].
Qed.

Lemma processed_openSession E fid ot total s :
  processedMessages (fst (openSession E fid ot total s)) = processedMessages s.
Proof.
  unfold openSession.
  destruct (OMap.has _ _ _); [reflexivity|].
  destruct (_ <=? _); [|reflexivity].
  destruct (_ <=? _); simpl; apply processed_cleanupOldFragments.
Qed.

Lemma keeps_completeReassembly dispatch E fid sid fragments total :
  (forall r sid, keepsProcessed (dispatch r sid)) ->
  keepsProcessed (completeReassembly dispatch E fid sid fragments total).
Proof.
  intros Hd s k Hk. unfold completeReassembly.
  destruct (reassemble _ _) as [buf|]; [|exact Hk].
  destruct (BinaryProtocol.decode buf) as [rp|].
  - pose proof (Hd rp sid (deleteSession fid s) k Hk) as H.
    destruct (dispatch rp sid _) as [s2 e2]. simpl in *.
    now rewrite processed_cleanupOldFragments.
  - simpl. now rewrite processed_cleanupOldFragments.
Qed.

Lemma keeps_awaitFragments dispatch E fid sid fragments index total data :
  (forall r sid, keepsProcessed (dispatch r sid)) ->
  keepsProcessed (awaitFragments dispatch E fid sid fragments index total data).
Proof.
  intros Hd s k Hk. unfold awaitFragments.
  destruct (if (index =? 0) && (total =? 2)
            then asMessageThenPacket dispatch E fid sid data s else None)
    as [done|] eqn:E1.
  - destruct (_ && _) in E1; [|discriminate].
    eapply keeps_asMessageThenPacket; eassumption.
  - match goal with
    | |- context [match ?c with Some done => done | None => _ end] =>
        destruct c as [done|] eqn:E2
    end.
    + destruct (_ && _) in E2; [|discriminate].
      destruct (OMap.get _ _ _) in E2; [|discriminate].
      eapply keeps_asPacketThenMessage; eassumption.
    + simpl. now rewrite processed_cleanupOldFragments.
Qed.

Lemma keeps_handleFragment dispatch E p sid :
  (forall r sid, keepsProcessed (dispatch r sid)) ->
  keepsProcessed (handleFragment dispatch E p sid).
Proof.
  intros Hd s k Hk. rewrite handleFragment_blocks. unfold inBlocks. cbv zeta.
  destruct (len (payload p) <? 13); [exact Hk|].
  pose proof (processed_openSession E (fragmentID (payload p))
                (originalType (payload p)) (total (payload p)) s) as Ho.
  destruct (openSession _ _ _ _ _) as [s1 accepted]. simpl in Ho.
  destruct accepted; cbn [negb]; [|simpl; now rewrite Ho].
  match goal with |- context [OMap.size ?f =? ?t] => destruct (OMap.size f =? t) end.
  - apply keeps_completeReassembly; [exact Hd|]. simpl. now rewrite Ho.
  - apply keeps_awaitFragments; [exact Hd|]. simpl. now rewrite Ho.
Qed.

Lemma keeps_dispatchByType dispatch E p sid :
  (forall r sid, keepsProcessed (dispatch r sid)) ->
  keepsProcessed (dispatchByType dispatch E p sid).
Proof.
  intros Hd. unfold dispatchByType.
  repeat (apply keeps_if;
          [first [ apply keeps_handleAnnounce | apply keeps_handleMessage
                 | apply keeps_handleLeave | apply keeps_skip
                 | apply keeps_handleFragment; exact Hd ]|]).
  apply keeps_skip.
Qed.

Lemma keeps_recordPacket key sid : keepsProcessed (recordPacket key sid).
Proof.
  apply keeps_andThen; [|keeps_modify_tac].
  intros s k Hk. simpl. now apply OSet_has_add_other.
Qed.

Lemma keeps_handleReceivedPacketFuel fuel E p sid :
  keepsProcessed (handleReceivedPacketFuel fuel E p sid).
Proof.
  revert p sid. induction fuel as [|fuel IH]; intros p sid; [apply keeps_skip|].
  assert (Hbody : keepsProcessed
            (recordPacket (packetKey sid p) sid ;;
             dispatchByType (handleReceivedPacketFuel fuel E) E p sid ;;
             (if 1 <? ttl p then relayPacket E p else skip))%action).
  { apply keeps_andThen; [apply keeps_recordPacket|].
    apply keeps_andThen; [apply keeps_dispatchByType; exact IH|].
    apply keeps_if; [apply keeps_relayPacket|apply keeps_skip]. }
  intros s k Hk. cbn [handleReceivedPacketFuel].
  destruct (ttl p <=? 0); [exact Hk|].
  destruct (OSet.has str_eqb (processedMessages s) (packetKey sid p)); [exact Hk|].
  now apply Hbody.
Qed.

Lemma keeps_handleReceivedPacket E p sid : keepsProcessed (handleReceivedPacket E p sid).
Proof. intros s k. apply keeps_handleReceivedPacketFuel. Qed.

Lemma keeps_firstRecovered E fid sid candidates s done :
  firstRecovered E fid sid candidates s = Some done ->
  forall k, OSet.has str_eqb (processedMessages s) k = true ->
            OSet.has str_eqb (processedMessages (fst done)) k = true.
Proof.
  induction candidates as [|data rest IH]; simpl; [discriminate|].
  destruct (asPacketThenMessage _ _ _ _ _ _) as [d|] eqn:Ea.
  - intros [= <-]. eapply keeps_asPacketThenMessage; [|exact Ea].
    intros r sid'. apply keeps_handleReceivedPacket.
  - exact IH.
Qed.

Lemma keeps_step E event : keepsProcessed (step E event).
Proof.
  destruct event; cbn [step].
  - intros s k Hk. unfold handleCharacteristicValueChanged.
    destruct value as [data|]; [|exact Hk].
    destruct (BinaryProtocol.decode data) as [p|]; [|exact Hk].
    destruct (str_eqb _ _); [exact Hk|]. now apply keeps_handleReceivedPacket.
  - destruct callback; cbn [timerFired]; [apply keeps_broadcastPacket|].
    intros s k Hk. unfold fragmentTimeoutFired.
    destruct (OMap.get _ _ _); [|exact Hk].
    destruct (firstRecovered _ _ _ _ _) as [done|] eqn:Ef; [|exact Hk].
    eapply keeps_firstRecovered; eassumption.
  - apply keeps_modify. apply processed_cleanupOldFragments.
  - unfold connectToDevice.
    repeat (apply keeps_andThen; [first [keeps_modify_tac | apply keeps_notify]|]).
    apply keeps_andThen.
    { apply keeps_modify. intros s. destruct (deviceName device) as [n|]; [|reflexivity].
      now destruct (truthy n). }
    apply keeps_andThen; [intros s k; apply keeps_broadcastPacket|].
    apply keeps_andThen; apply keeps_notify.
  - unfold handleDeviceDisconnected.
    apply keeps_andThen; [|keeps_modify_tac].
    intros s k. destruct (findPeerOf _ _) as [peer|]; [|auto].
    destruct (truthy peer); [|auto].
    repeat (apply keeps_andThen; [first [keeps_modify_tac | apply keeps_notify]|]).
    apply keeps_notify.
  - unfold stopService.
    apply keeps_andThen; [keeps_modify_tac|].
    apply keeps_andThen.
    { intros s k. destruct (0 <? _); [apply keeps_broadcastPacket|auto]. }
    apply keeps_andThen; [intros s k Hk; exact Hk|].
    repeat (apply keeps_andThen; [keeps_modify_tac|]). keeps_modify_tac.
  - intros s k. unfold sendMessage.
    destruct (BitchatMessageCodec.toBinaryPayload _ _); [apply keeps_broadcastPacket|auto].
  - intros s k. unfold sendPrivateMessage.
    destruct (BitchatMessageCodec.toBinaryPayload _ _); [apply keeps_broadcastPacket|auto].
  - keeps_modify_tac.
  - keeps_modify_tac.
Qed.

Lemma keeps_run events s k :
  OSet.has str_eqb (processedMessages s) k = true ->
  OSet.has str_eqb (processedMessages (fst (run events s))) k = true.
Proof.
  revert s. induction events as [|[E event] rest IH]; intros s Hk; [exact Hk|].
  cbn [run]. pose proof (keeps_step E event s k Hk) as H1.
  destruct (step E event s) as [s1 e1]. specialize (IH s1 H1).
  destruct (run rest s1) as [s2 e2]. exact IH.
Qed.

(** A packet whose key is already recorded is dropped without a trace. *)
Lemma duplicate_dropped fuel E p sid s :
  OSet.has str_eqb (processedMessages s) (packetKey sid p) = true ->
  handleReceivedPacketFuel fuel E p sid s = (s, []).
Proof.
  intros H. destruct fuel as [|fuel]; [reflexivity|].
  cbn [handleReceivedPacketFuel]. rewrite H. now destruct (ttl p <=? 0).
Qed.

Lemma deliveredMessages_app e1 e2 :
  deliveredMessages (e1 ++ e2) = deliveredMessages e1 ++ deliveredMessages e2.
Proof. unfold deliveredMessages. apply flat_map_app. Qed.

Lemma relayPacket_delivers_nothing E p s :
  deliveredMessages (snd (relayPacket E p s)) = [].
Proof. unfold relayPacket. now destruct (negb _). Qed.

(** Let a MESSAGE packet be accepted: its ttl is
    positive, its key was not seen, its payload decodes to [m] and it is
    addressed to this node or to everyone.  That reception calls the
    delegate's [didReceiveMessage] exactly once, with [m] attributed to the
    sender.  After any further run of the service, a reception with the same
    key (whatever its ttl and the rest of its bytes) leaves the state as it is
    and raises nothing: it is neither dispatched nor relayed. *)
Theorem duplicate_delivered_once
    fuel1 fuel2 E1 E2 p1 p2 sid1 sid2 later s m s1 e1 s2 e2 :
  p1.(type) = MessageType.MESSAGE ->
  0 < p1.(ttl) ->
  OSet.has str_eqb s.(processedMessages) (packetKey sid1 p1) = false ->
  s.(delegate) = true ->
  BitchatMessageCodec.fromBinaryPayload E1.(json) p1.(payload) = Some m ->
  match p1.(recipientID) with
  | Some r => str_eqb (bytesToHex r) s.(myPeerID) || everyBroadcast r 0
  | None => true
  end = true ->
  packetKey sid2 p2 = packetKey sid1 p1 ->
  handleReceivedPacketFuel (S fuel1) E1 p1 sid1 s = (s1, e1) ->
  run later s1 = (s2, e2) ->
  deliveredMessages e1 = [Msg.setSenderPeerID m sid1]
  /\ handleReceivedPacketFuel fuel2 E2 p2 sid2 s2 = (s2, []).
Proof.
  intros Hty Httl Hfresh Hdel Hm Hrcpt Hkey Hrun1 Hrun2.
  cbn [handleReceivedPacketFuel] in Hrun1.
  destruct (Z.leb_spec (ttl p1) 0); [lia|]. rewrite Hfresh in Hrun1.
  split.
  - apply (f_equal snd) in Hrun1. simpl in Hrun1. rewrite <- Hrun1.
    rewrite !andThen_effects, !deliveredMessages_app.
    replace (deliveredMessages
               (snd ((if 1 <? ttl p1 then relayPacket E1 p1 else skip) _)))
      with (@nil BitchatMessage)
      by (destruct (1 <? ttl p1); [now rewrite relayPacket_delivers_nothing|reflexivity]).
    rewrite app_nil_r. cbn [recordPacket andThen modify fst snd app deliveredMessages flat_map].
    unfold dispatchByType, isType. rewrite Hty. cbn [Z.eqb Pos.eqb MessageType.ANNOUNCE MessageType.MESSAGE].
    unfold handleMessage. rewrite Hm. cbn [myPeerID set_activePeers set_processedMessages].
    replace (match recipientID p1 with
             | Some r => str_eqb (bytesToHex r) (myPeerID s)
             | None => false
             end || match recipientID p1 with
                    | Some r => everyBroadcast r 0
                    | None => true
                    end) with true
      by (destruct (recipientID p1); [now rewrite Hrcpt|reflexivity]).
    unfold deliver, notify. cbn. rewrite Hdel. reflexivity.
  - apply duplicate_dropped. rewrite Hkey.
    replace s2 with (fst (run later s1)) by now rewrite Hrun2.
    apply keeps_run.
    replace s1 with (fst (handleReceivedPacketFuel (S fuel1) E1 p1 sid1 s)).
    2:{ cbn [handleReceivedPacketFuel].
        destruct (Z.leb_spec (ttl p1) 0); [lia|]. rewrite Hfresh. now rewrite Hrun1. }
    cbn [handleReceivedPacketFuel].
    destruct (Z.leb_spec (ttl p1) 0); [lia|]. rewrite Hfresh.
    rewrite andThen_state.
    assert (Hk : keepsProcessed
                   (dispatchByType (handleReceivedPacketFuel fuel1 E1) E1 p1 sid1 ;;
                    (if 1 <? ttl p1 then relayPacket E1 p1 else skip))%action).
    { apply keeps_andThen;
        [apply keeps_dispatchByType; intros; apply keeps_handleReceivedPacketFuel|].
      apply keeps_if; [apply keeps_relayPacket|apply keeps_skip]. }
    apply Hk. simpl. apply OSet_has_add_same.
Qed.

(** The sample chat packet arrives with ttl 7, the service runs on (a sweep,
    then the relay timer fires), and the same packet arrives again over
    another path with ttl 3. *)
Lemma duplicate_delivered_once_witness :
  let first := handleReceivedPacketFuel 1 (Sample.env 0) (Sample.chat 7) Sample.alice
                 Sample.service in
  let later := [(Sample.env 5, CleanupInterval);
                (Sample.env 90, TimerFired (relayBroadcast (Sample.chat 6)))] in
  let rest := run later (fst first) in
  (Sample.chat 7).(type) = MessageType.MESSAGE
  /\ 0 < (Sample.chat 7).(ttl)
  /\ OSet.has str_eqb Sample.service.(processedMessages)
       (packetKey Sample.alice (Sample.chat 7)) = false
  /\ Sample.service.(delegate) = true
  /\ BitchatMessageCodec.fromBinaryPayload (Sample.env 0).(json) (Sample.chat 7).(payload)
     = Some (Sample.message 1000)
  /\ packetKey Sample.alice (Sample.chat 3) = packetKey Sample.alice (Sample.chat 7)
  /\ deliveredMessages (snd first)
     = [Msg.setSenderPeerID (Sample.message 1000) Sample.alice]
  /\ handleReceivedPacketFuel 1 (Sample.env 200) (Sample.chat 3) Sample.alice (fst rest)
     = (fst rest, []).
Proof.
  cbv zeta.
  assert (H1 : (Sample.chat 7).(type) = MessageType.MESSAGE) by reflexivity.
  assert (H2 : 0 < (Sample.chat 7).(ttl)) by reflexivity.
  assert (H3 : OSet.has str_eqb Sample.service.(processedMessages)
                 (packetKey Sample.alice (Sample.chat 7)) = false) by reflexivity.
  assert (H4 : Sample.service.(delegate) = true) by reflexivity.
  assert (H5 : BitchatMessageCodec.fromBinaryPayload (Sample.env 0).(json)
                 (Sample.chat 7).(payload) = Some (Sample.message 1000))
    by (vm_compute; reflexivity).
  assert (H6 : match (Sample.chat 7).(recipientID) with
               | Some r => str_eqb (bytesToHex r) Sample.service.(myPeerID)
                           || everyBroadcast r 0
               | None => true
               end = true) by (vm_compute; reflexivity).
  assert (H7 : packetKey Sample.alice (Sample.chat 3)
               = packetKey Sample.alice (Sample.chat 7)) by reflexivity.
  repeat (split; [assumption|]).
  refine (duplicate_delivered_once 0 1 (Sample.env 0) (Sample.env 200)
            (Sample.chat 7) (Sample.chat 3) Sample.alice Sample.alice
            [(Sample.env 5, CleanupInterval);
             (Sample.env 90, TimerFired (relayBroadcast (Sample.chat 6)))]
            Sample.service (Sample.message 1000) _ _ _ _
            H1 H2 H3 H4 H5 H6 H7 _ _).
  - apply surjective_pairing.
  - apply surjective_pairing.
Defined.

(* ================================================================== *)
(** * The text decoder on printable ASCII *)
(* ================================================================== *)

Import WebBluetoothMeshService.

Lemma between_spec lo hi x : Utf8.between lo hi x = true <-> lo <= x <= hi.
Proof. unfold Utf8.between. rewrite andb_true_iff, !Z.leb_le. tauto. Qed.

Lemma between_false lo hi x : Utf8.between lo hi x = false <-> ~ (lo <= x <= hi).
Proof.
  rewrite <- between_spec. destruct (Utf8.between lo hi x).
  - split; [discriminate|]. intros H. now destruct H.
  - split; [intros _ H; discriminate|reflexivity].
Qed.

Ltac split_between :=
  repeat match goal with
         | |- context [?a =? ?b] =>
             let E := fresh "Ee" in
             destruct (Z.eqb_spec a b) as [E|E]
         | |- context [Utf8.between ?lo ?hi ?x] =>
             let E := fresh "Eb" in
             destruct (Utf8.between lo hi x) eqn:E;
             [apply between_spec in E|apply between_false in E]
         end.

(** The first code point of a buffer is its first byte when that is ASCII, and
    is at least 0x80 otherwise. *)
Lemma codePoints_head b0 r0 :
  (0 <= b0 <= 0x7F /\ Utf8.codePoints (b0 :: r0) = b0 :: Utf8.codePoints r0)
  \/ (exists cp rest, Utf8.codePoints (b0 :: r0) = cp :: rest /\ 0x80 <= cp).
Proof.
  cbn [Utf8.codePoints]. unfold Utf8.REPLACEMENT.
  destruct (Utf8.between 0 127 b0) eqn:E0.
  { left. apply between_spec in E0. split; [lia|reflexivity]. }
  right.
  destruct r0 as [|b1 [|b2 [|b3 r3]]];
    split_between; subst;
    try (eexists; eexists; split; [reflexivity|lia]).
Qed.


Import Fragment.
Lemma codeUnits_high cp : 0x80 <= cp -> Forall (fun u => 0x80 <= u) (Utf8.codeUnits cp).
Proof.
  intros H. unfold Utf8.codeUnits. destruct (Z.ltb_spec cp 65536).
  - now constructor.
  - pose proof (Z.div_pos (cp - 65536) 1024 ltac:(lia) ltac:(lia)).
    pose proof (Z.mod_pos_bound (cp - 65536) 1024 ltac:(lia)).
    repeat constructor; lia.
Qed.

Lemma printable_text_is_its_bytes data :
  Forall printable (flat_map Utf8.codeUnits (Utf8.codePoints data)) ->
  Forall printable data /\ flat_map Utf8.codeUnits (Utf8.codePoints data) = data.
Proof.
  induction data as [|b0 r0 IH]; [now split|].
  destruct (codePoints_head b0 r0) as [[Hb ->]|(cp & rest & -> & Hcp)].
  - cbn [flat_map]. unfold Utf8.codeUnits at 1 3.
    destruct (Z.ltb_spec b0 65536); [|lia]. cbn [app].
    intros Hall. inversion Hall as [|? ? Hp Hr]; subst.
    destruct (IH Hr) as [IH1 IH2]. split; [now constructor|now rewrite IH2].
  - cbn [flat_map]. intros Hall. apply Forall_app in Hall as [Hall _].
    pose proof (codeUnits_high cp Hcp) as Hhigh.
    destruct (Utf8.codeUnits cp) as [|u us] eqn:Eu.
    + unfold Utf8.codeUnits in Eu. now destruct (cp <? 65536).
    + inversion Hall; inversion Hhigh; subst. unfold printable in *. lia.
Qed.

(** Only the bytes EF BB BF decode to the byte-order mark. *)
Lemma codePoints_BOM data rest :
  Utf8.codePoints data = Utf8.BOM :: rest ->
  exists r, data = 0xEF :: 0xBB :: 0xBF :: r /\ rest = Utf8.codePoints r.
Proof.
  destruct data as [|b0 r0]; [discriminate|].
  cbn [Utf8.codePoints]. unfold Utf8.REPLACEMENT, Utf8.BOM.
  destruct r0 as [|b1 [|b2 [|b3 r3]]]; split_between.
  all: intros H; pose proof (f_equal (hd 0) H) as H1;
    pose proof (f_equal (@tl Z) H) as H2; cbn [hd tl] in H1, H2; clear H.
  all: try lia.
  all: assert (b0 = 239 /\ b1 = 187 /\ b2 = 191) as (-> & -> & ->) by lia.
  all: subst; eexists; split; reflexivity.
Qed.


Lemma decode_withoutBOM payload :
  Utf8.decode payload = flat_map Utf8.codeUnits (Utf8.codePoints (withoutBOM payload)).
Proof.
  unfold Utf8.decode. f_equal.
  destruct (Utf8.codePoints payload) as [|c rest] eqn:Ec.
  - simpl. destruct payload as [|b0 r0]; [reflexivity|].
    destruct (codePoints_head b0 r0) as [[_ H]|(? & ? & H & _)];
      rewrite H in Ec; discriminate.
  - cbn [Utf8.dropBOM]. destruct (Z.eqb_spec c Utf8.BOM) as [->|Hc].
    + destruct (codePoints_BOM _ _ Ec) as (r & -> & ->). reflexivity.
    + rewrite <- Ec. f_equal. unfold withoutBOM.
      destruct payload as [|b0 [|b1 [|b2 r]]]; try reflexivity.
      destruct (Z.eqb_spec b0 239) as [->|]; [|reflexivity].
      destruct (Z.eqb_spec b1 187) as [->|]; [|reflexivity].
      destruct (Z.eqb_spec b2 191) as [->|]; [|reflexivity].
      cbn in Ec. injection Ec as Ec _. unfold Utf8.BOM in Hc. lia.
Qed.


Lemma nicknameRejected_false nickname :
  nicknameRejected nickname = false ->
  len nickname <= 100 /\ Forall printable nickname.
Proof.
  unfold nicknameRejected. intros H.
  apply orb_false_iff in H as [H H3]. apply orb_false_iff in H as [H1 H2].
  split; [apply Z.ltb_ge in H1; lia|].
  apply Forall_forall. intros c Hc.
  pose proof (existsb_exists (fun c => negb (Utf8.between 32 126 c)) nickname) as Hex.
  destruct (Utf8.between 32 126 c) eqn:Eb; [now apply between_spec in Eb|].
  rewrite H3 in Hex. destruct Hex as [_ Hex].
  assert (false = true); [|discriminate].
  apply Hex. exists c. split; [exact Hc|]. now rewrite Eb.
Qed.

(** The validation of [handleAnnounce], on the bytes. *)
Lemma malformed_nickname_rejected payload :
  malformedNickname (withoutBOM payload) ->
  nicknameRejected (Utf8.decode payload) = true.
Proof.
  intros Hbad. destruct (nicknameRejected _) eqn:E; [reflexivity|exfalso].
  apply nicknameRejected_false in E as [Hlen Hpr].
  rewrite decode_withoutBOM in Hlen, Hpr.
  destruct (printable_text_is_its_bytes _ Hpr) as [Hbytes Heq].
  rewrite Heq in Hlen.
  destruct Hbad as [Hl|[H0|Hex]].
  - lia.
  - rewrite Forall_forall in Hbytes. specialize (Hbytes 0 H0). unfold printable in *. lia.
  - apply Exists_exists in Hex as (b & Hb & Hnp).
    rewrite Forall_forall in Hbytes. now apply Hnp, Hbytes.
Qed.


(* ================================================================== *)
(** * Announcements *)
(* ================================================================== *)

Lemma delegateCalls_app e1 e2 :
  delegateCalls (e1 ++ e2) = delegateCalls e1 ++ delegateCalls e2.
Proof. unfold delegateCalls. apply filter_app. Qed.

Lemma relayPacket_frame E p s :
  let s' := fst (relayPacket E p s) in
  activePeers s' = activePeers s /\ peerNicknames s' = peerNicknames s
  /\ processedMessages s' = processedMessages s
  /\ delegateCalls (snd (relayPacket E p s)) = [].
Proof. unfold relayPacket. destruct (negb _); simpl; repeat split. Qed.

(** The handler itself: a malformed name changes nothing and notifies nobody. *)
Lemma handleAnnounce_rejects p sid s :
  malformedNickname (withoutBOM p.(payload)) -> handleAnnounce p sid s = (s, []).
Proof. intros H. unfold handleAnnounce. now rewrite malformed_nickname_rejected. Qed.

(** An ANNOUNCE packet (or the legacy type 0x02)
    whose payload, without the byte-order mark the text decoder drops, is
    longer than 100 bytes or holds a null byte or a byte outside printable
    ASCII is rejected by [handleAnnounce]: no nickname is recorded and the
    delegate is not called.  The reception is still accepted by
    [handleReceivedPacket] when its ttl is positive and its key is new: then
    the key is recorded and the sender joins the active-peer set, as for every
    accepted packet. *)
Theorem malformed_announce_rejected fuel E p sid s s' effects :
  p.(type) = MessageType.ANNOUNCE \/ p.(type) = 0x02 ->
  malformedNickname (withoutBOM p.(payload)) ->
  handleReceivedPacketFuel (S fuel) E p sid s = (s', effects) ->
  let accepted :=
    (0 <? p.(ttl)) && negb (OSet.has str_eqb s.(processedMessages) (packetKey sid p)) in
  (forall s0, handleAnnounce p sid s0 = (s0, []))
  /\ peerNicknames s' = peerNicknames s
  /\ delegateCalls effects = []
  /\ activePeers s' =
       (if accepted then OSet.add str_eqb (activePeers s) sid else activePeers s)
  /\ processedMessages s' =
       (if accepted then OSet.add str_eqb (processedMessages s) (packetKey sid p)
        else processedMessages s).
Proof.
  intros Hty Hbad Hrun accepted. subst accepted.
  split; [intros s0; now apply handleAnnounce_rejects|].
  cbn [handleReceivedPacketFuel] in Hrun.
  destruct (Z.leb_spec (ttl p) 0) as [Hle|Hlt].
  { replace (0 <? ttl p) with false by (symmetry; apply Z.ltb_ge; lia).
    inversion Hrun; subst. now repeat split. }
  replace (0 <? ttl p) with true by (symmetry; apply Z.ltb_lt; lia).
  destruct (OSet.has str_eqb (processedMessages s) (packetKey sid p)); cbn [andb negb].
  { inversion Hrun; subst. now repeat split. }
  assert (Hd : forall d s0, dispatchByType d E p sid s0 = (s0, [])).
  { intros d s0. unfold dispatchByType, isType.
    destruct Hty as [-> | ->]; cbn; now apply handleAnnounce_rejects. }
  unfold andThen in Hrun at 1. cbn [recordPacket andThen modify] in Hrun.
  unfold andThen in Hrun. rewrite Hd in Hrun. cbn [app] in Hrun.
  destruct (1 <? ttl p).
  - pose proof (relayPacket_frame E p
                  (set_activePeers
                     (OSet.add str_eqb
                        (activePeers
                           (set_processedMessages
                              (OSet.add str_eqb (processedMessages s) (packetKey sid p)) s))
                        sid)
                     (set_processedMessages
                        (OSet.add str_eqb (processedMessages s) (packetKey sid p)) s)))
      as (Ha & Hn & Hp & Hc).
    destruct (relayPacket E p _) as [s2 e2]. inversion Hrun; subst.
    simpl in *. now repeat split.
  - inversion Hrun; subst. now repeat split.
Qed.

Lemma malformed_announce_rejected_witness :
  let p := Sample.announce (repeat 97 101) in
  let run := handleReceivedPacketFuel 1 (Sample.env 0) p Sample.alice Sample.service in
  (p.(type) = MessageType.ANNOUNCE \/ p.(type) = 0x02)
  /\ malformedNickname (withoutBOM p.(payload))
  /\ (forall s0, handleAnnounce p Sample.alice s0 = (s0, []))
  /\ peerNicknames (fst run) = peerNicknames Sample.service
  /\ delegateCalls (snd run) = []
  /\ activePeers (fst run) =
       (if (0 <? p.(ttl))
           && negb (OSet.has str_eqb Sample.service.(processedMessages)
                      (packetKey Sample.alice p))
        then OSet.add str_eqb (activePeers Sample.service) Sample.alice
        else activePeers Sample.service)
  /\ processedMessages (fst run) =
       (if (0 <? p.(ttl))
           && negb (OSet.has str_eqb Sample.service.(processedMessages)
                      (packetKey Sample.alice p))
        then OSet.add str_eqb (processedMessages Sample.service)
               (packetKey Sample.alice p)
        else processedMessages Sample.service).
Proof.
  cbv zeta.
  assert (H1 : (Sample.announce (repeat 97 101)).(type) = MessageType.ANNOUNCE
               \/ (Sample.announce (repeat 97 101)).(type) = 0x02)
    by (left; reflexivity).
  assert (H2 : malformedNickname (withoutBOM (Sample.announce (repeat 97 101)).(payload)))
    by (left; vm_compute; reflexivity).
  split; [exact H1|]. split; [exact H2|].
  exact (malformed_announce_rejected 0 (Sample.env 0) (Sample.announce (repeat 97 101))
           Sample.alice Sample.service _ _ H1 H2 (surjective_pairing _)).
Defined.

(** A rejected announcement of 101 printable bytes from an unknown sender
    still enters that sender in the active-peer set. *)
Example rejected_announce_marks_sender_active :
  let p := Sample.announce (repeat 97 101) in
  let after := fst (handleReceivedPacket (Sample.env 0) p Sample.alice Sample.service) in
  activePeers Sample.service = [lit "1111111111111111"]
  /\ activePeers after = [lit "1111111111111111"; Sample.alice]
  /\ peerNicknames after = peerNicknames Sample.service.
Proof. vm_compute. repeat split. Qed.

(** A valid announcement records the nickname; so does one that starts with
    the byte-order mark, which the decoder drops. *)
Example announce_accepted :
  peerNicknames
    (fst (handleReceivedPacket (Sample.env 0) (Sample.announce [98; 111; 98])
            Sample.alice Sample.service))
  = [(lit "1111111111111111", lit "phone"); (Sample.alice, lit "bob")].
Proof. vm_compute. reflexivity. Qed.

Example announce_with_byte_order_mark_accepted :
  peerNicknames
    (fst (handleReceivedPacket (Sample.env 0)
            (Sample.announce [0xEF; 0xBB; 0xBF; 98; 111; 98])
            Sample.alice Sample.service))
  = [(lit "1111111111111111", lit "phone"); (Sample.alice, lit "bob")].
Proof. vm_compute. reflexivity. Qed.

(** Fifty bytes with a null byte among them are rejected. *)
Example announce_with_null_rejected :
  handleAnnounce (Sample.announce (repeat 97 20 ++ [0] ++ repeat 97 29))
    Sample.alice Sample.service
  = (Sample.service, []).
Proof. vm_compute. reflexivity. Qed.

(* ================================================================== *)
(** * Shutdown *)
(* ================================================================== *)

Import WebBluetoothMeshService.
Import Fragment.

Lemma broadcastPacket_state E p s : fst (broadcastPacket E p s) = s.
Proof. unfold broadcastPacket. now destruct (BinaryProtocol.encode p). Qed.

(** What [stopService] does: the LEAVE packet is written to every device with
    a live link, then every connected device with a live link is disconnected,
    and the two connection tables and the active-peer set are emptied. *)
Lemma stopService_teardown E s :
  stopService E s =
  (set_activePeers []
     (set_deviceCharacteristics []
        (set_connectedDevices [] (set_isScanning false s))),
   (if 0 <? OMap.size s.(connectedDevices)
    then snd (sendLeaveNotification E (set_isScanning false s)) else [])
   ++ flat_map (fun '(_, device) =>
                  if E.(gattConnected) device then [gattDisconnect device] else [])
               s.(connectedDevices)).
Proof.
  unfold stopService, andThen, modify.
  set (s0 := set_isScanning false s).
  change (connectedDevices s0) with (connectedDevices s).
  destruct (0 <? OMap.size (connectedDevices s)).
  - unfold sendLeaveNotification.
    pose proof (broadcastPacket_state E (announcePacket E MessageType.LEAVE s0) s0) as Hs.
    destruct (broadcastPacket E _ s0) as [s1 e1]. simpl in Hs. subst s1.
    cbn [fst snd app]. rewrite !app_nil_r. reflexivity.
  - cbn [fst snd app]. rewrite !app_nil_r. reflexivity.
Qed.


(** A service that has seen one chat packet and one fragment, then stops. *)
Definition busyService : Service :=
  fst (run [(Sample.env 0, CharacteristicValueChanged
                             (BinaryProtocol.encode (Sample.chat 7)));
            (Sample.env 1, CharacteristicValueChanged
                             (BinaryProtocol.encode
                                {| version := 1; type := MessageType.FRAGMENT_START;
                                   ttl := 7; timestamp := 1700000000001;
                                   senderID := Sample.aliceID; recipientID := None;
                                   payload := [1; 2; 3; 4; 5; 6; 7; 8; 0; 0; 0; 3; 4;
                                               9; 9; 9];
                                   signature := None |}))]
           Sample.service).

Example stopService_on_busyService :
  let s' := fst (stopService (Sample.env 2) busyService) in
  peerNicknames s' = [(lit "1111111111111111", lit "phone")]
  /\ processedMessages s'
     = [lit "a1b2c3d4e5f60718-1700000000000-70000003e8000003";
        lit "a1b2c3d4e5f60718-1700000000001-0102030405060708"]
  /\ incomingFragments s' = [(lit "0102030405060708", [(0, [9; 9; 9])])]
  /\ OMap.size (fragmentMetadata s') = 1
  /\ activePeers s' = [] /\ connectedDevices s' = [].
Proof. vm_compute. repeat split. Qed.

(** The LEAVE packet goes out before the link is dropped. *)
Example stopService_effects :
  snd (stopService (Sample.env 2) Sample.service)
  = [writeValue Sample.phone 7
       [1; 3; 3; 0; 0; 0; 0; 0; 0; 0; 2; 0; 0; 11;
        10; 11; 12; 13; 14; 15; 16; 17;
        117; 115; 101; 114; 95; 48; 97; 48; 98; 48; 99];
     gattDisconnect Sample.phone].
Proof. vm_compute. reflexivity. Qed.

(* ================================================================== *)
(** * The compact message format *)
(* ================================================================== *)

Import BitchatMessageCodec.

(** The timestamp loops of [toIOSBinaryPayload] and [fromIOSBinaryPayload]
    shift a number with the 32-bit operators, so a message stamped
    1700000000000 (14 November 2023) comes back stamped -807049216, every
    other field intact. *)
Example timestamp_not_preserved :
  match toIOSBinaryPayload (Sample.message 1700000000000) with
  | Some data => fromIOSBinaryPayload data
  | None => None
  end = Some (Sample.message (-807049216))
  /\ toInt32 1700000000000 = -807049216.
Proof. vm_compute. split; reflexivity. Qed.

(** Below 2^31 milliseconds the sample message survives. *)
Example small_timestamp_preserved :
  match toIOSBinaryPayload (Sample.message 1000) with
  | Some data => fromIOSBinaryPayload data
  | None => None
  end = Some (Sample.message 1000).
Proof. vm_compute. reflexivity. Qed.

(** The envelope codec, which shifts a bigint, keeps the same instant. *)
Example envelope_timestamp_preserved :
  option_map timestamp
    (match BinaryProtocol.encode (Sample.chat 7) with
     | Some data => BinaryProtocol.decode data
     | None => None
     end) = Some 1700000000000.
Proof. vm_compute. reflexivity. Qed.

(* ================================================================== *)
(** * Hexadecimal identifiers *)
(* ================================================================== *)

Import WebBluetoothMeshService.

Lemma hexPair_byte x :
  is_byte x ->
  toUint8 (match parseInt16 (byteToHex x) with Some n => n | None => 0 end) = x.
Proof.
  intros Hx.
  assert (Hall : forallb (fun x =>
            toUint8 (match parseInt16 (byteToHex x) with Some n => n | None => 0 end)
            =? x) (map Z.of_nat (seq 0 256)) = true) by (vm_compute; reflexivity).
  rewrite forallb_forall in Hall.
  apply Z.eqb_eq, Hall, in_map_iff. exists (Z.to_nat x). split.
  - unfold is_byte in Hx. lia.
  - apply in_seq. unfold is_byte in Hx. lia.
Qed.

Lemma hexPairs_bytesToHex (b : bytes) :
  Forall is_byte b -> hexPairs (bytesToHex b) = b.
Proof.
  induction 1 as [|x r Hx Hr IH]; [reflexivity|].
  unfold bytesToHex in *. cbn [flat_map].
  change (byteToHex x ++ flat_map byteToHex r)
    with (hexDigit (x / 16) :: hexDigit (x mod 16) :: flat_map byteToHex r).
  cbn [hexPairs]. rewrite IH. f_equal. apply (hexPair_byte x Hx).
Qed.

(** [hexToBytes] undoes [bytesToHex]: the identifier a peer prints is read
    back as the same bytes, whatever their number. *)
Theorem hexToBytes_bytesToHex (b : bytes) :
  Forall is_byte b -> hexToBytes (bytesToHex b) = b.
Proof. intros Hb. unfold hexToBytes. now apply hexPairs_bytesToHex. Qed.

Lemma hexToBytes_bytesToHex_witness :
  Forall is_byte Sample.aliceID
  /\ hexToBytes (bytesToHex Sample.aliceID) = Sample.aliceID.
Proof.
  assert (H : Forall is_byte Sample.aliceID)
    by (repeat constructor; unfold is_byte; lia).
  split; [exact H | apply (hexToBytes_bytesToHex Sample.aliceID H)].
Defined.

(** What is not a pair of hexadecimal digits is read as the byte 0, and an
    odd last digit is dropped. *)
Example hexToBytes_lenient :
  hexToBytes (lit "zz41f") = [0; 65].
Proof. vm_compute. reflexivity. Qed.

(* ================================================================== *)
(** * What [encode] puts on the wire *)
(* ================================================================== *)

Import BinaryProtocol.




(* ================================================================== *)
(** * Constant-time comparison *)
(* ================================================================== *)

Import CryptoUtil.

Lemma is_byte_land x : is_byte x <-> Z.land x 255 = x.
Proof.
  split; [apply toUint8_byte|]. intros <-. apply land_255_is_byte.
Qed.

Lemma is_byte_lor x y : is_byte x -> is_byte y -> is_byte (Z.lor x y).
Proof.
  rewrite !is_byte_land. intros Hx Hy.
  now rewrite Z.land_lor_distr_l, Hx, Hy.
Qed.

Lemma is_byte_lxor x y : is_byte x -> is_byte y -> is_byte (Z.lxor x y).
Proof.
  rewrite !is_byte_land. intros Hx Hy.
  rewrite <- Hx, <- Hy at 2. apply Z.bits_inj. intros n.
  rewrite !Z.land_spec, !Z.lxor_spec, !Z.land_spec.
  now destruct (Z.testbit x n), (Z.testbit y n), (Z.testbit 255 n).
Qed.

Lemma toInt32_small x : -2147483648 <= x < 2147483648 -> toInt32 x = x.
Proof.
  intros Hx. unfold toInt32.
  destruct (Z.ltb_spec (x mod 4294967296) 2147483648) as [Hlt|Hge].
  - destruct (Z.neg_nonneg_cases x) as [Hn|Hp].
    + rewrite <- (Z.mod_add x 1) in Hlt by lia.
      rewrite Z.mod_small in Hlt by lia. lia.
    + apply Z.mod_small. lia.
  - destruct (Z.neg_nonneg_cases x) as [Hn|Hp].
    + rewrite <- (Z.mod_add x 1) by lia. rewrite Z.mod_small by lia. lia.
    + rewrite Z.mod_small in Hge by lia. lia.
Qed.

Lemma toInt32_byte x : is_byte x -> toInt32 x = x.
Proof. unfold is_byte. intros Hx. apply toInt32_small. lia. Qed.

Lemma or_xor_bytes r x y :
  is_byte r -> is_byte x -> is_byte y ->
  or32 r (xor32 x y) = Z.lor r (Z.lxor x y).
Proof.
  intros Hr Hx Hy. unfold or32, xor32.
  rewrite (toInt32_byte x Hx), (toInt32_byte y Hy), (toInt32_byte r Hr).
  rewrite !(toInt32_byte (Z.lxor x y)) by now apply is_byte_lxor.
  apply toInt32_byte, is_byte_lor; [assumption|now apply is_byte_lxor].
Qed.

Lemma at0_app_here (pre : bytes) x rest :
  at0 (pre ++ x :: rest) (Z.of_nat (length pre)) = x.
Proof.
  unfold at0, at_. destruct (Z.ltb_spec (Z.of_nat (length pre)) 0); [lia|].
  rewrite Nat2Z.id, nth_error_app2, Nat.sub_diag by lia. reflexivity.
Qed.

Lemma differences_zero (pa pb a b : bytes) r :
  length pa = length pb -> length a = length b ->
  Forall is_byte a -> Forall is_byte b -> is_byte r ->
  fold_left (fun result i =>
               or32 result (xor32 (at0 (pa ++ a) i) (at0 (pb ++ b) i)))
            (map Z.of_nat (seq (length pa) (length a))) r = 0
  <-> r = 0 /\ a = b.
Proof.
  intros Hp Hl Ha. revert pa pb b r Hp Hl.
  induction Ha as [|x a Hx Ha IH]; intros pa pb b r Hp Hl Hb Hr.
  - destruct b; [|discriminate]. cbn. intuition.
  - destruct b as [|y b]; [discriminate|].
    apply Forall_cons_iff in Hb as [Hy Hb].
    cbn [length seq map fold_left].
    rewrite at0_app_here. rewrite Hp at 2. rewrite at0_app_here.
    rewrite or_xor_bytes by assumption.
    replace (pa ++ x :: a) with ((pa ++ [x]) ++ a) by now rewrite <- app_assoc.
    replace (pb ++ y :: b) with ((pb ++ [y]) ++ b) by now rewrite <- app_assoc.
    replace (S (length pa)) with (length (pa ++ [x]))
      by (rewrite length_app; cbn; lia).
    rewrite IH.
    + rewrite Z.lor_eq_0_iff, Z.lxor_eq_0_iff. split.
      * intros [[-> ->] ->]. now split.
      * intros [-> [= -> ->]]. now repeat split.
    + rewrite !length_app. cbn. lia.
    + cbn in Hl. lia.
    + assumption.
    + apply is_byte_lor; [assumption|now apply is_byte_lxor].
Qed.

(** [constantTimeEqual] is equality of byte arrays: it answers true exactly
    when the two arrays have the same length and the same bytes. *)
Theorem constantTimeEqual_spec (a b : bytes) :
  Forall is_byte a -> Forall is_byte b ->
  (constantTimeEqual a b = true <-> a = b).
Proof.
  intros Ha Hb. unfold constantTimeEqual.
  destruct (Z.eqb_spec (len a) (len b)) as [Hl|Hl]; cbn [negb].
  - rewrite Z.eqb_eq.
    rewrite (differences_zero [] [] a b 0); unfold is_byte, len in *;
      try assumption; try lia; try reflexivity.
    intuition.
  - split; [discriminate|]. intros ->. contradiction.
Qed.

Lemma constantTimeEqual_spec_witness :
  Forall is_byte [1; 2; 3] /\ Forall is_byte [1; 2; 4]
  /\ (constantTimeEqual [1; 2; 3] [1; 2; 4] = true <-> [1; 2; 3] = [1; 2; 4]).
Proof.
  assert (Ha : Forall is_byte [1; 2; 3]) by (repeat constructor; unfold is_byte; lia).
  assert (Hb : Forall is_byte [1; 2; 4]) by (repeat constructor; unfold is_byte; lia).
  split; [exact Ha|]. split; [exact Hb|].
  apply (constantTimeEqual_spec [1; 2; 3] [1; 2; 4] Ha Hb).
Defined.

(* ================================================================== *)
(** * The text codecs on well-formed strings *)
(* ================================================================== *)

Import Text.



Lemma encodeCodePoint_bytes cp :
  0 <= cp <= 0x10FFFF -> Forall is_byte (Utf8.encodeCodePoint cp).
Proof.
  intros Hcp. unfold Utf8.encodeCodePoint, is_byte.
  pose proof (Z.mod_pos_bound cp 64 ltac:(lia)).
  pose proof (Z.mod_pos_bound (cp / 64) 64 ltac:(lia)).
  pose proof (Z.mod_pos_bound (cp / 4096) 64 ltac:(lia)).
  pose proof (Z.div_pos cp 64 ltac:(lia) ltac:(lia)).
  pose proof (Z.div_pos cp 4096 ltac:(lia) ltac:(lia)).
  pose proof (Z.div_pos cp 262144 ltac:(lia) ltac:(lia)).
  destruct (Z.ltb_spec cp 128); [repeat constructor; lia|].
  destruct (Z.ltb_spec cp 2048).
  { assert (cp / 64 < 32) by (apply Z.div_lt_upper_bound; lia).
    repeat constructor; lia. }
  destruct (Z.ltb_spec cp 65536).
  { assert (cp / 4096 < 16) by (apply Z.div_lt_upper_bound; lia).
    repeat constructor; lia. }
  assert (cp / 262144 < 5) by (apply Z.div_lt_upper_bound; lia).
  repeat constructor; lia.
Qed.




Lemma scalars_range s :
  Forall codeUnit s -> Forall (fun cp => 0 <= cp <= 0x10FFFF) (Utf8.scalars s).
Proof.
  assert (Hn : forall n s, (length s <= n)%nat -> Forall codeUnit s ->
                 Forall (fun cp => 0 <= cp <= 0x10FFFF) (Utf8.scalars s)).
  { induction n as [|n IH]; intros [|u rest] Hn Hu; try constructor;
      try (cbn in Hn; lia).
    apply Forall_cons_iff in Hu as [Hu Hrest]. unfold codeUnit in Hu.
    cbn [Utf8.scalars].
    unfold Utf8.isHighSurrogate, Utf8.isLowSurrogate, Utf8.REPLACEMENT.
    assert (Hr : Forall (fun cp => 0 <= cp <= 1114111) (Utf8.scalars rest))
      by (apply IH; [cbn in Hn; lia|assumption]).
    destruct (Utf8.between 55296 56319 u) eqn:Eh.
    - apply between_spec in Eh. destruct rest as [|l rest'].
      + repeat constructor; lia.
      + apply Forall_cons_iff in Hrest as [Hl Hrest'].
        destruct (Utf8.between 56320 57343 l) eqn:El.
        * apply between_spec in El. constructor; [lia|].
          apply IH; [cbn in Hn; lia|assumption].
        * constructor; [lia|assumption].
    - destruct (Utf8.between 56320 57343 u); constructor; try lia; assumption. }
  intros Hu. now apply (Hn (length s)).
Qed.

Lemma encode_bytes s : Forall codeUnit s -> Forall is_byte (Utf8.encode s).
Proof.
  intros Hu. unfold Utf8.encode. apply scalars_range in Hu.
  induction Hu as [|cp cps Hcp _ IH]; [constructor|].
  cbn [flat_map]. apply Forall_app. split; [now apply encodeCodePoint_bytes|exact IH].
Qed.

(* ================================================================== *)
(** * Reading a buffer from a cursor *)
(* ================================================================== *)

Import Text Wire.
Import BitchatMessageCodec.










(* ================================================================== *)
(** * The fields of the compact format *)
(* ================================================================== *)




Lemma readOptional_absent data offset : readOptional false data offset = (None, offset).
Proof. reflexivity. Qed.




(* ================================================================== *)
(** * The timestamp loops *)
(* ================================================================== *)

Import Text Wire.
Import BitchatMessageCodec.










(* ================================================================== *)
(** * The compact message format: what comes back *)
(* ================================================================== *)

Import Text Wire.
Import BitchatMessageCodec.











Import Text Wire.
Import BitchatMessageCodec.

Lemma len_cons {A} (x : A) l : len (x :: l) = 1 + len l.
Proof. unfold len. cbn [length]. lia. Qed.








(** The round trip is exact when, besides, the timestamp is within 32 bits,
    no optional field is empty, and the message is neither encrypted nor
    carries a delivery status. *)
Example sample_message_asReceived :
  asReceived (Sample.message 1000) = Sample.message 1000
  /\ asReceived (Sample.message 1700000000000) = Sample.message (-807049216).
Proof. split; reflexivity. Qed.

(* ================================================================== *)
(** * Keys of the insertion-ordered tables *)
(* ================================================================== *)

Import WebBluetoothMeshService.
Import Fragment.

Section Keys.
Context {K : Type} (eqb : K -> K -> bool).
Hypothesis eqb_eq : forall a b, eqb a b = true <-> a = b.

Lemma OSet_has_In (l : list K) k : OSet.has eqb l k = true <-> In k l.
Proof.
  unfold OSet.has. rewrite existsb_exists. split.
  - intros (x & Hin & Hx). apply eqb_eq in Hx. now subst.
  - intros Hin. exists k. split; [exact Hin|now apply eqb_eq].
Qed.

Lemma OSet_has_notIn (l : list K) k : OSet.has eqb l k = false <-> ~ In k l.
Proof.
  rewrite <- OSet_has_In. destruct (OSet.has eqb l k).
  - split; [discriminate|]. intros H. now destruct H.
  - split; [intros _ H; discriminate|reflexivity].
Qed.

Lemma OSet_delete_In (l : list K) k x : In x (OSet.delete eqb l k) -> In x l.
Proof.
  induction l as [|y l IH]; cbn; [tauto|].
  destruct (eqb y k); cbn; [tauto|]. intros [->|H]; [now left|right; auto].
Qed.

Lemma OSet_delete_NoDup (l : list K) k : NoDup l -> NoDup (OSet.delete eqb l k).
Proof.
  induction 1 as [|y l Hy Hl IH]; cbn; [constructor|].
  destruct (eqb y k); [exact Hl|]. constructor; [|exact IH].
  intros Hin. apply Hy. eapply OSet_delete_In, Hin.
Qed.

Lemma OSet_delete_gone (l : list K) k :
  NoDup l -> OSet.has eqb (OSet.delete eqb l k) k = false.
Proof.
  induction 1 as [|y l Hy Hl IH]; cbn; [reflexivity|].
  destruct (eqb y k) eqn:E.
  - apply eqb_eq in E. subst y. now apply OSet_has_notIn.
  - cbn. now rewrite E.
Qed.

Lemma OSet_delete_len (l : list K) k : len (OSet.delete eqb l k) <= len l.
Proof.
  unfold len. induction l as [|y l IH]; cbn [OSet.delete length]; [lia|].
  destruct (eqb y k); cbn [length]; lia.
Qed.

Lemma OSet_add_NoDup (l : list K) k : NoDup l -> NoDup (OSet.add eqb l k).
Proof.
  intros Hl. unfold OSet.add. destruct (OSet.has eqb l k) eqn:E; [exact Hl|].
  apply OSet_has_notIn in E. apply NoDup_app; try assumption.
  - repeat constructor. tauto.
  - intros x Hx [<-|[]]. contradiction.
Qed.

Lemma OMap_has_keys {V} (m : list (K * V)) k :
  OMap.has eqb m k = OSet.has eqb (map fst m) k.
Proof.
  unfold OMap.has. induction m as [|[k' v] m IH]; cbn; [reflexivity|].
  destruct (eqb k' k); [reflexivity|exact IH].
Qed.

Lemma OMap_keys_set {V} (m : list (K * V)) k v :
  map fst (OMap.set eqb m k v) = OSet.add eqb (map fst m) k.
Proof.
  unfold OSet.add. induction m as [|[k' v'] m IH]; cbn; [reflexivity|].
  destruct (eqb k' k) eqn:E; cbn; [reflexivity|].
  rewrite IH. fold (OSet.has eqb (map fst m) k).
  now destruct (OSet.has eqb (map fst m) k).
Qed.

Lemma OMap_keys_delete {V} (m : list (K * V)) k :
  map fst (OMap.delete eqb m k) = OSet.delete eqb (map fst m) k.
Proof.
  induction m as [|[k' v'] m IH]; cbn; [reflexivity|].
  destruct (eqb k' k); cbn; [reflexivity|now rewrite IH].
Qed.

Lemma OMap_size_keys {V} (m : list (K * V)) : OMap.size m = len (map fst m).
Proof. unfold OMap.size, len. now rewrite length_map. Qed.

Lemma OSet_add_len (l : list K) k :
  len (OSet.add eqb l k) = if OSet.has eqb l k then len l else len l + 1.
Proof.
  unfold OSet.add. destruct (OSet.has eqb l k); [reflexivity|].
  rewrite len_app. reflexivity.
Qed.

Lemma OSet_add_has (l : list K) k : OSet.has eqb (OSet.add eqb l k) k = true.
Proof.
  apply OSet_has_In. unfold OSet.add. destruct (OSet.has eqb l k) eqn:E.
  - now apply OSet_has_In.
  - apply in_or_app. right. now left.
Qed.

Lemma OSet_add_present (l : list K) k :
  OSet.has eqb l k = true -> OSet.add eqb l k = l.
Proof. unfold OSet.add. now intros ->. Qed.

End Keys.

(* ================================================================== *)
(** * The tables stay well kept *)
(* ================================================================== *)

Lemma preserves_skip P : preserves P skip.
Proof. intros s H. exact H. Qed.

Lemma preserves_modify P f : (forall s, P s -> P (f s)) -> preserves P (modify f).
Proof. intros Hf s H. now apply Hf. Qed.

Lemma preserves_notify P e : preserves P (notify e).
Proof. intros s H. exact H. Qed.

Lemma preserves_andThen P a b : preserves P a -> preserves P b -> preserves P (andThen a b).
Proof. intros Ha Hb s H. rewrite andThen_state. apply Hb, Ha, H. Qed.

Lemma preserves_if P (c : bool) a b :
  preserves P a -> preserves P b -> preserves P (if c then a else b).
Proof. destruct c; auto. Qed.

Lemma preserves_state P (a : Action) :
  (forall s, fst (a s) = s) -> preserves P a.
Proof. intros Ha s H. now rewrite Ha. Qed.

(** The updates of the tables, one by one. *)
Lemma wellKept_deleteSession fid s : wellKept s -> wellKept (deleteSession fid s).
Proof.
  intros (H1 & H2 & H3 & H4 & H5). unfold wellKept, deleteSession. cbn.
  rewrite !OMap_keys_delete, OMap_size_keys, OMap_keys_delete, H2.
  rewrite OMap_size_keys in H3.
  pose proof (OSet_delete_len str_eqb (map fst (incomingFragments s)) fid).
  repeat split; try assumption; try lia.
  now apply OSet_delete_NoDup.
Qed.

Lemma wellKept_createSession E fid ot total s :
  wellKept s ->
  OMap.size s.(incomingFragments) < maxConcurrentFragmentSessions ->
  wellKept (createSession E fid ot total s).
Proof.
  intros (H1 & H2 & H3 & H4 & H5) Hroom. unfold wellKept, createSession. cbn.
  rewrite !OMap_keys_set, OMap_size_keys, OMap_keys_set, H2.
  rewrite OMap_size_keys in Hroom.
  rewrite (OSet_add_len str_eqb).
  repeat split; try assumption.
  - apply (OSet_add_NoDup str_eqb str_eqb_eq). exact H1.
  - destruct (OSet.has _ _ _); lia.
Qed.

Lemma wellKept_storeFragment fid index data s :
  wellKept s -> OMap.has str_eqb s.(incomingFragments) fid = true ->
  wellKept (storeFragment fid index data s).
Proof.
  intros (H1 & H2 & H3 & H4 & H5) Hhas. unfold wellKept, storeFragment. cbn.
  rewrite OMap_has_keys in Hhas.
  rewrite !OMap_keys_set, OMap_size_keys, OMap_keys_set.
  rewrite (OSet_add_present str_eqb) by assumption.
  rewrite <- OMap_size_keys. now repeat split.
Qed.

Lemma wellKept_fold_deleteSession l s :
  wellKept s -> wellKept (fold_left (fun s fragID => deleteSession fragID s) l s).
Proof.
  revert s. induction l as [|x l IH]; intros s H; cbn; [exact H|].
  now apply IH, wellKept_deleteSession.
Qed.

Lemma wellKept_evictOldest l t s : wellKept s -> wellKept (evictOldest l t s).
Proof.
  revert t s. induction l as [|[fid m] l IH]; intros t s H; cbn [evictOldest];
    [exact H|].
  destruct (maxFragmentBytes <? t); [|exact H]. now apply IH, wellKept_deleteSession.
Qed.

Lemma wellKept_cleanupOldFragments E s :
  wellKept s -> wellKept (cleanupOldFragments E s).
Proof.
  intros H. unfold cleanupOldFragments. cbv zeta.
  match goal with |- context [if ?c then _ else _] => destruct c end.
  - now apply wellKept_evictOldest, wellKept_fold_deleteSession.
  - now apply wellKept_fold_deleteSession.
Qed.

Lemma wellKept_openSession E fid ot total s :
  wellKept s ->
  wellKept (fst (openSession E fid ot total s))
  /\ (snd (openSession E fid ot total s) = true ->
      OMap.has str_eqb (incomingFragments (fst (openSession E fid ot total s))) fid
      = true).
Proof.
  intros H. unfold openSession.
  destruct (OMap.has str_eqb (incomingFragments s) fid) eqn:Eh; [now split|].
  assert (Hnew : forall s0, OMap.has str_eqb (incomingFragments
                               (createSession E fid ot total s0)) fid = true).
  { intros s0. unfold createSession. cbn.
    rewrite OMap_has_keys, OMap_keys_set. apply (OSet_add_has str_eqb str_eqb_eq). }
  destruct (Z.leb_spec maxConcurrentFragmentSessions (OMap.size (incomingFragments s))).
  - pose proof (wellKept_cleanupOldFragments E s H) as Hc.
    destruct (Z.leb_spec maxConcurrentFragmentSessions
                (OMap.size (incomingFragments (cleanupOldFragments E s)))).
    + cbn. split; [exact Hc|discriminate].
    + cbn. split; [now apply wellKept_createSession|intros _; apply Hnew].
  - cbn. split; [now apply wellKept_createSession|intros _; apply Hnew].
Qed.

Ltac frame :=
  let H1 := fresh in let H2 := fresh in let H3 := fresh in
  let H4 := fresh in let H5 := fresh in
  intros ? (H1 & H2 & H3 & H4 & H5); unfold wellKept; cbn; repeat split; assumption.

Lemma wellKept_handleAnnounce p sid : preserves wellKept (handleAnnounce p sid).
Proof.
  intros s. unfold handleAnnounce. destruct (nicknameRejected _); [auto|].
  revert s. apply preserves_andThen; [|apply preserves_andThen; [|apply preserves_notify]];
    apply preserves_modify; intros s (H1 & H2 & H3 & H4 & H5); unfold wellKept; cbn;
    rewrite ?OMap_keys_set; repeat split; try assumption;
    now apply (OSet_add_NoDup str_eqb str_eqb_eq).
Qed.

Lemma wellKept_handleMessage E p sid : preserves wellKept (handleMessage E p sid).
Proof.
  intros s. unfold handleMessage.
  destruct (BitchatMessageCodec.fromBinaryPayload _ _); [|auto].
  destruct (_ || _); [|auto]. revert s. apply preserves_notify.
Qed.

Lemma wellKept_handleLeave sid : preserves wellKept (handleLeave sid).
Proof.
  unfold handleLeave.
  apply preserves_andThen; [|apply preserves_andThen;
    [|apply preserves_andThen; apply preserves_notify]];
    apply preserves_modify; intros s (H1 & H2 & H3 & H4 & H5); unfold wellKept; cbn;
    rewrite ?OMap_keys_delete; repeat split; try assumption;
    now apply OSet_delete_NoDup.
Qed.

Lemma wellKept_broadcastPacket E p : preserves wellKept (broadcastPacket E p).
Proof. apply preserves_state. intros s. apply broadcastPacket_state. Qed.

Lemma wellKept_relayPacket E p : preserves wellKept (relayPacket E p).
Proof.
  intros s (H1 & H2 & H3 & H4 & H5). unfold relayPacket.
  destruct (negb _); unfold wellKept; cbn; now repeat split.
Qed.

Lemma wellKept_recordPacket key sid : preserves wellKept (recordPacket key sid).
Proof.
  unfold recordPacket. apply preserves_andThen; apply preserves_modify;
    intros s (H1 & H2 & H3 & H4 & H5); unfold wellKept; cbn;
    repeat split; try assumption.
  now apply (OSet_add_NoDup str_eqb str_eqb_eq).
Qed.

Section Dispatch.
Variable dispatch : BitchatPacket -> JSString -> Action.
Hypothesis dispatch_kept : forall r sid, preserves wellKept (dispatch r sid).

Lemma wellKept_asPacketThenMessage E fid sid data s done :
  asPacketThenMessage dispatch E fid sid data s = Some done ->
  wellKept s -> wellKept (fst done).
Proof.
  unfold asPacketThenMessage.
  destruct (match BinaryProtocol.decode data with
            | Some pp => if type pp =? MessageType.MESSAGE then Some pp else None
            | None => None end) as [pp|].
  - intros [= <-]. revert s.
    apply preserves_andThen; [apply dispatch_kept|].
    apply preserves_modify. intros s. apply wellKept_deleteSession.
  - destruct (BitchatMessageCodec.fromBinaryPayload _ _); [|discriminate].
    intros [= <-]. revert s.
    apply preserves_andThen; [apply preserves_notify|].
    apply preserves_modify. intros s. apply wellKept_deleteSession.
Qed.

Lemma wellKept_asMessageThenPacket E fid sid data s done :
  asMessageThenPacket dispatch E fid sid data s = Some done ->
  wellKept s -> wellKept (fst done).
Proof.
  unfold asMessageThenPacket.
  destruct (BitchatMessageCodec.fromBinaryPayload _ _).
  - intros [= <-]. revert s.
    apply preserves_andThen; [apply preserves_notify|].
    apply preserves_modify. intros s. apply wellKept_deleteSession.
  - destruct (BinaryProtocol.decode data) as [pp|]; [|discriminate].
    destruct (type pp =? MessageType.MESSAGE); [|discriminate].
    intros [= <-]. revert s.
    apply preserves_andThen; [apply dispatch_kept|].
    apply preserves_modify. intros s. apply wellKept_deleteSession.
Qed.

Lemma wellKept_completeReassembly E fid sid fragments total :
  preserves wellKept (completeReassembly dispatch E fid sid fragments total).
Proof.
  intros s H. unfold completeReassembly.
  destruct (reassemble _ _) as [buf|]; [|exact H].
  destruct (BinaryProtocol.decode buf) as [rp|].
  - pose proof (dispatch_kept rp sid (deleteSession fid s)
                  (wellKept_deleteSession fid s H)) as Hd.
    destruct (dispatch rp sid _) as [s2 e2]. cbn in *.
    now apply wellKept_cleanupOldFragments.
  - cbn. now apply wellKept_cleanupOldFragments.
Qed.

Lemma wellKept_awaitFragments E fid sid fragments index total data :
  preserves wellKept (awaitFragments dispatch E fid sid fragments index total data).
Proof.
  intros s H. unfold awaitFragments.
  destruct (if (index =? 0) && (total =? 2)
            then asMessageThenPacket dispatch E fid sid data s else None)
    as [done|] eqn:E1.
  - destruct (_ && _) in E1; [|discriminate].
    eapply wellKept_asMessageThenPacket; eassumption.
  - match goal with
    | |- context [match ?c with Some done => done | None => _ end] =>
        destruct c as [done|] eqn:E2
    end.
    + destruct (_ && _) in E2; [|discriminate].
      destruct (OMap.get _ _ _) in E2; [|discriminate].
      eapply wellKept_asPacketThenMessage; eassumption.
    + cbn. now apply wellKept_cleanupOldFragments.
Qed.

Lemma wellKept_handleFragment E p sid :
  preserves wellKept (handleFragment dispatch E p sid).
Proof.
  intros s H. rewrite handleFragment_blocks. unfold inBlocks. cbv zeta.
  destruct (len (payload p) <? 13); [exact H|].
  destruct (wellKept_openSession E (fragmentID (payload p))
              (originalType (payload p)) (total (payload p)) s H) as [Ho Hh].
  destruct (openSession _ _ _ _ _) as [s1 accepted]. cbn [fst snd] in Ho, Hh.
  destruct accepted; cbn [negb]; [|exact Ho].
  specialize (Hh eq_refl).
  pose proof (wellKept_storeFragment (fragmentID (payload p)) (index (payload p))
                (fragmentData (payload p)) s1 Ho Hh) as Hs.
  match goal with |- context [OMap.size ?f =? ?t] => destruct (OMap.size f =? t) end.
  - now apply wellKept_completeReassembly.
  - now apply wellKept_awaitFragments.
Qed.

Lemma wellKept_dispatchByType E p sid :
  preserves wellKept (dispatchByType dispatch E p sid).
Proof.
  unfold dispatchByType.
  repeat (apply preserves_if;
          [first [ apply wellKept_handleAnnounce | apply wellKept_handleMessage
                 | apply wellKept_handleLeave | apply preserves_skip
                 | apply wellKept_handleFragment ]|]).
  apply preserves_skip.
Qed.

End Dispatch.

Lemma wellKept_handleReceivedPacketFuel fuel E p sid :
  preserves wellKept (handleReceivedPacketFuel fuel E p sid).
Proof.
  revert p sid. induction fuel as [|fuel IH]; intros p sid; [apply preserves_skip|].
  assert (Hbody : preserves wellKept
            (recordPacket (packetKey sid p) sid ;;
             dispatchByType (handleReceivedPacketFuel fuel E) E p sid ;;
             (if 1 <? ttl p then relayPacket E p else skip))%action).
  { apply preserves_andThen; [apply wellKept_recordPacket|].
    apply preserves_andThen; [apply wellKept_dispatchByType; exact IH|].
    apply preserves_if; [apply wellKept_relayPacket|apply preserves_skip]. }
  intros s H. cbn [handleReceivedPacketFuel].
  destruct (ttl p <=? 0); [exact H|].
  destruct (OSet.has str_eqb (processedMessages s) (packetKey sid p)); [exact H|].
  now apply Hbody.
Qed.

Lemma wellKept_handleReceivedPacket E p sid :
  preserves wellKept (handleReceivedPacket E p sid).
Proof. intros s. apply wellKept_handleReceivedPacketFuel. Qed.

Lemma wellKept_firstRecovered E fid sid candidates s done :
  firstRecovered E fid sid candidates s = Some done ->
  wellKept s -> wellKept (fst done).
Proof.
  induction candidates as [|data rest IH]; cbn; [discriminate|].
  destruct (asPacketThenMessage _ _ _ _ _ _) as [d|] eqn:Ea.
  - intros [= <-]. eapply wellKept_asPacketThenMessage; [|exact Ea].
    intros r sid'. apply wellKept_handleReceivedPacket.
  - exact IH.
Qed.

Lemma wellKept_fragmentTimeoutFired E fid sid :
  preserves wellKept (fragmentTimeoutFired E fid sid).
Proof.
  intros s H. unfold fragmentTimeoutFired.
  destruct (OMap.get _ _ _); [|exact H].
  destruct (firstRecovered _ _ _ _ _) as [done|] eqn:Ef.
  - eapply wellKept_firstRecovered; eassumption.
  - cbn. now apply wellKept_deleteSession.
Qed.

Lemma wellKept_step E event : preserves wellKept (step E event).
Proof.
  destruct event; cbn [step].
  - intros s H. unfold handleCharacteristicValueChanged.
    destruct value as [data|]; [|exact H].
    destruct (BinaryProtocol.decode data) as [p|]; [|exact H].
    destruct (str_eqb _ _); [exact H|]. now apply wellKept_handleReceivedPacket.
  - destruct callback; cbn [timerFired];
      [apply wellKept_broadcastPacket|apply wellKept_fragmentTimeoutFired].
  - apply preserves_modify. intros s. apply wellKept_cleanupOldFragments.
  - unfold connectToDevice.
    apply preserves_andThen; [apply preserves_modify; frame|].
    apply preserves_andThen; [apply preserves_modify; frame|].
    apply preserves_andThen.
    { apply preserves_modify. intros s (H1 & H2 & H3 & H4 & H5). unfold wellKept. cbn.
      repeat split; try assumption. now apply (OSet_add_NoDup str_eqb str_eqb_eq). }
    apply preserves_andThen.
    { apply preserves_modify. intros s H.
      destruct (deviceName device) as [n|]; [|exact H].
      destruct (truthy n); [|exact H].
      destruct H as (H1 & H2 & H3 & H4 & H5). unfold wellKept. cbn.
      rewrite OMap_keys_set. repeat split; try assumption.
      now apply (OSet_add_NoDup str_eqb str_eqb_eq). }
    apply preserves_andThen; [intros s; apply wellKept_broadcastPacket|].
    apply preserves_andThen; apply preserves_notify.
  - unfold handleDeviceDisconnected.
    apply preserves_andThen; [|apply preserves_modify; frame].
    intros s. destruct (findPeerOf _ _) as [peer|]; [|auto].
    destruct (truthy peer); [|auto]. revert s.
    apply preserves_andThen; [apply preserves_modify; frame|].
    apply preserves_andThen.
    { apply preserves_modify. intros s (H1 & H2 & H3 & H4 & H5). unfold wellKept. cbn.
      repeat split; try assumption. now apply OSet_delete_NoDup. }
    apply preserves_andThen.
    { apply preserves_modify. intros s (H1 & H2 & H3 & H4 & H5). unfold wellKept. cbn.
      rewrite OMap_keys_delete. repeat split; try assumption.
      now apply OSet_delete_NoDup. }
    apply preserves_andThen; apply preserves_notify.
  - intros s (H1 & H2 & H3 & H4 & H5). rewrite stopService_teardown.
    unfold wellKept. cbn. repeat split; try assumption. constructor.
  - intros s. unfold sendMessage.
    destruct (BitchatMessageCodec.toBinaryPayload _ _);
      [apply wellKept_broadcastPacket|auto].
  - intros s. unfold sendPrivateMessage.
    destruct (BitchatMessageCodec.toBinaryPayload _ _);
      [apply wellKept_broadcastPacket|auto].
  - apply preserves_modify. frame.
  - apply preserves_modify. frame.
Qed.

Lemma wellKept_run events s : wellKept s -> wellKept (fst (run events s)).
Proof.
  revert s. induction events as [|[E event] rest IH]; intros s H; [exact H|].
  cbn [run]. pose proof (wellKept_step E event s H) as H1.
  destruct (step E event s) as [s1 e1]. specialize (IH s1 H1).
  destruct (run rest s1) as [s2 e2]. exact IH.
Qed.

Lemma wellKept_initial myPeerID : wellKept (initial myPeerID).
Proof.
  unfold wellKept, initial, maxConcurrentFragmentSessions. cbn.
  repeat split; try constructor. unfold OMap.size, len. cbn. lia.
Qed.

(** Whatever happens to a service from its construction on, it never holds
    more than fifty fragment sessions, its two fragment tables describe the
    same sessions in the same order, and no table holds a key twice. *)
Theorem sessions_bounded (myPeerID : JSString) (events : list (Env * Event)) :
  let s := fst (run events (initial myPeerID)) in
  OMap.size s.(incomingFragments) <= 50
  /\ map fst s.(fragmentMetadata) = map fst s.(incomingFragments)
  /\ NoDup (map fst s.(incomingFragments))
  /\ NoDup s.(activePeers)
  /\ NoDup (map fst s.(peerNicknames)).
Proof.
  cbv zeta.
  destruct (wellKept_run events (initial myPeerID) (wellKept_initial myPeerID))
    as (H1 & H2 & H3 & H4 & H5).
  now repeat split.
Qed.

(* ================================================================== *)
(** * The two-second timer *)
(* ================================================================== *)

Import WebBluetoothMeshService.
Import Fragment.

Lemma wellKept_session_deleted fid s :
  wellKept s ->
  OMap.has str_eqb (incomingFragments (deleteSession fid s)) fid = false
  /\ OMap.has str_eqb (fragmentMetadata (deleteSession fid s)) fid = false.
Proof.
  intros (H1 & H2 & _). unfold deleteSession. cbn.
  rewrite !OMap_has_keys, !OMap_keys_delete, H2.
  split; now apply (OSet_delete_gone str_eqb str_eqb_eq).
Qed.

Lemma asPacketThenMessage_deletes dispatch E fid sid data s done :
  (forall r sid, preserves wellKept (dispatch r sid)) ->
  asPacketThenMessage dispatch E fid sid data s = Some done ->
  wellKept s ->
  exists s1, wellKept s1 /\ fst done = deleteSession fid s1.
Proof.
  intros Hd. unfold asPacketThenMessage.
  destruct (match BinaryProtocol.decode data with
            | Some pp => if type pp =? MessageType.MESSAGE then Some pp else None
            | None => None end) as [pp|].
  - intros [= <-] H. exists (fst (dispatch pp sid s)).
    split; [now apply Hd|]. now rewrite andThen_state.
  - destruct (BitchatMessageCodec.fromBinaryPayload _ _) as [m|]; [|discriminate].
    intros [= <-] H. exists s. split; [exact H|]. now rewrite andThen_state.
Qed.

Lemma firstRecovered_deletes E fid sid candidates s done :
  firstRecovered E fid sid candidates s = Some done ->
  wellKept s ->
  exists s1, wellKept s1 /\ fst done = deleteSession fid s1.
Proof.
  induction candidates as [|data rest IH]; cbn; [discriminate|].
  destruct (asPacketThenMessage _ _ _ _ _ _) as [d|] eqn:Ea.
  - intros [= <-]. eapply asPacketThenMessage_deletes; [|exact Ea].
    intros r sid'. apply wellKept_handleReceivedPacket.
  - exact IH.
Qed.

(** When the timer that an incomplete fragment scheduled fires, the session
    of that fragment is gone afterwards from both tables, whether or not a
    message could be recovered from its chunks and whatever arrived in the
    meantime. *)
Theorem timeout_destroys_session E fragmentID senderID s :
  wellKept s ->
  let s' := fst (fragmentTimeoutFired E fragmentID senderID s) in
  OMap.has str_eqb (incomingFragments s') fragmentID = false
  /\ OMap.has str_eqb (fragmentMetadata s') fragmentID = false.
Proof.
  intros H. cbv zeta. unfold fragmentTimeoutFired.
  destruct (OMap.get str_eqb (incomingFragments s) fragmentID) as [fragments|] eqn:Eg.
  - destruct (firstRecovered _ _ _ _ _) as [done|] eqn:Ef.
    + destruct (firstRecovered_deletes _ _ _ _ _ _ Ef H) as (s1 & H1 & ->).
      now apply wellKept_session_deleted.
    + cbn [fst]. now apply wellKept_session_deleted.
  - cbn [fst].
    assert (Hi : OMap.has str_eqb (incomingFragments s) fragmentID = false)
      by (unfold OMap.has; now rewrite Eg).
    split; [exact Hi|].
    destruct H as (_ & H2 & _). rewrite OMap_has_keys in *. now rewrite H2.
Qed.

Lemma wellKept_sample : wellKept Sample.service.
Proof.
  unfold wellKept, Sample.service, maxConcurrentFragmentSessions. cbn.
  refine (conj (NoDup_nil _) (conj eq_refl (conj _ (conj _ _)))).
  - unfold OMap.size, len. cbn. lia.
  - constructor; [intros []|constructor].
  - constructor; [intros []|constructor].
Qed.

Lemma wellKept_busyService : wellKept busyService.
Proof. apply wellKept_run, wellKept_sample. Qed.

Lemma timeout_destroys_session_witness :
  wellKept busyService
  /\ OMap.has str_eqb (incomingFragments busyService) (lit "0102030405060708") = true
  /\ OMap.has str_eqb
       (incomingFragments
          (fst (fragmentTimeoutFired (Sample.env 2001) (lit "0102030405060708")
                  Sample.alice busyService)))
       (lit "0102030405060708") = false
  /\ OMap.has str_eqb
       (fragmentMetadata
          (fst (fragmentTimeoutFired (Sample.env 2001) (lit "0102030405060708")
                  Sample.alice busyService)))
       (lit "0102030405060708") = false.
Proof.
  split; [exact wellKept_busyService|].
  split; [vm_compute; reflexivity|].
  exact (timeout_destroys_session (Sample.env 2001) (lit "0102030405060708")
           Sample.alice busyService wellKept_busyService).
Defined.

(* ================================================================== *)
(** * Accepted receptions *)
(* ================================================================== *)

(** An accepted reception, unfolded once. *)
Lemma received_fresh fuel E p sid s :
  0 < p.(ttl) ->
  OSet.has str_eqb s.(processedMessages) (packetKey sid p) = false ->
  handleReceivedPacketFuel (S fuel) E p sid s
  = (recordPacket (packetKey sid p) sid ;;
     dispatchByType (handleReceivedPacketFuel fuel E) E p sid ;;
     (if 1 <? ttl p then relayPacket E p else skip))%action s.
Proof.
  intros Httl Hfresh. cbn [handleReceivedPacketFuel].
  destruct (Z.leb_spec (ttl p) 0); [lia|]. now rewrite Hfresh.
Qed.


Lemma relay_frame E p (c : bool) s :
  let s' := fst ((if c then relayPacket E p else skip) s) in
  activePeers s' = activePeers s /\ peerNicknames s' = peerNicknames s.
Proof.
  destruct c; cbv zeta; [|now split].
  destruct (relayPacket_frame E p s) as (H1 & H2 & _). now split.
Qed.

Lemma OMap_get_set_same {V} (m : list (JSString * V)) k v :
  OMap.get str_eqb (OMap.set str_eqb m k v) k = Some v.
Proof.
  induction m as [|[k' v'] m IH]; cbn; [now rewrite str_eqb_refl|].
  destruct (str_eqb k' k) eqn:E; cbn; rewrite E; [reflexivity|exact IH].
Qed.

(* ================================================================== *)
(** * Leaving *)
(* ================================================================== *)

Lemma handleLeave_packet fuel E p sid s :
  p.(type) = MessageType.LEAVE ->
  0 < p.(ttl) ->
  OSet.has str_eqb s.(processedMessages) (packetKey sid p) = false ->
  wellKept s ->
  let run := handleReceivedPacketFuel (S fuel) E p sid s in
  OSet.has str_eqb (activePeers (fst run)) sid = false
  /\ OMap.get str_eqb (peerNicknames (fst run)) sid = None
  /\ delegateCalls (snd run)
     = if s.(delegate) then [didDisconnectFromPeer sid; didUpdatePeerList] else [].
Proof.
  intros Hty Httl Hfresh (_ & _ & _ & H4 & H5). cbv zeta.
  cbn [handleReceivedPacketFuel].
  destruct (Z.leb_spec (ttl p) 0); [lia|]. rewrite Hfresh.
  assert (Hd : forall d, dispatchByType d E p sid = handleLeave sid).
  { intros d. unfold dispatchByType, isType. rewrite Hty. reflexivity. }
  rewrite Hd.
  set (s1 := fst ((recordPacket (packetKey sid p) sid ;; handleLeave sid)%action s)).
  assert (Hs1 : OSet.has str_eqb (activePeers s1) sid = false
                /\ OMap.get str_eqb (peerNicknames s1) sid = None
                /\ delegate s1 = delegate s).
  { subst s1. cbn. split; [|split; [|reflexivity]].
    - apply (OSet_delete_gone str_eqb str_eqb_eq).
      now apply (OSet_add_NoDup str_eqb str_eqb_eq).
    - pose proof (OSet_delete_gone str_eqb str_eqb_eq
                    (map fst (peerNicknames s)) sid H5) as Hg.
      rewrite <- OMap_keys_delete, <- OMap_has_keys in Hg.
      unfold OMap.has in Hg.
      now destruct (OMap.get str_eqb (OMap.delete str_eqb (peerNicknames s) sid) sid). }
  assert (He : delegateCalls
                 (snd ((recordPacket (packetKey sid p) sid ;; handleLeave sid)%action s))
               = if delegate s then [didDisconnectFromPeer sid; didUpdatePeerList]
                 else []).
  { cbn. now destruct (delegate s). }
  rewrite andThen_assoc.
  rewrite andThen_state, andThen_effects, delegateCalls_app, He. fold s1.
  destruct (1 <? ttl p).
  - destruct (relayPacket_frame E p s1) as (Ha & Hn & _ & Hc).
    rewrite Ha, Hn, Hc, app_nil_r. now destruct Hs1 as (? & ? & _).
  - cbn. rewrite app_nil_r. now destruct Hs1 as (? & ? & _).
Qed.

(** The state after an accepted LEAVE packet: the sender is gone. *)
Lemma leave_packet_state fuel E p sid s :
  p.(type) = MessageType.LEAVE ->
  0 < p.(ttl) ->
  OSet.has str_eqb s.(processedMessages) (packetKey sid p) = false ->
  wellKept s ->
  let s' := fst (handleReceivedPacketFuel (S fuel) E p sid s) in
  OSet.has str_eqb (activePeers s') sid = false
  /\ OMap.get str_eqb (peerNicknames s') sid = None.
Proof.
  intros Hty Httl Hfresh Hk.
  destruct (handleLeave_packet fuel E p sid s Hty Httl Hfresh Hk) as (H1 & H2 & _).
  now split.
Qed.

(** A LEAVE packet that [handleReceivedPacket] accepts (positive ttl, new
    key) removes its sender from the active peers and from the nickname
    table, and the delegate is told so: the sender, whom the reception itself
    had just entered in the active-peer set, is not left behind. *)
Theorem leave_forgets_peer E p sid s :
  p.(type) = MessageType.LEAVE ->
  0 < p.(ttl) ->
  OSet.has str_eqb s.(processedMessages) (packetKey sid p) = false ->
  wellKept s ->
  let run := handleReceivedPacket E p sid s in
  OSet.has str_eqb (activePeers (fst run)) sid = false
  /\ OMap.get str_eqb (peerNicknames (fst run)) sid = None
  /\ delegateCalls (snd run)
     = if s.(delegate) then [didDisconnectFromPeer sid; didUpdatePeerList] else [].
Proof.
  intros Hty Httl Hfresh Hk. unfold handleReceivedPacket, fuelFor.
  now apply handleLeave_packet.
Qed.

Lemma leave_forgets_peer_witness :
  let p := {| version := 1; type := MessageType.LEAVE; ttl := 3;
              timestamp := 1700000000000; senderID := [0x11; 0x11; 0x11; 0x11;
                                                        0x11; 0x11; 0x11; 0x11];
              recipientID := None; payload := [112; 104; 111; 110; 101];
              signature := None |} in
  let sid := lit "1111111111111111" in
  let run := handleReceivedPacket (Sample.env 0) p sid Sample.service in
  OSet.has str_eqb (activePeers Sample.service) sid = true
  /\ OSet.has str_eqb (activePeers (fst run)) sid = false
  /\ OMap.get str_eqb (peerNicknames (fst run)) sid = None
  /\ delegateCalls (snd run)
     = if Sample.service.(delegate)
       then [didDisconnectFromPeer sid; didUpdatePeerList] else [].
Proof.
  cbv zeta. split; [vm_compute; reflexivity|].
  refine (leave_forgets_peer (Sample.env 0) _ (lit "1111111111111111")
            Sample.service _ _ _ wellKept_sample).
  - reflexivity.
  - reflexivity.
  - vm_compute. reflexivity.
Defined.

(* ================================================================== *)
(** * The session cap *)
(* ================================================================== *)

Import WebBluetoothMeshService.
Import Fragment.

(** A sweep finds nothing to do when no session has expired and the byte
    budget is respected. *)
Lemma cleanupOldFragments_idle E s :
  Forall (fun '(_, metadata) => E.(now) - fragmentTimeout_ms <= Meta.timestamp metadata)
         s.(fragmentMetadata) ->
  totalFragmentBytes s <= maxFragmentBytes ->
  cleanupOldFragments E s = s.
Proof.
  intros Hfresh Hbudget. unfold cleanupOldFragments. cbv zeta.
  assert (Hf : filter (fun '(_, metadata) =>
                         Meta.timestamp metadata <? now E - fragmentTimeout_ms)
                      (fragmentMetadata s) = []).
  { induction Hfresh as [|[k md] l Hmd _ IH]; [reflexivity|]. cbn [filter].
    destruct (Z.ltb_spec (Meta.timestamp md) (now E - fragmentTimeout_ms)); [lia|].
    exact IH. }
  rewrite Hf. cbn [map fold_left].
  destruct (Z.ltb_spec maxFragmentBytes (totalFragmentBytes s)); [lia|reflexivity].
Qed.

(** With fifty sessions open, none of them expired and the byte budget
    respected, a fragment of a session that is not among them is refused:
    nothing is stored, nothing is dispatched, no timer is set. *)
Theorem session_refused_at_cap dispatch E p sid s :
  13 <= len p.(payload) ->
  OMap.has str_eqb s.(incomingFragments) (fragmentID p.(payload)) = false ->
  maxConcurrentFragmentSessions <= OMap.size s.(incomingFragments) ->
  Forall (fun '(_, metadata) => E.(now) - fragmentTimeout_ms <= Meta.timestamp metadata)
         s.(fragmentMetadata) ->
  totalFragmentBytes s <= maxFragmentBytes ->
  handleFragment dispatch E p sid s = (s, []).
Proof.
  intros Hlen Hnew Hfull Hfresh Hbudget.
  rewrite handleFragment_blocks. unfold inBlocks, openSession. cbv zeta.
  destruct (Z.ltb_spec (len (payload p)) 13); [lia|].
  rewrite Hnew, cleanupOldFragments_idle by assumption.
  destruct (Z.leb_spec maxConcurrentFragmentSessions (OMap.size (incomingFragments s)));
    [reflexivity|lia].
Qed.

(** A service holding fifty sessions, all opened at time 0. *)
Definition fullService : Service :=
  set_fragmentMetadata
    (map (fun n => (bytesToHex [Z.of_nat n; 0; 0; 0; 0; 0; 0; 0],
                    {| Meta.originalType := MessageType.MESSAGE;
                       Meta.totalFragments := 3; Meta.timestamp := 0 |}))
         (seq 0 50))
    (set_incomingFragments
       (map (fun n => (bytesToHex [Z.of_nat n; 0; 0; 0; 0; 0; 0; 0], [(0, [1; 2; 3])]))
            (seq 0 50))
       Sample.service).

(** The first fragment of a fifty-first session. *)
Definition oneTooMany : BitchatPacket :=
  {| version := 1; type := MessageType.FRAGMENT_START; ttl := 7;
     timestamp := 1700000000001; senderID := Sample.aliceID; recipientID := None;
     payload := [200; 0; 0; 0; 0; 0; 0; 0; 0; 0; 0; 3; 4; 9; 9; 9];
     signature := None |}.

Lemma session_refused_at_cap_witness :
  OMap.size fullService.(incomingFragments) = 50
  /\ handleFragment (handleReceivedPacket (Sample.env 1000)) (Sample.env 1000)
       oneTooMany Sample.alice fullService
     = (fullService, []).
Proof.
  split; [reflexivity|].
  apply (session_refused_at_cap (handleReceivedPacket (Sample.env 1000))
           (Sample.env 1000) oneTooMany Sample.alice fullService).
  - vm_compute. discriminate.
  - vm_compute. reflexivity.
  - vm_compute. discriminate.
  - apply Forall_forall. intros [k md] Hin.
    unfold fullService in Hin. cbn [fragmentMetadata set_fragmentMetadata] in Hin.
    apply in_map_iff in Hin as (n & [= <- <-] & _). vm_compute. discriminate.
  - vm_compute. discriminate.
Defined.

(** Thirty seconds later the fifty sessions have expired: the sweep makes
    room and the same fragment opens a session. *)
Example session_accepted_after_expiry :
  let s' := fst (handleFragment (handleReceivedPacket (Sample.env 30001))
                   (Sample.env 30001) oneTooMany Sample.alice fullService) in
  incomingFragments s' = [(lit "c800000000000000", [(0, [9; 9; 9])])].
Proof. vm_compute. reflexivity. Qed.

(* ================================================================== *)
(** * Announcements that are accepted *)
(* ================================================================== *)

Lemma printable_bytes_decode data :
  Forall printable data -> flat_map Utf8.codeUnits (Utf8.codePoints data) = data.
Proof.
  induction 1 as [|b r Hb _ IH]; [reflexivity|]. unfold printable in Hb.
  destruct (codePoints_head b r) as [[_ ->]|(cp & rest & Hc & Hcp)].
  - cbn [flat_map]. rewrite IH. unfold Utf8.codeUnits.
    destruct (Z.ltb_spec b 65536); [reflexivity|lia].
  - exfalso. cbn [Utf8.codePoints] in Hc.
    replace (Utf8.between 0 127 b) with true in Hc
      by (symmetry; apply between_spec; lia).
    injection Hc as <- _. lia.
Qed.

Lemma printable_not_rejected name :
  len name <= 100 -> Forall printable name -> nicknameRejected name = false.
Proof.
  intros Hl Hp. unfold nicknameRejected.
  assert (H0 : existsb (fun c => c =? 0) name = false).
  { clear Hl. induction Hp as [|c r Hc _ IH]; [reflexivity|]. cbn [existsb].
    unfold printable in Hc. destruct (Z.eqb_spec c 0); [lia|]. exact IH. }
  assert (H1 : existsb (fun c => negb (Utf8.between 32 126 c)) name = false).
  { clear Hl H0. induction Hp as [|c r Hc _ IH]; [reflexivity|]. cbn [existsb].
    replace (Utf8.between 32 126 c) with true
      by (symmetry; apply between_spec; exact Hc).
    exact IH. }
  rewrite H0, H1. destruct (Z.ltb_spec 100 (len name)); [lia|reflexivity].
Qed.

(** The handler on a well-formed name. *)
Lemma handleAnnounce_accepts p sid s :
  let name := withoutBOM p.(payload) in
  len name <= 100 -> Forall printable name ->
  handleAnnounce p sid s
  = (set_activePeers (OSet.add str_eqb s.(activePeers) sid)
       (set_peerNicknames (OMap.set str_eqb s.(peerNicknames) sid name) s),
     if s.(delegate) then [didUpdatePeerList] else []).
Proof.
  cbv zeta. intros Hl Hp. unfold handleAnnounce.
  rewrite decode_withoutBOM, printable_bytes_decode by assumption.
  rewrite printable_not_rejected by assumption.
  reflexivity.
Qed.

(** The state after an accepted announcement: the name is recorded and the
    sender is active. *)
Lemma announce_packet_state fuel E p sid s :
  p.(type) = MessageType.ANNOUNCE \/ p.(type) = 0x02 ->
  0 < p.(ttl) ->
  OSet.has str_eqb s.(processedMessages) (packetKey sid p) = false ->
  len (withoutBOM p.(payload)) <= 100 -> Forall printable (withoutBOM p.(payload)) ->
  let s' := fst (handleReceivedPacketFuel (S fuel) E p sid s) in
  OMap.get str_eqb (peerNicknames s') sid = Some (withoutBOM p.(payload))
  /\ OSet.has str_eqb (activePeers s') sid = true.
Proof.
  intros Hty Httl Hfresh Hl Hp. cbv zeta.
  rewrite received_fresh by assumption.
  assert (Hd : forall d, dispatchByType d E p sid = handleAnnounce p sid).
  { intros d. unfold dispatchByType, isType. destruct Hty as [-> | ->]; reflexivity. }
  rewrite Hd. rewrite andThen_assoc, andThen_state.
  destruct (relay_frame E p (1 <? ttl p)
              (fst ((recordPacket (packetKey sid p) sid ;; handleAnnounce p sid)%action s)))
    as [-> ->].
  rewrite andThen_state, handleAnnounce_accepts by assumption.
  cbn [fst peerNicknames activePeers set_activePeers set_peerNicknames].
  split; [apply OMap_get_set_same|apply (OSet_add_has str_eqb str_eqb_eq)].
Qed.

(** An announcement that [handleReceivedPacket] accepts (positive ttl, new
    key) and whose payload, without the byte-order mark the text decoder
    drops, is at most 100 bytes of printable ASCII: the name is recorded for
    the sender, the sender is among the active peers, and the delegate is
    told once that the peer list changed.  The empty name is among the
    accepted ones. *)
Theorem wellformed_announce_accepted E p sid s :
  p.(type) = MessageType.ANNOUNCE \/ p.(type) = 0x02 ->
  0 < p.(ttl) ->
  OSet.has str_eqb s.(processedMessages) (packetKey sid p) = false ->
  let name := withoutBOM p.(payload) in
  len name <= 100 -> Forall printable name ->
  let run := handleReceivedPacket E p sid s in
  OMap.get str_eqb (peerNicknames (fst run)) sid = Some name
  /\ OSet.has str_eqb (activePeers (fst run)) sid = true
  /\ delegateCalls (snd run) = if s.(delegate) then [didUpdatePeerList] else [].
Proof.
  cbv zeta. intros Hty Httl Hfresh Hl Hp. unfold handleReceivedPacket, fuelFor.
  destruct (announce_packet_state
              (Z.to_nat (totalFragmentBytes s + len (payload p))) E p sid s
              Hty Httl Hfresh Hl Hp) as [H1 H2].
  split; [exact H1|]. split; [exact H2|].
  rewrite received_fresh by assumption.
  assert (Hd : forall d, dispatchByType d E p sid = handleAnnounce p sid).
  { intros d. unfold dispatchByType, isType. destruct Hty as [-> | ->]; reflexivity. }
  rewrite Hd, !andThen_effects, !delegateCalls_app.
  rewrite handleAnnounce_accepts by assumption.
  replace (delegateCalls (snd ((if 1 <? ttl p then relayPacket E p else skip) _)))
    with (@nil Effect).
  2:{ destruct (1 <? ttl p); [|reflexivity].
      symmetry. apply relayPacket_frame. }
  cbn. now destruct (delegate s).
Qed.

Lemma wellformed_announce_accepted_witness :
  let p := Sample.announce [0xEF; 0xBB; 0xBF; 98; 111; 98] in
  let run := handleReceivedPacket (Sample.env 0) p Sample.alice Sample.service in
  len (withoutBOM p.(payload)) <= 100
  /\ Forall printable (withoutBOM p.(payload))
  /\ OMap.get str_eqb (peerNicknames (fst run)) Sample.alice = Some (lit "bob")
  /\ OSet.has str_eqb (activePeers (fst run)) Sample.alice = true
  /\ delegateCalls (snd run)
     = if Sample.service.(delegate) then [didUpdatePeerList] else [].
Proof.
  cbv zeta.
  assert (H1 : len (withoutBOM (Sample.announce [0xEF; 0xBB; 0xBF; 98; 111; 98]).(payload))
               <= 100) by (vm_compute; discriminate).
  assert (H2 : Forall printable
                 (withoutBOM (Sample.announce [0xEF; 0xBB; 0xBF; 98; 111; 98]).(payload)))
    by (cbn; repeat constructor; unfold printable; lia).
  split; [exact H1|]. split; [exact H2|].
  exact (wellformed_announce_accepted (Sample.env 0)
           (Sample.announce [0xEF; 0xBB; 0xBF; 98; 111; 98]) Sample.alice
           Sample.service (or_introl eq_refl) eq_refl eq_refl H1 H2).
Defined.

(* ================================================================== *)
(** * Who a message is delivered to *)
(* ================================================================== *)

From Stdlib Require Import Permutation.
Import WebBluetoothMeshService.
Import Fragment.

Lemma everyBroadcast_spec r : forall i,
  0 <= i <= 8 ->
  (everyBroadcast r i = true <-> Forall (fun b => b = 0xFF) r /\ i + len r <= 8).
Proof.
  induction r as [|b r IH]; intros i Hi.
  - cbn [everyBroadcast]. change (len (@nil Z)) with 0.
    split; [intros _; split; [constructor|lia]|reflexivity].
  - cbn [everyBroadcast]. rewrite len_cons. pose proof (len_nonneg r).
    destruct (Z.eq_dec i 8) as [->|Hne].
    + change (at_ SpecialRecipients.BROADCAST 8) with (@None Z).
      split; [discriminate|]. intros [_ H8]. lia.
    + assert (Hat : at_ SpecialRecipients.BROADCAST i = Some 0xFF).
      { unfold at_. destruct (Z.ltb_spec i 0); [lia|].
        assert (Hn : (Z.to_nat i < 8)%nat) by lia.
        destruct (Z.to_nat i) as [|[|[|[|[|[|[|[|n]]]]]]]]; try reflexivity. lia. }
      rewrite Hat, andb_true_iff, Z.eqb_eq, (IH (i + 1)) by lia.
      rewrite Forall_cons_iff. intuition lia.
Qed.

(** [handleMessage] hands a decoded message to the delegate exactly when the
    packet is addressed to this node: it names this node, or it has no
    recipient, or its recipient consists of at most eight 0xFF bytes, so
    also when the recipient is empty, as it is after [decode] has cut a
    recipient that starts with a zero byte.  The message goes out attributed
    to the sender of the packet; nothing else happens. *)
Theorem message_delivery E p sid s m :
  BitchatMessageCodec.fromBinaryPayload E.(json) p.(payload) = Some m ->
  s.(delegate) = true ->
  (addressedTo s.(myPeerID) p ->
   handleMessage E p sid s = (s, [didReceiveMessage (Msg.setSenderPeerID m sid)]))
  /\ (~ addressedTo s.(myPeerID) p -> handleMessage E p sid s = (s, [])).
Proof.
  intros Hm Hd. unfold handleMessage, addressedTo. rewrite Hm.
  destruct (recipientID p) as [r|].
  - pose proof (everyBroadcast_spec r 0 ltac:(lia)) as Hb.
    pose proof (str_eqb_eq (bytesToHex r) (myPeerID s)) as He.
    rewrite Z.add_0_l in Hb.
    destruct (str_eqb (bytesToHex r) (myPeerID s)), (everyBroadcast r 0);
      cbn [orb]; unfold deliver, notify; rewrite ?Hd; split; intros H;
      try reflexivity; exfalso; intuition congruence.
  - cbn [orb]. unfold deliver, notify. rewrite Hd. split; [reflexivity|tauto].
Qed.

(** A MESSAGE packet whose recipient is empty. *)
Definition toNobody : BitchatPacket :=
  {| version := 1; type := MessageType.MESSAGE; ttl := 7;
     timestamp := 1700000000000; senderID := Sample.aliceID;
     recipientID := Some [];
     payload := Sample.messageBytes 1000; signature := None |}.

Lemma message_delivery_witness :
  BitchatMessageCodec.fromBinaryPayload (Sample.env 0).(json) toNobody.(payload)
  = Some (Sample.message 1000)
  /\ Sample.service.(delegate) = true
  /\ addressedTo Sample.service.(myPeerID) toNobody
  /\ handleMessage (Sample.env 0) toNobody Sample.alice Sample.service
     = (Sample.service,
        [didReceiveMessage (Msg.setSenderPeerID (Sample.message 1000) Sample.alice)]).
Proof.
  assert (H1 : BitchatMessageCodec.fromBinaryPayload (Sample.env 0).(json)
                 toNobody.(payload) = Some (Sample.message 1000))
    by (vm_compute; reflexivity).
  assert (H2 : Sample.service.(delegate) = true) by reflexivity.
  assert (H3 : addressedTo Sample.service.(myPeerID) toNobody).
  { right. split; [constructor|vm_compute; discriminate]. }
  split; [exact H1|]. split; [exact H2|]. split; [exact H3|].
  exact (proj1 (message_delivery (Sample.env 0) toNobody Sample.alice Sample.service
                  (Sample.message 1000) H1 H2) H3).
Defined.

(** A message for another node is not shown, but it is relayed. *)
Example message_for_another_peer :
  let p := {| version := 1; type := MessageType.MESSAGE; ttl := 7;
              timestamp := 1700000000000; senderID := Sample.aliceID;
              recipientID := Some [0x22; 0x22; 0x22; 0x22; 0x22; 0x22; 0x22; 0x22];
              payload := Sample.messageBytes 1000; signature := None |} in
  let run := handleReceivedPacket (Sample.env 0) p Sample.alice Sample.service in
  deliveredMessages (snd run) = []
  /\ relayedPackets (snd run) = [withTTL p 6].
Proof. vm_compute. split; reflexivity. Qed.

(** A recipient that begins with a zero byte arrives empty and counts as
    everyone. *)
Example zero_recipient_is_broadcast :
  let p := {| version := 1; type := MessageType.MESSAGE; ttl := 7;
              timestamp := 1700000000000; senderID := Sample.aliceID;
              recipientID := Some [0x00; 0x22; 0x22; 0x22; 0x22; 0x22; 0x22; 0x22];
              payload := Sample.messageBytes 1000; signature := None |} in
  let run := handleCharacteristicValueChanged (Sample.env 0) (BinaryProtocol.encode p)
               Sample.service in
  deliveredMessages (snd run) = [Msg.setSenderPeerID (Sample.message 1000) Sample.alice].
Proof. vm_compute. reflexivity. Qed.

(* ================================================================== *)
(** * Reassembly in any order *)
(* ================================================================== *)

Lemma OMap_get_set (m : list (Z * bytes)) k v k' :
  OMap.get Z.eqb (OMap.set Z.eqb m k v) k'
  = if k =? k' then Some v else OMap.get Z.eqb m k'.
Proof.
  induction m as [|[k0 v0] m IH]; cbn; [reflexivity|].
  destruct (Z.eqb_spec k0 k) as [->|Hne]; cbn.
  - now destruct (k =? k').
  - rewrite IH. destruct (Z.eqb_spec k0 k'); [|reflexivity].
    destruct (Z.eqb_spec k k'); [congruence|reflexivity].
Qed.

Lemma get_arrivals_other (arrivals : list (Z * bytes)) : forall (m : list (Z * bytes)) k,
  ~ In k (map fst arrivals) ->
  OMap.get Z.eqb
    (fold_left (fun fragments '(index, fragmentData) =>
                  OMap.set Z.eqb fragments index fragmentData) arrivals m) k
  = OMap.get Z.eqb m k.
Proof.
  induction arrivals as [|[k0 c0] rest IH]; intros m k Hk; [reflexivity|].
  cbn [fold_left]. cbn in Hk. rewrite IH by tauto. rewrite OMap_get_set.
  destruct (Z.eqb_spec k0 k); [tauto|reflexivity].
Qed.

Lemma get_arrivals (arrivals : list (Z * bytes)) : forall (m : list (Z * bytes)) k c,
  NoDup (map fst arrivals) -> In (k, c) arrivals ->
  OMap.get Z.eqb
    (fold_left (fun fragments '(index, fragmentData) =>
                  OMap.set Z.eqb fragments index fragmentData) arrivals m) k
  = Some c.
Proof.
  induction arrivals as [|[k0 c0] rest IH]; intros m k c Hnd Hin; [destruct Hin|].
  cbn [fold_left]. cbn [map fst] in Hnd. inversion Hnd as [|? ? Hk0 Hrest]; subst.
  destruct Hin as [[= -> ->]|Hin].
  - rewrite get_arrivals_other by assumption. rewrite OMap_get_set.
    now rewrite Z.eqb_refl.
  - now apply IH.
Qed.

Lemma keys_arrivals (arrivals : list (Z * bytes)) : forall (m : list (Z * bytes)),
  NoDup (map fst m ++ map fst arrivals) ->
  map fst (fold_left (fun fragments '(index, fragmentData) =>
                        OMap.set Z.eqb fragments index fragmentData) arrivals m)
  = map fst m ++ map fst arrivals.
Proof.
  induction arrivals as [|[k0 c0] rest IH]; intros m Hnd.
  - cbn. now rewrite app_nil_r.
  - cbn [fold_left map fst] in *.
    assert (Hk : map fst (OMap.set Z.eqb m k0 c0) = map fst m ++ [k0]).
    { rewrite OMap_keys_set. unfold OSet.add.
      replace (OSet.has Z.eqb (map fst m) k0) with false; [reflexivity|].
      symmetry. apply (OSet_has_notIn Z.eqb Z.eqb_eq).
      apply NoDup_remove_2 in Hnd. intros Hin. apply Hnd, in_or_app. now left. }
    rewrite IH; rewrite Hk, <- app_assoc; [reflexivity|exact Hnd].
Qed.

Lemma numberedFrom_keys chunks : forall i k,
  In k (map fst (numberedFrom i chunks)) -> i <= k.
Proof.
  induction chunks as [|c rest IH]; intros i k; cbn; [tauto|].
  intros [<-|Hin]; [lia|]. apply IH in Hin. lia.
Qed.

Lemma numberedFrom_NoDup chunks : forall i, NoDup (map fst (numberedFrom i chunks)).
Proof.
  induction chunks as [|c rest IH]; intros i; cbn; constructor; [|apply IH].
  intros Hin. apply numberedFrom_keys in Hin. lia.
Qed.

Lemma numberedFrom_length chunks : forall i, length (numberedFrom i chunks) = length chunks.
Proof. induction chunks as [|c rest IH]; intros i; cbn; [reflexivity|now rewrite IH]. Qed.

Lemma reassembleFrom_numbered fragments chunks : forall i acc,
  (forall k c, In (k, c) (numberedFrom i chunks) -> OMap.get Z.eqb fragments k = Some c) ->
  reassembleFrom fragments i (length chunks) acc = Some (acc ++ concat chunks).
Proof.
  induction chunks as [|c rest IH]; intros i acc Hget.
  - cbn. now rewrite app_nil_r.
  - cbn [length reassembleFrom concat numberedFrom] in *.
    rewrite (Hget i c) by now left.
    rewrite IH; [now rewrite <- app_assoc|].
    intros k c' Hin. apply Hget. now right.
Qed.

(** The reassembly loop of [handleFragment] does not depend on the order of
    arrival: once every chunk of a payload has been stored under its index,
    in whatever order, the session holds as many entries as there are chunks
    and the loop yields the chunks concatenated in index order, which is the
    payload. *)
Theorem reassemble_any_order (chunks : list bytes) (arrivals : list (Z * bytes)) :
  Permutation arrivals (numbered chunks) ->
  OMap.size (collect arrivals) = len chunks
  /\ reassemble (collect arrivals) (len chunks) = Some (concat chunks).
Proof.
  intros Hperm.
  assert (Hnd : NoDup (map fst arrivals)).
  { eapply Permutation_NoDup; [apply Permutation_sym, Permutation_map, Hperm|].
    apply numberedFrom_NoDup. }
  split.
  - rewrite OMap_size_keys. unfold collect. rewrite keys_arrivals by exact Hnd.
    cbn [map app]. unfold len. rewrite length_map.
    rewrite (Permutation_length Hperm). unfold numbered.
    now rewrite numberedFrom_length.
  - unfold reassemble, len. rewrite Nat2Z.id.
    apply (reassembleFrom_numbered (collect arrivals) chunks 0 []).
    intros k c Hin. apply get_arrivals; [exact Hnd|].
    eapply Permutation_in; [apply Permutation_sym, Hperm|exact Hin].
Qed.

Lemma reassemble_any_order_witness :
  let chunks := [[1; 2; 3]; [4; 5]; [6]] in
  let arrivals := [(2, [6]); (0, [1; 2; 3]); (1, [4; 5])] in
  Permutation arrivals (numbered chunks)
  /\ OMap.size (collect arrivals) = len chunks
  /\ reassemble (collect arrivals) (len chunks) = Some (concat chunks).
Proof.
  cbv zeta.
  assert (H : Permutation [(2, [6]); (0, [1; 2; 3]); (1, [4; 5])]
                (numbered [[1; 2; 3]; [4; 5]; [6]])).
  { cbn. apply Permutation_sym.
    apply (Permutation_cons_app [(2, [6])] [(1, [4; 5])] (0, [1; 2; 3])).
    apply perm_swap. }
  split; [exact H|].
  exact (reassemble_any_order [[1; 2; 3]; [4; 5]; [6]]
           [(2, [6]); (0, [1; 2; 3]); (1, [4; 5])] H).
Defined.

(* ================================================================== *)
(** * Connecting and disconnecting *)
(* ================================================================== *)

Import WebBluetoothMeshService.
Import Fragment.

Section Undo.
Context {K V : Type} (eqb : K -> K -> bool).
Hypothesis eqb_refl : forall k, eqb k k = true.

Lemma OSet_delete_add (l : list K) k :
  OSet.has eqb l k = false -> OSet.delete eqb (OSet.add eqb l k) k = l.
Proof.
  intros Hk. unfold OSet.add. rewrite Hk. unfold OSet.has in Hk.
  induction l as [|x l IH]; cbn in *; [now rewrite eqb_refl|].
  apply orb_false_iff in Hk as [Hx Hl]. rewrite Hx. now rewrite IH.
Qed.

Lemma OMap_delete_set (m : list (K * V)) k v :
  OMap.has eqb m k = false -> OMap.delete eqb (OMap.set eqb m k v) k = m.
Proof.
  unfold OMap.has. induction m as [|[k' v'] m IH]; cbn; [now rewrite eqb_refl|].
  destruct (eqb k' k) eqn:E; [discriminate|]. intros H. cbn. rewrite E.
  now rewrite IH.
Qed.
End Undo.

Lemma device_eqb_refl d : device_eqb d d = true.
Proof. apply Z.eqb_refl. Qed.

Lemma findPeerOf_set devices peerID device :
  findPeerOf devices device = None ->
  OMap.has str_eqb devices peerID = false ->
  findPeerOf (OMap.set str_eqb devices peerID device) device = Some peerID.
Proof.
  unfold OMap.has.
  induction devices as [|[k d] rest IH]; cbn; [now rewrite device_eqb_refl|].
  destruct (device_eqb d device) eqn:Ed; [discriminate|].
  destruct (str_eqb k peerID) eqn:Ek; [discriminate|].
  intros Hf Hh. cbn. rewrite Ed. now apply IH.
Qed.

Lemma broadcastPacket_no_calls E p s :
  delegateCalls (snd (broadcastPacket E p s)) = [].
Proof.
  unfold broadcastPacket. destruct (BinaryProtocol.encode p) as [data|]; [|reflexivity].
  cbn [snd]. induction (deviceCharacteristics s) as [|[d c] l IH]; [reflexivity|].
  cbn [flat_map]. rewrite delegateCalls_app, IH.
  now destruct (gattConnected E d).
Qed.

Lemma connectToDevice_state E device characteristic peerID s :
  fst (connectToDevice E device characteristic peerID s)
  = (fun s => match deviceName device with
              | Some name =>
                  if truthy name
                  then set_peerNicknames (OMap.set str_eqb (peerNicknames s) peerID name) s
                  else s
              | None => s
              end)
      (set_activePeers (OSet.add str_eqb (activePeers s) peerID)
         (set_connectedDevices (OMap.set str_eqb (connectedDevices s) peerID device)
            (set_deviceCharacteristics
               (OMap.set device_eqb (deviceCharacteristics s) device characteristic) s))).
Proof.
  unfold connectToDevice. rewrite !andThen_state. cbn [notify fst].
  unfold sendAnnouncement. rewrite broadcastPacket_state. reflexivity.
Qed.

Lemma connectToDevice_calls E device characteristic peerID s :
  delegateCalls (snd (connectToDevice E device characteristic peerID s))
  = if s.(delegate) then [didConnectToPeer peerID; didUpdatePeerList] else [].
Proof.
  unfold connectToDevice. rewrite !andThen_effects, !delegateCalls_app.
  rewrite ?andThen_state. unfold sendAnnouncement.
  rewrite broadcastPacket_no_calls, broadcastPacket_state.
  destruct (deviceName device) as [name|]; [destruct (truthy name)|];
    cbn; now destruct (delegate s).
Qed.

Lemma handleDeviceDisconnected_bound device peerID s :
  truthy peerID = true ->
  findPeerOf s.(connectedDevices) device = Some peerID ->
  handleDeviceDisconnected device s
  = (set_deviceCharacteristics
       (OMap.delete device_eqb s.(deviceCharacteristics) device)
       (set_peerNicknames (OMap.delete str_eqb s.(peerNicknames) peerID)
          (set_activePeers (OSet.delete str_eqb s.(activePeers) peerID)
             (set_connectedDevices (OMap.delete str_eqb s.(connectedDevices) peerID) s))),
     if s.(delegate) then [didDisconnectFromPeer peerID; didUpdatePeerList] else []).
Proof.
  intros Ht Hf. unfold handleDeviceDisconnected.
  unfold andThen at 1. rewrite Hf, Ht.
  unfold andThen, modify, notify. cbn. now destruct (delegate s).
Qed.

(** A device that connects and then disconnects leaves the four peer tables
    as they were, and the delegate has heard of the peer coming and going:
    provided the peer identifier drawn for it is not empty and was not in
    use, and the device was not connected already. *)
Theorem connect_then_disconnect E device characteristic peerID s :
  truthy peerID = true ->
  OMap.has str_eqb s.(connectedDevices) peerID = false ->
  OSet.has str_eqb s.(activePeers) peerID = false ->
  OMap.has str_eqb s.(peerNicknames) peerID = false ->
  findPeerOf s.(connectedDevices) device = None ->
  OMap.has device_eqb s.(deviceCharacteristics) device = false ->
  let run := (connectToDevice E device characteristic peerID ;;
              handleDeviceDisconnected device)%action s in
  connectedDevices (fst run) = connectedDevices s
  /\ deviceCharacteristics (fst run) = deviceCharacteristics s
  /\ activePeers (fst run) = activePeers s
  /\ peerNicknames (fst run) = peerNicknames s
  /\ delegateCalls (snd run)
     = if s.(delegate)
       then [didConnectToPeer peerID; didUpdatePeerList;
             didDisconnectFromPeer peerID; didUpdatePeerList]
       else [].
Proof.
  intros Ht Hc Ha Hn Hf Hd. cbv zeta.
  rewrite andThen_state, andThen_effects, delegateCalls_app.
  rewrite connectToDevice_calls, connectToDevice_state. cbv beta.
  set (named := match deviceName device with
                | Some name => if truthy name then _ else _
                | None => _
                end).
  assert (Hnamed : connectedDevices named
                   = OMap.set str_eqb (connectedDevices s) peerID device
                   /\ deviceCharacteristics named
                      = OMap.set device_eqb (deviceCharacteristics s) device characteristic
                   /\ activePeers named = OSet.add str_eqb (activePeers s) peerID
                   /\ OMap.delete str_eqb (peerNicknames named) peerID = peerNicknames s
                   /\ delegate named = delegate s).
  { subst named. destruct (deviceName device) as [name|]; [destruct (truthy name)|];
      cbn; repeat split;
      try (apply OMap_delete_set; [apply str_eqb_refl|exact Hn]).
    all: clear - Hn; unfold OMap.has in Hn;
      induction (peerNicknames s) as [|[k v] l IH]; cbn in *; [reflexivity|];
      destruct (str_eqb k peerID); [discriminate|]; now rewrite IH. }
  destruct Hnamed as (N1 & N2 & N3 & N4 & N5).
  rewrite (handleDeviceDisconnected_bound device peerID named Ht)
    by (rewrite N1; now apply findPeerOf_set).
  cbn [fst snd connectedDevices deviceCharacteristics activePeers peerNicknames
       set_connectedDevices set_deviceCharacteristics set_activePeers
       set_peerNicknames delegate].
  rewrite N1, N2, N3, N4, N5.
  rewrite (OMap_delete_set str_eqb str_eqb_refl) by assumption.
  rewrite (OMap_delete_set device_eqb device_eqb_refl) by assumption.
  rewrite (OSet_delete_add str_eqb str_eqb_refl) by assumption.
  repeat split. now destruct (delegate s).
Qed.

(** A second device. *)
Definition laptop : Device := {| deviceId := 2; deviceName := Some (lit "laptop") |}.

Lemma connect_then_disconnect_witness :
  let run := (connectToDevice (Sample.env 0) laptop 9 (lit "2222222222222222") ;;
              handleDeviceDisconnected laptop)%action Sample.service in
  connectedDevices (fst run) = connectedDevices Sample.service
  /\ deviceCharacteristics (fst run) = deviceCharacteristics Sample.service
  /\ activePeers (fst run) = activePeers Sample.service
  /\ peerNicknames (fst run) = peerNicknames Sample.service
  /\ delegateCalls (snd run)
     = if Sample.service.(delegate)
       then [didConnectToPeer (lit "2222222222222222"); didUpdatePeerList;
             didDisconnectFromPeer (lit "2222222222222222"); didUpdatePeerList]
       else [].
Proof.
  cbv zeta.
  apply (connect_then_disconnect (Sample.env 0) laptop 9 (lit "2222222222222222")
           Sample.service); vm_compute; reflexivity.
Defined.

(** A device that is connected a second time under a new identifier is
    found under the first one when it disconnects: the second identifier
    stays behind among the active peers. *)
Example reconnected_device_leaves_a_peer_behind :
  let run := (connectToDevice (Sample.env 0) Sample.phone 7 (lit "2222222222222222") ;;
              handleDeviceDisconnected Sample.phone)%action Sample.service in
  activePeers (fst run) = [lit "2222222222222222"]
  /\ map fst (connectedDevices (fst run)) = [lit "2222222222222222"].
Proof. vm_compute. split; reflexivity. Qed.

(* ================================================================== *)
(** * From one node to another *)
(* ================================================================== *)

Import WebBluetoothMeshService.
Import Fragment.
Import BinaryProtocol.
Import Text Wire.

(** The envelope round trip for unsigned packets. *)
Lemma unsigned_roundtrip (p : BitchatPacket) :
  valid_packet p -> p.(signature) = None ->
  exists data, encode p = Some data /\ decode data = Some (trimIDs p).
Proof.
  intros (Hv & Hty & Httl & Hts & Hsid & Hrid & Hpl & Hlen & _) Hsig.
  rewrite encode_uncompressed. eexists. split; [reflexivity|].
  destruct (valid_id_padded _ Hsid) as (Hs8 & Hsb & Hst).
  pose proof (len_nonneg (payload p)) as Hpl0.
  replace (version p =? 0) with false by (symmetry; apply Z.eqb_neq; lia).
  cbv iota.
  assert (Hhdr : Forall is_byte [version p; type p; ttl p])
    by (repeat constructor; unfold is_byte in *; lia).
  assert (Hsz : Forall is_byte [Z.land (Z.shiftr (len (payload p)) 8) 255;
                                Z.land (len (payload p)) 255])
    by (repeat constructor; apply land_255_is_byte).
  assert (Htb : Forall is_byte (map (bigintByte (timestamp p)) [7; 6; 5; 4; 3; 2; 1; 0]))
    by (repeat constructor; apply bigintByte_is_byte).
  pose proof (timestamp_roundtrip _ Hts) as Ht. cbn [map] in Ht.
  unfold trimIDs. rewrite Hsig.
  destruct (recipientID p) as [r|];
    cbn [isSome flagIf option_map];
    try destruct (valid_id_padded _ Hrid) as (Hr8 & Hrb & Hrt);
    (rewrite Uint8Array_from_bytes;
     [|repeat first [ assumption | apply Forall_nil | apply Forall_app; split
                    | apply Forall_cons ];
       unfold is_byte, HAS_RECIPIENT, HAS_SIGNATURE; cbn; lia]);
    cbn [app map].
  - use_decode_layout (Some (padded 8 (slice r 0 8))) (@None bytes);
      cbn [isSome option_map negb]; try reflexivity; try assumption; try exact I.
    + now rewrite Ht, Hst, Hrt.
    + apply size_bytes_value. lia.
  - use_decode_layout (@None bytes) (@None bytes);
      cbn [isSome option_map negb]; try reflexivity; try assumption; try exact I.
    + now rewrite Ht, Hst.
    + apply size_bytes_value. lia.
Qed.

Lemma trimNullBytes_nonzero l : ~ In 0 l -> trimNullBytes l = l.
Proof.
  induction l as [|b l IH]; [reflexivity|]. cbn. intros H.
  destruct (Z.eqb_spec b 0); [tauto|]. rewrite IH; tauto.
Qed.

Lemma written_broadcastPacket E p s data :
  In data (written (snd (broadcastPacket E p s))) -> encode p = Some data.
Proof.
  unfold broadcastPacket. destruct (encode p) as [d|]; [|intros []].
  cbn [snd]. induction (deviceCharacteristics s) as [|[dev c] l IH]; [intros []|].
  cbn [flat_map]. unfold written in *. rewrite flat_map_app. intros Hin.
  apply in_app_or in Hin as [Hin|Hin]; [|now apply IH].
  destruct (gattConnected E dev); [|destruct Hin].
  destruct Hin as [->|[]]. reflexivity.
Qed.


(** What [decode] makes of a buffer a node wrote: the packet, with the
    sender's eight bytes. *)
Lemma broadcast_decodes Ea a id p data :
  ownID a id ->
  p.(senderID) = hexToBytes a.(myPeerID) ->
  p.(version) = 1 -> is_byte p.(type) -> is_byte p.(ttl) ->
  0 <= p.(timestamp) < 2 ^ 64 ->
  match p.(recipientID) with Some r => wholeID r | None => True end ->
  Forall is_byte p.(payload) -> len p.(payload) <= 65535 ->
  p.(signature) = None ->
  In data (written (snd (broadcastPacket Ea p a))) ->
  decode data
  = Some {| version := 1; type := p.(type); ttl := p.(ttl);
            timestamp := p.(timestamp);
            senderID := id; recipientID := p.(recipientID); payload := p.(payload);
            signature := None |}.
Proof.
  intros (Hid & Hib & Hi8 & Hi0) Hs Hv Hty Httl Hts Hr Hpb Hpl Hsig Hin.
  assert (Hsender : senderID p = id).
  { rewrite Hs, Hid. unfold hexToBytes. now apply hexPairs_bytesToHex. }
  assert (Hvalid : valid_packet p).
  { unfold valid_packet, valid_id. rewrite Hv, Hsender, Hsig.
    repeat split; try assumption; try lia; try apply Hty; try apply Httl.
    destruct (recipientID p) as [r|]; [|exact I].
    destruct Hr as (Hrb & Hr8 & _). split; [exact Hrb|lia]. }
  destruct (unsigned_roundtrip p Hvalid Hsig) as (d0 & He & Hd).
  apply written_broadcastPacket in Hin. rewrite He in Hin. injection Hin as <-.
  rewrite Hd. unfold trimIDs.
  rewrite Hsender, trimNullBytes_nonzero by assumption.
  rewrite Hv, Hsig. do 2 f_equal.
  destruct (recipientID p) as [r|]; [|reflexivity].
  cbn [option_map]. destruct Hr as (_ & _ & Hr0).
  now rewrite trimNullBytes_nonzero.
Qed.

(** What a node makes of a packet another node broadcast: the packet itself,
    attributed to the sender's peer identifier. *)
Lemma broadcast_received Ea Eb a b id p data :
  ownID a id ->
  p.(senderID) = hexToBytes a.(myPeerID) ->
  p.(version) = 1 -> is_byte p.(type) -> is_byte p.(ttl) ->
  0 <= p.(timestamp) < 2 ^ 64 ->
  match p.(recipientID) with Some r => wholeID r | None => True end ->
  Forall is_byte p.(payload) -> len p.(payload) <= 65535 ->
  p.(signature) = None ->
  In data (written (snd (broadcastPacket Ea p a))) ->
  b.(myPeerID) <> a.(myPeerID) ->
  handleCharacteristicValueChanged Eb (Some data) b
  = handleReceivedPacket Eb
      {| version := 1; type := p.(type); ttl := p.(ttl); timestamp := p.(timestamp);
         senderID := id; recipientID := p.(recipientID); payload := p.(payload);
         signature := None |}
      a.(myPeerID) b.
Proof.
  intros Hid Hs Hv Hty Httl Hts Hr Hpb Hpl Hsig Hin Hne.
  unfold handleCharacteristicValueChanged.
  rewrite (broadcast_decodes Ea a id p data Hid Hs Hv Hty Httl Hts Hr Hpb Hpl Hsig Hin).
  cbn [senderID]. destruct Hid as [Hid _]. rewrite <- Hid.
  destruct (str_eqb (myPeerID a) (myPeerID b)) eqn:Eq; [|reflexivity].
  apply str_eqb_eq in Eq. congruence.
Qed.


Import WebBluetoothMeshService.
Import Fragment.
Import BinaryProtocol.
Import Text Wire.
Import BitchatMessageCodec.

Lemma encode_printable s : Forall printable s -> Utf8.encode s = s.
Proof.
  unfold Utf8.encode. induction 1 as [|c s Hc _ IH]; [reflexivity|].
  unfold printable in Hc. cbn [Utf8.scalars].
  unfold Utf8.isHighSurrogate, Utf8.isLowSurrogate.
  replace (Utf8.between 55296 56319 c) with false
    by (symmetry; apply between_false; lia).
  replace (Utf8.between 56320 57343 c) with false
    by (symmetry; apply between_false; lia).
  cbn [flat_map]. rewrite IH. unfold Utf8.encodeCodePoint.
  destruct (Z.ltb_spec c 128); [reflexivity|lia].
Qed.

Lemma withoutBOM_printable s : Forall printable s -> withoutBOM s = s.
Proof.
  intros H. unfold withoutBOM. destruct s as [|b0 [|b1 [|b2 r]]]; try reflexivity.
  apply Forall_cons_iff in H as [H0 _]. unfold printable in H0.
  destruct (Z.eqb_spec b0 239); [lia|reflexivity].
Qed.

Lemma is_byte_printable s : Forall printable s -> Forall is_byte s.
Proof.
  apply Forall_impl. unfold printable, is_byte. lia.
Qed.

(* ================================================================== *)
(** * A chat message from sender to receiver *)
(* ================================================================== *)


(** A second node: alice, with one connected device. *)
Definition aliceService : Service :=
  {| myPeerID := Sample.alice; nickname := lit "alice"; isScanning := false;
     connectedDevices := [(lit "3333333333333333", Sample.phone)];
     deviceCharacteristics := [(Sample.phone, 7)];
     activePeers := [lit "3333333333333333"];
     peerNicknames := [];
     processedMessages := [];
     incomingFragments := []; fragmentMetadata := [];
     delegate := true; randomCalls := 0 |}.

Lemma aliceService_ownID : ownID aliceService Sample.aliceID.
Proof.
  unfold ownID, wholeID. split; [reflexivity|]. split.
  - repeat constructor; unfold is_byte; lia.
  - split; [reflexivity|]. cbn. intuition discriminate.
Qed.




(* ================================================================== *)
(** * An announcement from sender to receiver *)
(* ================================================================== *)

(** When a node announces itself, a node that receives what was written
    records the announcer's nickname under the announcer's peer identifier
    and counts it among the active peers: provided the nickname is at most
    100 characters of printable ASCII and the announcer's identifier has no
    zero byte. *)
Theorem announcement_reaches_peer Ea Eb a b id data :
  ownID a id ->
  Forall printable a.(nickname) -> len a.(nickname) <= 100 ->
  0 <= Ea.(now) < 2 ^ 64 ->
  In data (written (snd (sendAnnouncement Ea a))) ->
  b.(myPeerID) <> a.(myPeerID) ->
  OSet.has str_eqb b.(processedMessages)
    (packetKey a.(myPeerID) (announcePacket Ea MessageType.ANNOUNCE a)) = false ->
  let b' := fst (handleCharacteristicValueChanged Eb (Some data) b) in
  OMap.get str_eqb (peerNicknames b') a.(myPeerID) = Some a.(nickname)
  /\ OSet.has str_eqb (activePeers b') a.(myPeerID) = true.
Proof.
  intros Hid Hp Hl Hnow Hin Hne Hfresh. cbv zeta.
  unfold sendAnnouncement in Hin.
  assert (Hty : is_byte (type (announcePacket Ea MessageType.ANNOUNCE a)))
    by (unfold is_byte; cbn [announcePacket type]; unfold MessageType.ANNOUNCE; lia).
  assert (Httl : is_byte (ttl (announcePacket Ea MessageType.ANNOUNCE a)))
    by (unfold is_byte; cbn [announcePacket ttl]; lia).
  assert (Hpay : payload (announcePacket Ea MessageType.ANNOUNCE a) = nickname a)
    by (cbn [announcePacket payload]; now apply encode_printable).
  rewrite (broadcast_received Ea Eb a b id (announcePacket Ea MessageType.ANNOUNCE a) data
             Hid eq_refl eq_refl Hty Httl Hnow I);
    [|rewrite Hpay; now apply is_byte_printable|rewrite Hpay; lia|reflexivity
     |exact Hin|exact Hne].
  rewrite Hpay. cbn [announcePacket type ttl timestamp recipientID].
  unfold handleReceivedPacket, fuelFor.
  match goal with
  | |- context [handleReceivedPacketFuel (S ?n) Eb ?p (myPeerID a) b] =>
      pose proof (announce_packet_state n Eb p (myPeerID a) b) as H
  end.
  cbn [type ttl payload] in H. rewrite withoutBOM_printable in H by assumption.
  unfold packetKey in H, Hfresh.
  cbn [announcePacket timestamp payload] in H, Hfresh.
  rewrite encode_printable in Hfresh by assumption.
  apply (H (or_introl eq_refl) ltac:(lia) Hfresh Hl Hp).
Qed.

Lemma announcement_reaches_peer_witness :
  let data := match written (snd (sendAnnouncement (Sample.env 1000) aliceService)) with
              | d :: _ => d
              | [] => []
              end in
  let b' := fst (handleCharacteristicValueChanged (Sample.env 2000) (Some data)
                   Sample.service) in
  In data (written (snd (sendAnnouncement (Sample.env 1000) aliceService)))
  /\ OMap.get str_eqb (peerNicknames b') Sample.alice = Some (lit "alice")
  /\ OSet.has str_eqb (activePeers b') Sample.alice = true.
Proof.
  cbv zeta.
  assert (Hin : In match written (snd (sendAnnouncement (Sample.env 1000) aliceService)) with
                   | d :: _ => d
                   | [] => []
                   end
                   (written (snd (sendAnnouncement (Sample.env 1000) aliceService))))
    by (vm_compute; left; reflexivity).
  split; [exact Hin|].
  refine (announcement_reaches_peer (Sample.env 1000) (Sample.env 2000) aliceService
            Sample.service Sample.aliceID _ aliceService_ownID _ _ _ Hin _ _).
  - cbn. repeat constructor; unfold printable; lia.
  - vm_compute. discriminate.
  - split; [vm_compute; discriminate|vm_compute; reflexivity].
  - vm_compute. discriminate.
  - vm_compute. reflexivity.
Defined.

(* ================================================================== *)
(** * Shutting down, seen from a peer *)
(* ================================================================== *)

Lemma written_app e1 e2 : written (e1 ++ e2) = written e1 ++ written e2.
Proof. unfold written. apply flat_map_app. Qed.

Lemma written_stopService E s data :
  In data (written (snd (stopService E s))) ->
  In data (written (snd (sendLeaveNotification E (set_isScanning false s)))).
Proof.
  rewrite stopService_teardown. cbn [snd]. rewrite written_app. intros Hin.
  apply in_app_or in Hin as [Hin|Hin].
  - destruct (0 <? OMap.size (connectedDevices s)); [exact Hin|destruct Hin].
  - exfalso. induction (connectedDevices s) as [|[k d] l IH]; [destruct Hin|].
    cbn [flat_map] in Hin. rewrite written_app in Hin.
    apply in_app_or in Hin as [Hin|Hin]; [|now apply IH].
    destruct (gattConnected E d); cbn in Hin; destruct Hin.
Qed.

(** When a node stops its service, a node that receives the LEAVE packet it
    wrote forgets it: the leaving node is no longer among the receiver's
    active peers and has no nickname there.  The leaving node's identifier
    must have no zero byte and its nickname must fit the envelope. *)
Theorem shutdown_reaches_peer Ea Eb a b id data :
  ownID a id ->
  Forall codeUnit a.(nickname) -> len (Utf8.encode a.(nickname)) <= 65535 ->
  0 <= Ea.(now) < 2 ^ 64 ->
  In data (written (snd (stopService Ea a))) ->
  b.(myPeerID) <> a.(myPeerID) ->
  wellKept b ->
  OSet.has str_eqb b.(processedMessages)
    (packetKey a.(myPeerID) (announcePacket Ea MessageType.LEAVE a)) = false ->
  let b' := fst (handleCharacteristicValueChanged Eb (Some data) b) in
  OSet.has str_eqb (activePeers b') a.(myPeerID) = false
  /\ OMap.get str_eqb (peerNicknames b') a.(myPeerID) = None.
Proof.
  intros Hid Hu Hl Hnow Hin Hne Hk Hfresh. cbv zeta.
  apply written_stopService in Hin. unfold sendLeaveNotification in Hin.
  set (a0 := set_isScanning false a) in *.
  assert (Hid0 : ownID a0 id) by exact Hid.
  assert (Hty : is_byte (type (announcePacket Ea MessageType.LEAVE a0)))
    by (unfold is_byte; cbn [announcePacket type]; unfold MessageType.LEAVE; lia).
  assert (Httl : is_byte (ttl (announcePacket Ea MessageType.LEAVE a0)))
    by (unfold is_byte; cbn [announcePacket ttl]; lia).
  rewrite (broadcast_received Ea Eb a0 b id (announcePacket Ea MessageType.LEAVE a0) data
             Hid0 eq_refl eq_refl Hty Httl Hnow I
             (encode_bytes _ Hu) Hl eq_refl Hin Hne).
  cbn [announcePacket type ttl timestamp recipientID payload].
  unfold handleReceivedPacket, fuelFor.
  apply leave_packet_state; try assumption; [reflexivity|cbn [ttl]; lia].
Qed.

Lemma shutdown_reaches_peer_witness :
  let data := match written (snd (stopService (Sample.env 1000) aliceService)) with
              | d :: _ => d
              | [] => []
              end in
  let known := fst (run [(Sample.env 500,
                          CharacteristicValueChanged
                            (BinaryProtocol.encode (Sample.announce [98; 111; 98])))]
                      Sample.service) in
  let b' := fst (handleCharacteristicValueChanged (Sample.env 2000) (Some data) known) in
  In data (written (snd (stopService (Sample.env 1000) aliceService)))
  /\ OSet.has str_eqb (activePeers known) Sample.alice = true
  /\ OSet.has str_eqb (activePeers b') Sample.alice = false
  /\ OMap.get str_eqb (peerNicknames b') Sample.alice = None.
Proof.
  cbv zeta.
  assert (Hin : In match written (snd (stopService (Sample.env 1000) aliceService)) with
                   | d :: _ => d
                   | [] => []
                   end
                   (written (snd (stopService (Sample.env 1000) aliceService))))
    by (vm_compute; left; reflexivity).
  split; [exact Hin|]. split; [vm_compute; reflexivity|].
  refine (shutdown_reaches_peer (Sample.env 1000) (Sample.env 2000) aliceService
            _ Sample.aliceID _ aliceService_ownID _ _ _ Hin _ _ _).
  - apply Forall_forall. intros u Hu. apply between_spec.
    assert (H : forallb (Utf8.between 0 65535) (nickname aliceService) = true)
      by (vm_compute; reflexivity).
    rewrite forallb_forall in H. now apply H.
  - vm_compute. discriminate.
  - split; [vm_compute; discriminate|vm_compute; reflexivity].
  - vm_compute. discriminate.
  - apply wellKept_run, wellKept_sample.
  - vm_compute. reflexivity.
Defined.

Import WebBluetoothMeshService.
Import Fragment.
Import BinaryProtocol.
Import Text Wire.
Import BitchatMessageCodec.

(* ================================================================== *)
(** * A node hears itself *)
(* ================================================================== *)



(** A node whose identifier has a zero byte in the fourth place. *)
Definition zedService : Service :=
  {| myPeerID := lit "a1b2c300e5f60718"; nickname := lit "zed"; isScanning := false;
     connectedDevices := [(lit "3333333333333333", Sample.phone)];
     deviceCharacteristics := [(Sample.phone, 7)];
     activePeers := [lit "3333333333333333"];
     peerNicknames := [];
     processedMessages := [];
     incomingFragments := []; fragmentMetadata := [];
     delegate := true; randomCalls := 0 |}.

(** Its own message comes back as a message from the peer "a1b2c3": it is
    shown to the node itself and relayed. *)
Example zero_byte_identifier_not_recognised :
  let sent := written (snd (sendMessage (Sample.env 1000) (lit "m-1") (lit "hello")
                              [] None zedService)) in
  let back := handleCharacteristicValueChanged (Sample.env 2000)
                (hd_error sent) zedService in
  map Msg.senderPeerID (deliveredMessages (snd back)) = [lit "a1b2c3"]
  /\ length (relayedPackets (snd back)) = 1%nat
  /\ activePeers (fst back) = [lit "3333333333333333"; lit "a1b2c3"].
Proof. vm_compute. repeat split. Qed.

(* ================================================================== *)
(** * A private message *)
(* ================================================================== *)



(** What alice writes when she whispers to the node of the samples. *)
Definition whisperBytes : bytes :=
  match written (snd (sendPrivateMessage (Sample.env 1000) (lit "m-1") (lit "hello")
                        (bytesToHex [0x0A; 0x0B; 0x0C; 0x0D; 0x0E; 0x0F; 0x10; 0x11])
                        (lit "bob") aliceService)) with
  | data :: _ => data
  | [] => []
  end.


(** The same buffer at a third node is relayed and not shown. *)
Example whisper_at_a_third_node :
  let third := fst (run [(Sample.env 0, SetNickname (lit "carol"))] zedService) in
  let run := handleCharacteristicValueChanged (Sample.env 2000) (Some whisperBytes)
               third in
  deliveredMessages (snd run) = []
  /\ length (relayedPackets (snd run)) = 1%nat.
Proof. vm_compute. split; reflexivity. Qed.

(* ================================================================== *)
(** * The recursion of [handleReceivedPacket] ends *)
(* ================================================================== *)

Import WebBluetoothMeshService.
Import Fragment.

(** The bytes a table of sessions buffers. *)
Lemma sessionBytes_acc (fragments : list (Z * bytes)) (a : Z) :
  fold_left (fun total '(_, data) => total + len data) fragments a
  = a + sessionBytes fragments.
Proof.
  unfold sessionBytes. revert a.
  induction fragments as [|[i c] l IH]; intros a; cbn [fold_left]; [lia|].
  rewrite (IH (a + len c)), (IH (0 + len c)). lia.
Qed.

Lemma sessionBytes_cons i c (fragments : list (Z * bytes)) :
  sessionBytes ((i, c) :: fragments) = len c + sessionBytes fragments.
Proof.
  unfold sessionBytes at 1. cbn [fold_left]. rewrite sessionBytes_acc. lia.
Qed.

Lemma sessionBytes_nonneg fragments : 0 <= sessionBytes fragments.
Proof.
  induction fragments as [|[i c] l IH]; [reflexivity|].
  rewrite sessionBytes_cons. pose proof (len_nonneg c). lia.
Qed.

Definition tableBytes (m : list (JSString * list (Z * bytes))) : Z :=
  fold_left (fun total '(_, fragments) => total + sessionBytes fragments) m 0.

Lemma tableBytes_acc (m : list (JSString * list (Z * bytes))) (a : Z) :
  fold_left (fun total '(_, fragments) => total + sessionBytes fragments) m a
  = a + tableBytes m.
Proof.
  unfold tableBytes. revert a.
  induction m as [|[k fr] l IH]; intros a; cbn [fold_left]; [lia|].
  rewrite (IH (a + sessionBytes fr)), (IH (0 + sessionBytes fr)). lia.
Qed.

Lemma tableBytes_cons k fragments m :
  tableBytes ((k, fragments) :: m) = sessionBytes fragments + tableBytes m.
Proof.
  unfold tableBytes at 1. cbn [fold_left]. rewrite tableBytes_acc. lia.
Qed.

Lemma tableBytes_nonneg m : 0 <= tableBytes m.
Proof.
  induction m as [|[k fr] m IH]; [reflexivity|].
  rewrite tableBytes_cons. pose proof (sessionBytes_nonneg fr). lia.
Qed.

Lemma tableBytes_delete m k :
  tableBytes (OMap.delete str_eqb m k)
  = tableBytes m - match OMap.get str_eqb m k with
                   | Some fragments => sessionBytes fragments
                   | None => 0
                   end.
Proof.
  induction m as [|[k' fr] m IH]; cbn [OMap.delete OMap.get]; [reflexivity|].
  destruct (str_eqb k' k); rewrite ?tableBytes_cons; [lia|]. rewrite IH. lia.
Qed.

Lemma tableBytes_set m k v :
  tableBytes (OMap.set str_eqb m k v)
  = tableBytes m - match OMap.get str_eqb m k with
                   | Some fragments => sessionBytes fragments
                   | None => 0
                   end + sessionBytes v.
Proof.
  induction m as [|[k' fr] m IH]; cbn [OMap.set OMap.get].
  - rewrite tableBytes_cons. change (tableBytes []) with 0. lia.
  - destruct (str_eqb k' k); rewrite ?tableBytes_cons; [lia|]. rewrite IH. lia.
Qed.

Lemma sessionBytes_set fragments i c :
  sessionBytes (OMap.set Z.eqb fragments i c) <= sessionBytes fragments + len c.
Proof.
  induction fragments as [|[j d] l IH]; cbn [OMap.set].
  - rewrite sessionBytes_cons. lia.
  - destruct (j =? i); rewrite !sessionBytes_cons; [|lia].
    pose proof (len_nonneg d). lia.
Qed.

Lemma totalFragmentBytes_table s :
  totalFragmentBytes s = tableBytes s.(incomingFragments).
Proof. reflexivity. Qed.

Lemma totalFragmentBytes_deleteSession fid s :
  totalFragmentBytes (deleteSession fid s) <= totalFragmentBytes s.
Proof.
  rewrite !totalFragmentBytes_table. unfold deleteSession. cbn [incomingFragments fragmentMetadata set_fragmentMetadata set_incomingFragments].
  rewrite tableBytes_delete.
  destruct (OMap.get _ _ _) as [fr|]; [pose proof (sessionBytes_nonneg fr)|]; lia.
Qed.

Lemma totalFragmentBytes_fold_deleteSession l s :
  totalFragmentBytes (fold_left (fun s fragID => deleteSession fragID s) l s)
  <= totalFragmentBytes s.
Proof.
  revert s. induction l as [|x l IH]; intros s; cbn [fold_left]; [lia|].
  pose proof (IH (deleteSession x s)).
  pose proof (totalFragmentBytes_deleteSession x s). lia.
Qed.

Lemma totalFragmentBytes_evictOldest l t s :
  totalFragmentBytes (evictOldest l t s) <= totalFragmentBytes s.
Proof.
  revert t s. induction l as [|[fid m] l IH]; intros t s; cbn [evictOldest]; [lia|].
  destruct (maxFragmentBytes <? t); [|lia].
  match goal with |- totalFragmentBytes (evictOldest l ?t' ?s') <= _ =>
    pose proof (IH t' s') end.
  pose proof (totalFragmentBytes_deleteSession fid s). lia.
Qed.

Lemma totalFragmentBytes_cleanupOldFragments E s :
  totalFragmentBytes (cleanupOldFragments E s) <= totalFragmentBytes s.
Proof.
  unfold cleanupOldFragments. cbv zeta.
  match goal with |- context [fold_left ?f ?l s] =>
    pose proof (totalFragmentBytes_fold_deleteSession l s) as Hf;
    set (s1 := fold_left f l s) in *
  end.
  destruct (maxFragmentBytes <? totalFragmentBytes s1); [|exact Hf].
  pose proof (totalFragmentBytes_evictOldest (sortByTimestamp (fragmentMetadata s1))
                (totalFragmentBytes s1) s1). lia.
Qed.

Lemma totalFragmentBytes_createSession E fid ot total s :
  totalFragmentBytes (createSession E fid ot total s) <= totalFragmentBytes s.
Proof.
  rewrite !totalFragmentBytes_table. unfold createSession. cbn [incomingFragments fragmentMetadata set_fragmentMetadata set_incomingFragments].
  rewrite tableBytes_set. change (sessionBytes []) with 0.
  destruct (OMap.get _ _ _) as [fr|]; [pose proof (sessionBytes_nonneg fr)|]; lia.
Qed.

Lemma totalFragmentBytes_openSession E fid ot total s :
  totalFragmentBytes (fst (openSession E fid ot total s)) <= totalFragmentBytes s.
Proof.
  unfold openSession.
  pose proof (totalFragmentBytes_cleanupOldFragments E s) as Hc.
  pose proof (totalFragmentBytes_createSession E fid ot total s) as H1.
  pose proof (totalFragmentBytes_createSession E fid ot total (cleanupOldFragments E s))
    as H2.
  destruct (OMap.has _ _ _); [cbn; lia|].
  destruct (_ <=? _); [|cbn [fst]; lia].
  destruct (_ <=? _); cbn [fst]; lia.
Qed.

(** After the chunk is stored and the session destroyed, the table buffers
    what it did before the chunk arrived, less that session. *)
Lemma totalFragmentBytes_stored_deleted fid index data s :
  totalFragmentBytes (deleteSession fid (storeFragment fid index data s))
  = totalFragmentBytes s - sessionBytes (sessionOf fid s).
Proof.
  rewrite !totalFragmentBytes_table. unfold deleteSession, storeFragment, sessionOf.
  cbn [incomingFragments fragmentMetadata set_fragmentMetadata set_incomingFragments].
  rewrite tableBytes_delete, OMap_get_set_same, tableBytes_set.
  destruct (OMap.get str_eqb (incomingFragments s) fid) as [fr|];
    [|change (sessionBytes []) with 0]; lia.
Qed.

(** What a reassembly yields is no longer than what the session buffers. *)
Fixpoint upFrom (i : Z) (count : nat) : list Z :=
  match count with
  | O => []
  | S count' => i :: upFrom (i + 1) count'
  end.

Definition chunkLength (fragments : list (Z * bytes)) (i : Z) : Z :=
  match OMap.get Z.eqb fragments i with
  | Some c => len c
  | None => 0
  end.

Definition chunkLengths (fragments : list (Z * bytes)) (indices : list Z) : Z :=
  fold_right (fun i total => chunkLength fragments i + total) 0 indices.

Lemma upFrom_ge i count k : In k (upFrom i count) -> i <= k.
Proof.
  revert i. induction count as [|c IH]; intros i; cbn; [tauto|].
  intros [<-|Hin]; [lia|]. apply IH in Hin. lia.
Qed.

Lemma upFrom_NoDup i count : NoDup (upFrom i count).
Proof.
  revert i. induction count as [|c IH]; intros i; cbn; constructor; [|apply IH].
  intros Hin. apply upFrom_ge in Hin. lia.
Qed.

Lemma chunkLength_nonneg fragments i : 0 <= chunkLength fragments i.
Proof.
  unfold chunkLength. destruct (OMap.get _ _ _) as [c|]; [apply len_nonneg|lia].
Qed.

Lemma chunkLengths_cons_other j d fragments indices :
  ~ In j indices ->
  chunkLengths ((j, d) :: fragments) indices = chunkLengths fragments indices.
Proof.
  induction indices as [|i l IH]; cbn [chunkLengths fold_right]; [reflexivity|].
  intros Hj. fold (chunkLengths ((j, d) :: fragments) l). fold (chunkLengths fragments l).
  rewrite IH by (cbn in Hj; tauto).
  unfold chunkLength. cbn [OMap.get].
  destruct (Z.eqb_spec j i); [subst; cbn in Hj; tauto|reflexivity].
Qed.

Lemma chunkLengths_cons j d fragments indices :
  NoDup indices ->
  chunkLengths ((j, d) :: fragments) indices <= len d + chunkLengths fragments indices.
Proof.
  induction 1 as [|i l Hi Hl IH]; cbn [chunkLengths fold_right].
  - pose proof (len_nonneg d). lia.
  - fold (chunkLengths ((j, d) :: fragments) l). fold (chunkLengths fragments l).
    pose proof (chunkLength_nonneg fragments i).
    unfold chunkLength at 1. cbn [OMap.get].
    destruct (Z.eqb_spec j i) as [->|Hne].
    + rewrite chunkLengths_cons_other by assumption. lia.
    + fold (chunkLength fragments i). lia.
Qed.

Lemma chunkLengths_le fragments indices :
  NoDup indices -> chunkLengths fragments indices <= sessionBytes fragments.
Proof.
  revert indices. induction fragments as [|[j d] l IH]; intros indices Hnd.
  - change (sessionBytes []) with 0.
    induction indices as [|i r IHr]; [cbn; lia|].
    cbn [chunkLengths fold_right]. fold (chunkLengths [] r).
    inversion Hnd; subst. unfold chunkLength. cbn [OMap.get]. specialize (IHr H2). lia.
  - rewrite sessionBytes_cons.
    pose proof (chunkLengths_cons j d l indices Hnd). specialize (IH indices Hnd). lia.
Qed.

Lemma reassembleFrom_length fragments count : forall i acc out,
  reassembleFrom fragments i count acc = Some out ->
  len out = len acc + chunkLengths fragments (upFrom i count).
Proof.
  induction count as [|c IH]; intros i acc out; cbn [reassembleFrom upFrom].
  - intros [= <-]. cbn. lia.
  - destruct (OMap.get Z.eqb fragments i) as [fragment|] eqn:Eg; [|discriminate].
    intros H. apply IH in H. rewrite H, len_app.
    cbn [chunkLengths fold_right]. fold (chunkLengths fragments (upFrom (i + 1) c)).
    unfold chunkLength. rewrite Eg. lia.
Qed.

Lemma reassemble_length fragments total out :
  reassemble fragments total = Some out -> len out <= sessionBytes fragments.
Proof.
  unfold reassemble. intros H. apply reassembleFrom_length in H.
  pose proof (chunkLengths_le fragments (upFrom 0 (Z.to_nat total)) (upFrom_NoDup _ _)).
  change (len (@nil Z)) with 0 in H. lia.
Qed.

(** A decoded payload is at least 21 bytes shorter than the buffer. *)
Lemma slice_after {A} (l : list A) s e :
  0 <= s -> len (slice l s e) <= len l - Z.min s (len l).
Proof.
  intros Hs. pose proof (len_nonneg l). unfold slice, rel_index.
  destruct (Z.ltb_spec s 0); [lia|]. unfold len.
  rewrite length_firstn, length_skipn. lia.
Qed.

Lemma decode_payload_bound data r :
  BinaryProtocol.decode data = Some r -> len r.(payload) + 21 <= len data.
Proof.
  unfold BinaryProtocol.decode, BinaryProtocol.decompress,
    BinaryProtocol.HEADER_SIZE, BinaryProtocol.SENDER_ID_SIZE,
    BinaryProtocol.RECIPIENT_ID_SIZE.
  destruct (Z.ltb_spec (len data) (13 + 8)) as [|Hlen]; [discriminate|].
  set (n := len data) in *.
  assert (Hb : forall s e, 21 <= s -> len (slice data s e) + 21 <= n).
  { intros s e Hs. pose proof (slice_after data s e ltac:(lia)). subst n. lia. }
  clearbody n.
  destruct data as [|v [|ty [|tl [|t0 [|t1 [|t2 [|t3 [|t4 [|t5 [|t6 [|t7 [|fl [|hi [|lo
    rest]]]]]]]]]]]]]]; try discriminate.
  cbv zeta.
  destruct (negb (Z.land fl BinaryProtocol.HAS_RECIPIENT =? 0));
    destruct (negb (Z.land fl BinaryProtocol.IS_COMPRESSED =? 0));
    intros [= <-]; cbn [payload];
    repeat match goal with
           | |- context [if ?c then _ else _] => destruct c
           end;
    apply Hb; lia.
Qed.

Lemma fragmentData_length payload :
  13 <= len payload -> len (fragmentData payload) <= len payload - 13.
Proof.
  intros H. unfold fragmentData. destruct (13 <? len payload).
  - unfold slice_from. pose proof (slice_after payload 13 (len payload) ltac:(lia)). lia.
  - change (len (@nil Z)) with 0. lia.
Qed.

(** Packets that are not fragments do not recurse. *)
Lemma dispatchByType_nonfragment d1 d2 E p sid :
  isFragmentType p = false ->
  dispatchByType d1 E p sid = dispatchByType d2 E p sid.
Proof. intros H. unfold dispatchByType. now rewrite H. Qed.

Lemma nonfragment_fuel n m E p sid s :
  isFragmentType p = false ->
  handleReceivedPacketFuel (S n) E p sid s = handleReceivedPacketFuel (S m) E p sid s.
Proof.
  intros H. cbn [handleReceivedPacketFuel].
  now rewrite (dispatchByType_nonfragment (handleReceivedPacketFuel n E)
                 (handleReceivedPacketFuel m E) E p sid H).
Qed.

Lemma message_not_fragment p : type p = MessageType.MESSAGE -> isFragmentType p = false.
Proof. intros H. unfold isFragmentType, isType. now rewrite H. Qed.

Section Agree.
Variables d1 d2 : BitchatPacket -> JSString -> Action.
Variable sid : JSString.
Hypothesis agree_on_messages :
  forall r s, type r = MessageType.MESSAGE -> d1 r sid s = d2 r sid s.

Lemma asMessageThenPacket_agree E fid data s :
  asMessageThenPacket d1 E fid sid data s = asMessageThenPacket d2 E fid sid data s.
Proof.
  unfold asMessageThenPacket.
  destruct (BitchatMessageCodec.fromBinaryPayload _ _); [reflexivity|].
  destruct (BinaryProtocol.decode data) as [r|]; [|reflexivity].
  destruct (Z.eqb_spec (type r) MessageType.MESSAGE) as [Hm|]; [|reflexivity].
  unfold andThen. now rewrite (agree_on_messages r s Hm).
Qed.

Lemma asPacketThenMessage_agree E fid data s :
  asPacketThenMessage d1 E fid sid data s = asPacketThenMessage d2 E fid sid data s.
Proof.
  unfold asPacketThenMessage.
  destruct (BinaryProtocol.decode data) as [r|]; [|reflexivity].
  destruct (Z.eqb_spec (type r) MessageType.MESSAGE) as [Hm|]; [|reflexivity].
  unfold andThen. now rewrite (agree_on_messages r s Hm).
Qed.

Lemma awaitFragments_agree E fid fragments index total data s :
  awaitFragments d1 E fid sid fragments index total data s
  = awaitFragments d2 E fid sid fragments index total data s.
Proof.
  unfold awaitFragments.
  rewrite asMessageThenPacket_agree.
  destruct (if (index =? 0) && (total =? 2)
            then asMessageThenPacket d2 E fid sid data s else None); [reflexivity|].
  destruct ((OMap.size fragments =? 1) && (total =? 2) && (index =? 0)); [|reflexivity].
  destruct (OMap.get Z.eqb fragments 0) as [single|]; [|reflexivity].
  now rewrite asPacketThenMessage_agree.
Qed.

End Agree.

(** [handleFragment] hands a packet on in two ways: a MESSAGE packet found
    in a single chunk, or the packet a completed reassembly decodes to, which
    comes with fewer buffered bytes and payload bytes than there were. *)
Lemma handleFragment_agree d1 d2 sid E p s :
  (13 <= len p.(payload) ->
   forall r s', type r = MessageType.MESSAGE -> d1 r sid s' = d2 r sid s') ->
  (forall r s',
     totalFragmentBytes s' + len r.(payload)
     < totalFragmentBytes s + len p.(payload) ->
     d1 r sid s' = d2 r sid s') ->
  handleFragment d1 E p sid s = handleFragment d2 E p sid s.
Proof.
  intros Hmessages Hsmaller.
  rewrite (handleFragment_blocks d1), (handleFragment_blocks d2).
  unfold inBlocks. cbv zeta.
  destruct (Z.ltb_spec (len (payload p)) 13) as [|Hlen]; [reflexivity|].
  specialize (Hmessages Hlen).
  pose proof (totalFragmentBytes_openSession E (fragmentID (payload p))
                (originalType (payload p)) (total (payload p)) s) as Hopen.
  destruct (openSession _ _ _ _ _) as [s1 accepted]. cbn [fst] in Hopen.
  destruct accepted; cbn [negb]; [|reflexivity].
  set (fragments := OMap.set Z.eqb (sessionOf (fragmentID (payload p)) s1)
                      (index (payload p)) (fragmentData (payload p))).
  destruct (OMap.size fragments =? total (payload p));
    [|now apply awaitFragments_agree].
  unfold completeReassembly.
  destruct (reassemble fragments (total (payload p))) as [buf|] eqn:Er; [|reflexivity].
  destruct (BinaryProtocol.decode buf) as [r|] eqn:Ed; [|reflexivity].
  rewrite Hsmaller; [reflexivity|].
  rewrite totalFragmentBytes_stored_deleted.
  pose proof (reassemble_length _ _ _ Er) as H1.
  pose proof (decode_payload_bound _ _ Ed) as H2.
  pose proof (sessionBytes_set (sessionOf (fragmentID (payload p)) s1)
                (index (payload p)) (fragmentData (payload p))) as H3.
  fold fragments in H3.
  pose proof (fragmentData_length (payload p) Hlen) as H4.
  lia.
Qed.

Lemma dispatchByType_fragment d E p sid :
  isFragmentType p = true -> dispatchByType d E p sid = handleFragment d E p sid.
Proof.
  unfold isFragmentType, isType, dispatchByType, isFragmentType, isType.
  unfold MessageType.FRAGMENT_START, MessageType.FRAGMENT_CONTINUE,
    MessageType.FRAGMENT_END, MessageType.ANNOUNCE, MessageType.MESSAGE,
    MessageType.LEAVE, MessageType.DELIVERY_ACK, MessageType.READ_RECEIPT,
    MessageType.CHANNEL_ANNOUNCE, MessageType.NOISE_ENCRYPTED.
  intros H.
  destruct (Z.eqb_spec (type p) 5) as [->|]; [reflexivity|].
  destruct (Z.eqb_spec (type p) 6) as [->|]; [reflexivity|].
  destruct (Z.eqb_spec (type p) 7) as [->|]; [reflexivity|discriminate].
Qed.

Lemma totalFragmentBytes_nonneg s : 0 <= totalFragmentBytes s.
Proof. rewrite totalFragmentBytes_table. apply tableBytes_nonneg. Qed.

Lemma handleReceivedPacketFuel_S fuel E p sid s :
  handleReceivedPacketFuel (S fuel) E p sid s
  = if ttl p <=? 0 then (s, [])
    else if OSet.has str_eqb (processedMessages s) (packetKey sid p) then (s, [])
    else (recordPacket (packetKey sid p) sid ;;
          dispatchByType (handleReceivedPacketFuel fuel E) E p sid ;;
          (if 1 <? ttl p then relayPacket E p else skip))%action s.
Proof. reflexivity. Qed.

(** Once the fuel exceeds the buffered bytes plus the payload length, one
    more unit changes nothing. *)
Lemma enough_fuel E fuel : forall p sid s,
  totalFragmentBytes s + len p.(payload) < Z.of_nat fuel ->
  handleReceivedPacketFuel fuel E p sid s = handleReceivedPacketFuel (S fuel) E p sid s.
Proof.
  induction fuel as [|fuel IH]; intros p sid s Hfuel.
  { pose proof (totalFragmentBytes_nonneg s). pose proof (len_nonneg (payload p)). lia. }
  destruct (isFragmentType p) eqn:Ef; [|now apply nonfragment_fuel].
  rewrite !handleReceivedPacketFuel_S.
  destruct (ttl p <=? 0); [reflexivity|].
  destruct (OSet.has _ _ _); [reflexivity|].
  rewrite !(dispatchByType_fragment _ E p sid Ef).
  unfold recordPacket, modify, andThen. cbv beta iota zeta.
  match goal with |- context [handleFragment _ E p sid ?x] => set (s1 := x) end.
  assert (Hs1 : totalFragmentBytes s1 = totalFragmentBytes s) by reflexivity.
  rewrite (handleFragment_agree (handleReceivedPacketFuel fuel E)
             (handleReceivedPacketFuel (S fuel) E) sid E p s1).
  - reflexivity.
  - intros Hlen r s' Hm. pose proof (totalFragmentBytes_nonneg s).
    destruct fuel as [|fuel']; [lia|].
    apply nonfragment_fuel, message_not_fragment, Hm.
  - intros r s' Hlt. apply IH. lia.
Qed.

(** [handleReceivedPacket] always comes to an end: a reassembled packet that
    is itself a fragment and completes another reassembly, and so on, is
    followed as deep as it goes, because every such step leaves at least 34
    fewer bytes buffered or pending.  The bound the embedding puts on that
    depth is therefore never reached: with any larger bound the handler does
    the same. *)
Theorem handleReceivedPacket_total E p sid s (extra : nat) :
  handleReceivedPacketFuel (fuelFor s p + extra) E p sid s
  = handleReceivedPacket E p sid s.
Proof.
  unfold handleReceivedPacket.
  induction extra as [|extra IH]; [now rewrite Nat.add_0_r|].
  rewrite Nat.add_succ_r, <- enough_fuel; [exact IH|].
  unfold fuelFor. pose proof (totalFragmentBytes_nonneg s).
  pose proof (len_nonneg (payload p)). lia.
Qed.
